(** * Travel planner: the aggregation endpoint of the chat API

    A shallow embedding of the request handler of the travel-planning
    assistant.  Two revisions of the handler are covered:

    - [Basic]    : src/app/api/chat/route.js (route and popular places);
    - [Enhanced] : the revision that also fetches historical information
                   and hotel recommendations, and joins the four provider
                   calls with [Promise.all].

    The helpers [getCoordinates], [getRouteDetails] and [getPopularPlaces]
    are textually the same in both revisions and are embedded once.

    The chat page that posts to the endpoint ([Chat], in the file of the
    second revision) is embedded as a state of three fields, the two halves
    of its submit handler and the events that drive them.

    Conventions of the embedding:

    - a JavaScript number is an IEEE 754 binary64 value ([Number.number]),
      with the division of the language and the conversions
      [Math.floor], [Number.prototype.toFixed] and number-to-string;
    - a JavaScript string is a [string] holding its UTF-8 bytes, a lone
      surrogate being written with the three bytes of its own code point
      (generalised UTF-8); [encodeURIComponent] throws on such a string;
    - the payload of every provider is a record with the fields the handler
      reads; a field is optional exactly where the handler tests for its
      absence;
    - [axios.get] asks the outside world, which is a family of functions
      from the request URL to a reply that is either rejected or resolved
      with a payload; every request is logged;
    - an [async] function is a computation that returns normally or throws,
      together with the log of the requests it issued. *)

From Stdlib Require Import ZArith Lia Bool List Ascii String.
From Stdlib Require Import Floats.SpecFloat.
From stdpp Require Import base option list strings gmap.

Local Open Scope Z_scope.

(** ** JavaScript numbers *)

Module Number.

Definition prec : Z := 53.
Definition emax : Z := 1024.

Definition number : Type := spec_float.

(** The number denoted by an integer literal. *)
Definition of_Z (n : Z) : number := binary_normalize prec emax n 0 false.

(** [x / y] *)
Definition div (x y : number) : number := SFdiv prec emax x y.

Definition isFinite (x : number) : bool :=
  match x with
  | S754_zero _ | S754_finite _ _ _ => true
  | _ => false
  end.

(** The real value of a finite number is the fraction [num x / den x],
    with [den x] a power of two. *)
Definition num (x : number) : Z :=
  match x with
  | S754_finite s m e => cond_Zopp s (Z.shiftl (Zpos m) (Z.max e 0))
  | _ => 0
  end.

Definition den (x : number) : Z :=
  match x with
  | S754_finite _ _ e => Z.shiftl 1 (Z.max (- e) 0)
  | _ => 1
  end.

(** Truthiness of a number: [0], [-0] and [NaN] are falsy. *)
Definition ToBoolean (x : number) : bool :=
  match x with
  | S754_zero _ | S754_nan => false
  | _ => true
  end.

(** [Math.floor] *)
Definition floorZ (x : number) : Z := num x / den x.

Definition floor (x : number) : number :=
  match x with
  | S754_finite _ _ _ => of_Z (floorZ x)
  | _ => x
  end.

(** Decimal digits of a non-negative integer, without leading zeros. *)
Definition digit (d : Z) : string :=
  String (ascii_of_N (48 + Z.to_N d)) EmptyString.

Fixpoint decimal_fuel (fuel : nat) (n : Z) : string :=
  match fuel with
  | O => digit (n mod 10)
  | S fuel' =>
      if n <? 10 then digit n
      else decimal_fuel fuel' (n / 10) +:+ digit (n mod 10)
  end.

Definition decimal (n : Z) : string :=
  decimal_fuel (Z.to_nat (Z.log2 n)) n.

Fixpoint zeros (n : nat) : string :=
  match n with
  | O => ""
  | S n' => "0" +:+ zeros n'
  end.

(** *** Number to string

    For a finite non-zero [x] the language picks integers [n], [k] and [s]
    with [k >= 1], [10^(k-1) <= s < 10^k], such that [s * 10^(n-k)] rounds
    to [x] and [k] is as small as possible; of several [s] the one closest
    to [x].  [shortest] searches [k = 1, 2, ...]; for each [k] only the two
    [k]-digit decimals that enclose [x] can be the closest. *)

(** [a / b < 10^n] *)
Definition lt_pow10 (a b n : Z) : bool :=
  if 0 <=? n then a <? b * 10 ^ n else a * 10 ^ (- n) <? b.

Fixpoint find_pow10 (fuel : nat) (a b n : Z) : Z :=
  match fuel with
  | O => n
  | S fuel' => if lt_pow10 a b n then n else find_pow10 fuel' a b (n + 1)
  end.

(** The least [n] with [a / b < 10^n], found from the binary logarithm. *)
Definition pow10_exponent (a b : Z) : Z :=
  let e2 := Z.log2 a - Z.log2 b in
  find_pow10 5 a b (e2 * 30103 / 100000 - 1).

(** The number nearest to [s * 10^p]. *)
Definition round_decimal (s p : Z) : number :=
  if 0 <=? p then of_Z (s * 10 ^ p)
  else match s, 10 ^ (- p) with
       | Zpos ms, Zpos md => div (S754_finite false ms 0) (S754_finite false md 0)
       | _, _ => S754_zero false
       end.

(** The two [k]-digit decimals around [a / b], and which one is closer. *)
Definition candidates (a b n k : Z) : Z * Z * comparison :=
  let p := n - k in
  let '(q, r, d) :=
    if 0 <=? p then (a / (b * 10 ^ p), a mod (b * 10 ^ p), b * 10 ^ p)
    else ((a * 10 ^ (- p)) / b, (a * 10 ^ (- p)) mod b, b) in
  (q, q + 1, (2 * r ?= d)).

Definition normalise_digits (s n k : Z) : Z * Z :=
  if s =? 10 ^ k then (10 ^ (k - 1), n + 1) else (s, n).

Fixpoint shortest_fuel (fuel : nat) (x : number) (a b n k : Z) : Z * Z * Z :=
  let '(lo, hi, c) := candidates a b n k in
  let ok_lo := SFeqb (round_decimal lo (n - k)) x in
  let ok_hi := SFeqb (round_decimal hi (n - k)) x in
  let pick s := let '(s', n') := normalise_digits s n k in (s', n', k) in
  match fuel with
  | O => pick (match c with Gt => hi | _ => lo end)
  | S fuel' =>
      match ok_lo, ok_hi with
      | true, true =>
          pick (match c with
                | Lt => lo
                | Gt => hi
                | Eq => if Z.even lo then lo else hi
                end)
      | true, false => pick lo
      | false, true => pick hi
      | false, false => shortest_fuel fuel' x a b n (k + 1)
      end
  end.

(** Seventeen digits always identify a binary64 value, so the search ends
    at [k <= 17]. *)
Definition shortest (x : number) : Z * Z * Z :=
  let a := Z.abs (num x) in
  let b := den x in
  shortest_fuel 17 x a b (pow10_exponent a b) 1.

Definition exponent_part (n : Z) : string :=
  "e" +:+ (if 0 <=? n - 1 then "+" else "-") +:+ decimal (Z.abs (n - 1)).

Definition format_digits (s n k : Z) : string :=
  let ds := decimal s in
  if (k <=? n) && (n <=? 21) then ds +:+ zeros (Z.to_nat (n - k))
  else if (0 <? n) && (n <=? 21) then
    substring 0 (Z.to_nat n) ds +:+ "." +:+
    substring (Z.to_nat n) (Z.to_nat (k - n)) ds
  else if (-6 <? n) && (n <=? 0) then
    "0." +:+ zeros (Z.to_nat (- n)) +:+ ds
  else if k =? 1 then ds +:+ exponent_part n
  else substring 0 1 ds +:+ "." +:+
       substring 1 (Z.to_nat (k - 1)) ds +:+ exponent_part n.

(** The search runs on the canonical representation of the magnitude
    ([binary_round] leaves a valid binary64 value as it is).

    An integer below [2^53] in magnitude is written with all its digits:
    every integer of that range is a number of its own, so the shortest
    decimal that rounds to it is the integer itself. *)
Definition isSafeInteger (x : number) : bool :=
  (num x mod den x =? 0) && (Z.abs (num x / den x) <? 2 ^ 53).

Definition toString (x : number) : string :=
  match x with
  | S754_nan => "NaN"
  | S754_zero _ => "0"
  | S754_infinity s => if s then "-Infinity" else "Infinity"
  | S754_finite s m e =>
      (if s then "-" else "") +:+
      (if isSafeInteger x then decimal (Z.abs (num x / den x))
       else let '(d, n, k) := shortest (binary_round prec emax false m e) in
            format_digits d n k)
  end.

(** [x.toFixed(f)]: not finite, or [10^21] and more in magnitude, falls back
    to [toString]; otherwise the integer [n] nearest to [|x| * 10^f] (the
    larger of two) is written with [f] digits after the point. *)
Definition toFixed (x : number) (f : nat) : string :=
  if negb (isFinite x) then toString x
  else
    let s := if num x <? 0 then "-" else "" in
    let a := Z.abs (num x) in
    let b := den x in
    if 10 ^ 21 * b <=? a then s +:+ toString (SFabs x)
    else
      let n := (2 * a * 10 ^ Z.of_nat f + b) / (2 * b) in
      let m := decimal n in
      match f with
      | O => s +:+ m
      | S _ =>
          let k := String.length m in
          let m := if (k <=? f)%nat then zeros (f + 1 - k) +:+ m else m in
          let k := if (k <=? f)%nat then (f + 1)%nat else k in
          s +:+ substring 0 (k - f) m +:+ "." +:+ substring (k - f) f m
      end.

End Number.

(** ** Strings and arrays of the language *)

Module Js.

Definition nl : string := String (ascii_of_N 10) EmptyString.

(** A value that is a number or a string, as held by the [rating] of a
    hotel entry. *)
Inductive value : Type :=
  | VNumber (n : Number.number)
  | VString (s : string).

(** String conversion inside a template literal. *)
Definition ToString (v : value) : string :=
  match v with
  | VNumber n => Number.toString n
  | VString s => s
  end.

(** An environment variable that is not set reads [undefined]. *)
Definition template_env (v : option string) : string :=
  match v with
  | Some s => s
  | None => "undefined"
  end.

(** *** [encodeURIComponent] *)

Definition unreserved (c : ascii) : bool :=
  let n := N_of_ascii c in
  (((65 <=? n) && (n <=? 90)) || ((97 <=? n) && (n <=? 122)) ||
   ((48 <=? n) && (n <=? 57)) ||
   (n =? 45) || (n =? 95) || (n =? 46) || (n =? 33) || (n =? 126) ||
   (n =? 42) || (n =? 39) || (n =? 40) || (n =? 41))%N.

Definition hex_digit (d : N) : ascii :=
  if (d <? 10)%N then ascii_of_N (48 + d) else ascii_of_N (55 + d).

Definition percent_encode (c : ascii) : string :=
  let n := N_of_ascii c in
  String "%" (String (hex_digit (n / 16)) (String (hex_digit (n mod 16)) EmptyString)).

(** The escaped form of a string, byte by byte. *)
Fixpoint encode_bytes (s : string) : string :=
  match s with
  | EmptyString => EmptyString
  | String c s' =>
      (if unreserved c then String c EmptyString else percent_encode c)
      +:+ encode_bytes s'
  end.

(** [s.isWellFormed()]: the string has no lone surrogate.  The code points
    U+D800 to U+DFFF are the ones whose bytes start with ED A0 to ED BF. *)
Fixpoint isWellFormed (s : string) : bool :=
  match s with
  | EmptyString => true
  | String c rest =>
      match rest with
      | EmptyString => true
      | String d _ =>
          negb ((N_of_ascii c =? 237) && (160 <=? N_of_ascii d) && (N_of_ascii d <=? 191))%N
          && isWellFormed rest
      end
  end.

(** [encodeURIComponent(s)]; [None] when the call throws a [URIError], which
    it does on a lone surrogate. *)
Definition encodeURIComponent (s : string) : option string :=
  if isWellFormed s then Some (encode_bytes s) else None.

(** *** Arrays *)

(** [a.join(sep)] on an array of strings: the separator goes before every
    element but the first. *)
Definition join_step (sep : string) (acc : string * bool) (x : string) : string * bool :=
  let '(r, first) := acc in
  ((if first then r else r +:+ sep) +:+ x, false).

Definition join (sep : string) (a : list string) : string :=
  fst (fold_left (join_step sep) a (EmptyString, true)).

(** [a.slice(start, end)] for non-negative indices. *)
Definition slice {A : Type} (start stop : nat) (a : list A) : list A :=
  take (stop - start) (drop start a).

(** [a.map((x, index) => f x index)]; the index is a number. *)
Definition map_indexed {A B : Type} (f : A -> Number.number -> B) (a : list A) : list B :=
  imap (fun i x => f x (Number.of_Z (Z.of_nat i))) a.

(** [index + 1] for an array index. *)
Definition succ_index (index : Number.number) : Number.number :=
  SFadd Number.prec Number.emax index (Number.of_Z 1).

(** A template literal is the concatenation of its parts. *)
Definition template (parts : list string) : string :=
  fold_right String.append EmptyString parts.

(** Truthiness of a string that may be [undefined]. *)
Definition truthy (s : option string) : bool :=
  match s with
  | None => false
  | Some EmptyString => false
  | Some _ => true
  end.

End Js.

(** ** Provider payloads

    One record per JSON object the handler reads.  A field is an [option]
    where the handler tests for its absence ([!routes], [step.name &&],
    [hotel.rating ||], [categories[0]?.name ||], [!searchResults]). *)

Module Feature.
(** [geometry.coordinates] is the pair [[lon, lat]]. *)
Record t := mk { coordinates : Number.number * Number.number }.
End Feature.

Module Geocoding.
Record t := mk { features : list Feature.t }.
End Geocoding.

Module Step.
Record t := mk {
  name : option string;
  maneuver_instruction : string;
  distance : Number.number;
  duration : Number.number }.
End Step.

Module Leg.
Record t := mk { steps : list Step.t }.
End Leg.

Module Route.
Record t := mk {
  distance : Number.number;
  duration : Number.number;
  legs : list Leg.t }.
End Route.

Module Directions.
Record t := mk { routes : option (list Route.t) }.
End Directions.

Module SearchHit.
Record t := mk { title : string; pageid : Number.number }.
End SearchHit.

Module Search.
(** [data.query.search] *)
Record t := mk { query_search : option (list SearchHit.t) }.
End Search.

Module Summary.
Record t := mk {
  title : string;
  extract : string;
  content_urls_desktop_page : string }.
End Summary.

Module Extracts.
(** [data.query.pages], an object keyed by page identifier; each page has
    an [extract]. *)
Record t := mk { query_pages : gmap string string }.
End Extracts.

Module Info.
(** [data.query.pages]; each page has a [fullurl]. *)
Record t := mk { query_pages : gmap string string }.
End Info.

Module Category.
Record t := mk { name : option string }.
End Category.

Module Venue.
Record t := mk {
  name : string;
  rating : option Number.number;
  location_formatted_address : string;
  categories : list Category.t;
  fsq_id : string }.
End Venue.

Module Venues.
Record t := mk { results : list Venue.t }.
End Venues.

(** ** Results of the handler's functions *)

Module Coordinates.
Record t := mk { lat : Number.number; lon : Number.number }.
End Coordinates.

Module RoutePlace.
Record t := mk {
  name : string;
  instruction : string;
  distance : Number.number;
  duration : Number.number }.
End RoutePlace.

Module RouteDetails.
Record t := mk {
  duration : string;
  distance : string;
  directions : string;
  places : list RoutePlace.t }.
End RouteDetails.

Module PopularPlace.
Record t := mk { title : string; description : string; url : string }.
End PopularPlace.

Module HistoricalInfo.
Record t := mk { summary : string; source : string }.
End HistoricalInfo.

Module Hotel.
Record t := mk {
  name : string;
  rating : Js.value;
  address : string;
  category : string;
  link : string }.
End Hotel.

(** [{ success: true, ... }] or [{ success: false, message }]. *)
Inductive result (A : Type) : Type :=
  | Success (payload : A)
  | Failure (message : string).
Arguments Success {A} payload.
Arguments Failure {A} message.

Definition success {A : Type} (r : result A) : bool :=
  match r with
  | Success _ => true
  | Failure _ => false
  end.

(** ** The outside world and asynchronous computations *)

Inductive reply (A : Type) : Type :=
  | Rejected
  | Resolved (data : A).
Arguments Rejected {A}.
Arguments Resolved {A} data.

Inductive endpoint : Type :=
  | MapboxGeocoding
  | MapboxDirections
  | WikipediaSearch
  | WikipediaSummary
  | WikipediaExtracts
  | WikipediaInfo
  | FoursquareSearch.

Definition request : Type := endpoint * string.

(** The process environment and the providers.  Each provider answers a
    request URL; the hotel provider also sees the [Authorization] header. *)
Record World := mkWorld {
  mapboxToken : option string;
  foursquareApiKey : option string;
  geocoding : string -> reply Geocoding.t;
  directions : string -> reply Directions.t;
  wikipediaSearch : string -> reply Search.t;
  wikipediaSummary : string -> reply Summary.t;
  wikipediaExtracts : string -> reply Extracts.t;
  wikipediaInfo : string -> reply Info.t;
  foursquare : string -> option string -> reply Venues.t }.

Inductive error : Type :=
  | AxiosError
  | TypeError
  | URIError.

Inductive completion (A : Type) : Type :=
  | Normal (a : A)
  | Throw (e : error).
Arguments Normal {A} a.
Arguments Throw {A} e.

(** An asynchronous computation: how it completes and what it requested. *)
Definition Async (A : Type) : Type := completion A * list request.

Definition outcome {A : Type} (m : Async A) : completion A := fst m.
Definition requests {A : Type} (m : Async A) : list request := snd m.

#[export] Instance Async_ret : MRet Async := fun A a => (Normal a, []).

#[export] Instance Async_bind : MBind Async := fun A B f m =>
  match m with
  | (Normal a, log) => let '(c, log') := f a in (c, log ++ log')
  | (Throw e, log) => (Throw e, log)
  end.

Definition throw {A : Type} (e : error) : Async A := (Throw e, []).

(** A call of a built-in function that returns or throws [e]. *)
Definition or_throw {A : Type} (e : error) (v : option A) : Async A :=
  match v with
  | Some a => mret a
  | None => throw e
  end.

(** [try { body } catch (error) { handler }] *)
Definition try_catch {A : Type} (body : Async A) (handler : error -> Async A) : Async A :=
  match body with
  | (Normal a, log) => (Normal a, log)
  | (Throw e, log) => let '(c, log') := handler e in (c, log ++ log')
  end.

(** [await axios.get(url)]: rejected replies throw. *)
Definition axios_get {A : Type} (ep : endpoint) (provider : string -> reply A)
    (url : string) : Async A :=
  match provider url with
  | Resolved data => (Normal data, [(ep, url)])
  | Rejected => (Throw AxiosError, [(ep, url)])
  end.

(** [await Promise.all([a, b, c, d])]: the four calls are all started; the
    join throws when one of them throws.  The calls share no state, so
    their results do not depend on how their requests interleave; the log
    lists the requests call by call. *)
Definition Promise_all4 {A B C D : Type}
    (a : Async A) (b : Async B) (c : Async C) (d : Async D) : Async (A * B * C * D) :=
  (match outcome a, outcome b, outcome c, outcome d with
   | Normal x, Normal y, Normal z, Normal u => Normal (x, y, z, u)
   | Throw e, _, _, _ => Throw e
   | _, Throw e, _, _ => Throw e
   | _, _, Throw e, _ => Throw e
   | _, _, _, Throw e => Throw e
   end,
   requests a ++ requests b ++ requests c ++ requests d).

(** [for (let i = 0; i < n; i++) body]: the body sees [i] and the local
    state, and does not assign [i]; [count] iterations remain. *)
Fixpoint for_from {S : Type} (count i : nat) (body : nat -> S -> Async S) (s : S) : Async S :=
  match count with
  | O => mret s
  | Datatypes.S count' => s' ← body i s; for_from count' (i + 1)%nat body s'
  end.

Definition for_range {S : Type} (n : nat) (body : nat -> S -> Async S) (s : S) : Async S :=
  for_from n 0%nat body s.

(** A default parameter value. *)
Definition default_parameter (d : string) (v : option string) : string :=
  match v with
  | Some s => s
  | None => d
  end.

(** ** Functions shared by both revisions *)

(** The URL templates take the value of their [encodeURIComponent(...)]
    part; [geocodeUrl], [summaryUrl], [placesSearchUrl] and
    [historySearchUrl] are the URLs of a name whose encoding returns. *)
Definition geocodeUrlOf (w : World) (component : string) : string :=
  Js.template
    ["https://api.mapbox.com/geocoding/v5/mapbox.places/";
     component; ".json?access_token=";
     Js.template_env (mapboxToken w)].

Definition geocodeUrl (w : World) (location : string) : string :=
  geocodeUrlOf w (Js.encode_bytes location).

(** The URL is built before the [try]: a [URIError] is not caught. *)
Definition getCoordinates (w : World) (location : string) : Async (option Coordinates.t) :=
  component ← or_throw URIError (Js.encodeURIComponent location);
  let geocodeUrl := geocodeUrlOf w component in
  try_catch
    (response ← axios_get MapboxGeocoding (geocoding w) geocodeUrl;
     let results := Geocoding.features response in
     if (length results =? 0)%nat then mret None
     else
       match results !! 0%nat with
       | None => throw TypeError
       | Some first =>
           let '(lon, lat) := Feature.coordinates first in
           mret (Some (Coordinates.mk lat lon))
       end)
    (fun _ => mret None).

(** The body of [legs[0].steps.forEach]. *)
Definition collect_step (acc : list string * list RoutePlace.t) (step : Step.t)
    : list string * list RoutePlace.t :=
  let '(directions, places) := acc in
  let directions := directions ++ [Step.maneuver_instruction step] in
  match Step.name step with
  | Some name =>
      if Js.truthy (Some name) && negb (String.eqb name "") then
        (directions,
         places ++ [RoutePlace.mk name (Step.maneuver_instruction step)
                      (Step.distance step) (Step.duration step)])
      else (directions, places)
  | None => (directions, places)
  end.

Definition routeUrl (w : World) (origin destination : Coordinates.t)
    (travelMode : string) : string :=
  Js.template
    ["https://api.mapbox.com/directions/v5/mapbox/"; travelMode; "/";
     Number.toString (Coordinates.lon origin); ",";
     Number.toString (Coordinates.lat origin); ";";
     Number.toString (Coordinates.lon destination); ",";
     Number.toString (Coordinates.lat destination);
     "?geometries=geojson&overview=full&steps=true&access_token=";
     Js.template_env (mapboxToken w)].

Definition getRouteDetails (w : World) (origin destination : Coordinates.t)
    (travelMode : option string) : Async (result RouteDetails.t) :=
  let travelMode := default_parameter "driving" travelMode in
  try_catch
    (let routeUrl := routeUrl w origin destination travelMode in
     response ← axios_get MapboxDirections (directions w) routeUrl;
     match Directions.routes response with
     | None =>
         mret (Failure "No routes found. Please check the origin and destination.")
     | Some routes =>
         if (length routes =? 0)%nat then
           mret (Failure "No routes found. Please check the origin and destination.")
         else
           match routes !! 0%nat with
           | None => throw TypeError
           | Some bestRoute =>
               let distance := Route.distance bestRoute in
               let duration := Route.duration bestRoute in
               let legs := Route.legs bestRoute in
               match legs !! 0%nat with
               | None => throw TypeError
               | Some leg =>
                   let '(directions, places) :=
                     fold_left collect_step (Leg.steps leg) ([], []) in
                   mret (Success (RouteDetails.mk
                     (Js.template
                        [Number.toString (Number.floor (Number.div duration (Number.of_Z 60)));
                         " minutes"])
                     (Js.template
                        [Number.toFixed (Number.div distance (Number.of_Z 1000)) 2;
                         " km"])
                     (Js.join " -> " directions)
                     places))
               end
           end
     end)
    (fun _ => mret (Failure "Failed to get route details from Mapbox.")).

Definition summaryUrlOf (component : string) : string :=
  Js.template
    ["https://en.wikipedia.org/api/rest_v1/page/summary/";
     component].

Definition summaryUrl (pageTitle : string) : string :=
  summaryUrlOf (Js.encode_bytes pageTitle).

(** One iteration of the loop of [getPopularPlaces]. *)
Definition fetch_summary (w : World) (searchResults : list SearchHit.t) (i : nat)
    (places : list PopularPlace.t) : Async (list PopularPlace.t) :=
  match searchResults !! i with
  | None => throw TypeError
  | Some hit =>
      let pageTitle := SearchHit.title hit in
      component ← or_throw URIError (Js.encodeURIComponent pageTitle);
      let summaryUrl := summaryUrlOf component in
      summaryData ← axios_get WikipediaSummary (wikipediaSummary w) summaryUrl;
      mret (places ++ [PopularPlace.mk (Summary.title summaryData)
                         (Summary.extract summaryData)
                         (Summary.content_urls_desktop_page summaryData)])
  end.

Definition placesSearchUrlOf (component : string) : string :=
  Js.template
    ["https://en.wikipedia.org/w/api.php?action=query&list=search&srsearch=";
     component; " tourist attractions&format=json&origin=*"].

Definition placesSearchUrl (location : string) : string :=
  placesSearchUrlOf (Js.encode_bytes location).

(** The search URL is built before the [try], the summary URLs inside it. *)
Definition getPopularPlaces (w : World) (location : string)
    : Async (result (list PopularPlace.t)) :=
  component ← or_throw URIError (Js.encodeURIComponent location);
  let searchUrl := placesSearchUrlOf component in
  try_catch
    (response ← axios_get WikipediaSearch (wikipediaSearch w) searchUrl;
     match Search.query_search response with
     | None => mret (Failure "No popular places found at the destination.")
     | Some searchResults =>
         if (length searchResults =? 0)%nat then
           mret (Failure "No popular places found at the destination.")
         else
           places ← for_range (Nat.min (length searchResults) 5)
                      (fetch_summary w searchResults) [];
           mret (Success places)
     end)
    (fun _ => mret (Failure "Failed to get popular places from Wikipedia.")).

(** The line of one place along the route in the reply. *)
Definition render_route_place (p : RoutePlace.t) (index : Number.number) : string :=
  Js.template
    [Number.toString (Js.succ_index index); ". "; RoutePlace.name p; ": ";
     RoutePlace.instruction p; " (";
     Number.toFixed (RoutePlace.distance p) 2; " m, ";
     Number.toString (Number.floor (Number.div (RoutePlace.duration p) (Number.of_Z 60)));
     " min)"].

Definition render_popular_place (p : PopularPlace.t) (index : Number.number) : string :=
  Js.template
    [Number.toString (Js.succ_index index); ". ["; PopularPlace.title p; "](";
     PopularPlace.url p; "): "; PopularPlace.description p].

Definition placesAlongRouteDescription (placesAlongRoute : list RoutePlace.t) : string :=
  Js.join Js.nl (Js.map_indexed render_route_place (Js.slice 0 5 placesAlongRoute)).

Definition popularPlacesDescription (popularPlaces : list PopularPlace.t) : string :=
  Js.join Js.nl (Js.map_indexed render_popular_place popularPlaces).

Definition mapboxDirectionsUrl (originCoords destinationCoords : Coordinates.t)
    (travelMode : string) : string :=
  Js.template
    ["https://www.mapbox.com/directions/?start=";
     Number.toString (Coordinates.lon originCoords); ",";
     Number.toString (Coordinates.lat originCoords); "&end=";
     Number.toString (Coordinates.lon destinationCoords); ",";
     Number.toString (Coordinates.lat destinationCoords); "&profile="; travelMode].

Definition googleMapsDirectionsUrl (originCoords destinationCoords : Coordinates.t)
    (travelMode : string) : string :=
  Js.template
    ["https://www.google.com/maps/dir/?api=1&origin=";
     Number.toString (Coordinates.lat originCoords); ",";
     Number.toString (Coordinates.lon originCoords); "&destination=";
     Number.toString (Coordinates.lat destinationCoords); ",";
     Number.toString (Coordinates.lon destinationCoords); "&travelmode="; travelMode].

(** ** The revision of src/app/api/chat/route.js *)

Module Basic.

Record TravelPlan := mkTravelPlan {
  duration : string;
  distance : string;
  directions : string;
  placesAlongRoute : list RoutePlace.t;
  popularPlaces : list PopularPlace.t;
  mapboxUrl : string;
  googleMapsUrl : string }.

Definition getRouteAndDetails (w : World) (origin destination : string)
    (travelMode : option string) : Async (result TravelPlan) :=
  let travelMode := default_parameter "driving" travelMode in
  originCoords ← getCoordinates w origin;
  destinationCoords ← getCoordinates w destination;
  match originCoords, destinationCoords with
  | Some originCoords, Some destinationCoords =>
      routeResult ← getRouteDetails w originCoords destinationCoords (Some travelMode);
      match routeResult with
      | Failure message => mret (Failure message)
      | Success route =>
          popularPlaces ← getPopularPlaces w destination;
          mret (Success (mkTravelPlan
            (RouteDetails.duration route)
            (RouteDetails.distance route)
            (RouteDetails.directions route)
            (RouteDetails.places route)
            (match popularPlaces with Success places => places | Failure _ => [] end)
            (mapboxDirectionsUrl originCoords destinationCoords travelMode)
            (googleMapsDirectionsUrl originCoords destinationCoords travelMode)))
      end
  | _, _ => mret (Failure "Failed to get coordinates for origin or destination.")
  end.

Definition render (origin destination : string) (plan : TravelPlan) : string :=
  Js.template
    ["The best route from "; origin; " to "; destination;
     " will take approximately "; duration plan;
     ", covering a distance of "; distance plan; "."; Js.nl; Js.nl;
     "Detailed directions: "; directions plan; Js.nl; Js.nl;
     "Notable places along the route:"; Js.nl;
     placesAlongRouteDescription (placesAlongRoute plan); Js.nl; Js.nl;
     "Popular places to visit at "; destination; ":"; Js.nl;
     popularPlacesDescription (popularPlaces plan); Js.nl; Js.nl;
     "You can view the interactive route maps here:"; Js.nl; Js.nl;
     "- [Google Maps Directions]("; googleMapsUrl plan; ")"; Js.nl; Js.nl;
     "Note: These links will open the respective directions interface, allowing you to view the route and directions interactively."].

(** The [execute] callback of the [get_route] tool; the value is the [text]
    of the reply. *)
Definition execute (w : World) (origin destination : string)
    (travelMode : option string) : Async string :=
  let travelMode := default_parameter "driving" travelMode in
  try_catch
    (result ← getRouteAndDetails w origin destination (Some travelMode);
     match result with
     | Success plan => mret (render origin destination plan)
     | Failure message => mret message
     end)
    (fun _ => mret "There was an error retrieving route and place information.").

End Basic.

(** ** The revision with historical information and hotels *)

Module Enhanced.

Definition historySearchUrlOf (component : string) : string :=
  Js.template
    ["https://en.wikipedia.org/w/api.php?action=query&list=search&srsearch=";
     component; "&format=json&origin=*"].

Definition historySearchUrl (location : string) : string :=
  historySearchUrlOf (Js.encode_bytes location).

Definition contentUrl (pageId : Number.number) : string :=
  Js.template
    ["https://en.wikipedia.org/w/api.php?action=query&prop=extracts&exintro=1&explaintext=1&pageids=";
     Number.toString pageId; "&format=json&origin=*"].

Definition titleUrl (pageId : Number.number) : string :=
  Js.template
    ["https://en.wikipedia.org/w/api.php?action=query&prop=info&inprop=url&pageids=";
     Number.toString pageId; "&format=json&origin=*"].

Definition getHistoricalInfo (w : World) (location : string)
    : Async (result HistoricalInfo.t) :=
  try_catch
    (component ← or_throw URIError (Js.encodeURIComponent location);
     let searchUrl := historySearchUrlOf component in
     searchResponse ← axios_get WikipediaSearch (wikipediaSearch w) searchUrl;
     match Search.query_search searchResponse with
     | None => throw TypeError
     | Some search =>
         let pageId := SearchHit.pageid <$> search !! 0%nat in
         match pageId with
         | None => mret (Failure "No historical information found.")
         | Some pageId =>
             if negb (Number.ToBoolean pageId) then
               mret (Failure "No historical information found.")
             else
               let contentUrl := contentUrl pageId in
               contentResponse ← axios_get WikipediaExtracts (wikipediaExtracts w) contentUrl;
               match Extracts.query_pages contentResponse !! Number.toString pageId with
               | None => throw TypeError
               | Some extract =>
                   let titleUrl := titleUrl pageId in
                   titleResponse ← axios_get WikipediaInfo (wikipediaInfo w) titleUrl;
                   match Info.query_pages titleResponse !! Number.toString pageId with
                   | None => throw TypeError
                   | Some pageUrl =>
                       mret (Success (HistoricalInfo.mk extract pageUrl))
                   end
               end
         end
     end)
    (fun _ => mret (Failure "Failed to fetch historical information.")).

(** [hotel.rating || 'N/A'] *)
Definition rating_or_default (rating : option Number.number) : Js.value :=
  match rating with
  | Some r => if Number.ToBoolean r then Js.VNumber r else Js.VString "N/A"
  | None => Js.VString "N/A"
  end.

(** [hotel.categories[0]?.name || 'Hotel'] *)
Definition category_or_default (categories : list Category.t) : string :=
  let name := categories !! 0%nat ≫= Category.name in
  match name with
  | Some n => if Js.truthy (Some n) then n else "Hotel"
  | None => "Hotel"
  end.

Definition to_hotel (hotel : Venue.t) : Hotel.t :=
  Hotel.mk
    (Venue.name hotel)
    (rating_or_default (Venue.rating hotel))
    (Venue.location_formatted_address hotel)
    (category_or_default (Venue.categories hotel))
    (Js.template ["https://foursquare.com/v/"; Venue.fsq_id hotel]).

Definition hotelSearchUrl (coordinates : Coordinates.t) : string :=
  Js.template
    ["https://api.foursquare.com/v3/places/search?query=hotel&ll=";
     Number.toString (Coordinates.lat coordinates); ",";
     Number.toString (Coordinates.lon coordinates); "&sort=RATING&limit=5"].

Definition getHotelRecommendations (w : World) (coordinates : Coordinates.t)
    : Async (result (list Hotel.t)) :=
  try_catch
    (let url := hotelSearchUrl coordinates in
     response ← axios_get FoursquareSearch
                  (fun url => foursquare w url (foursquareApiKey w)) url;
     let hotels := map to_hotel (Venues.results response) in
     mret (Success hotels))
    (fun _ => mret (Failure "Failed to fetch hotel recommendations.")).

Record TravelPlan := mkTravelPlan {
  duration : string;
  distance : string;
  directions : string;
  placesAlongRoute : list RoutePlace.t;
  popularPlaces : list PopularPlace.t;
  historicalInfo : option HistoricalInfo.t;
  hotels : list Hotel.t;
  mapboxUrl : string;
  googleMapsUrl : string }.

Definition getRouteAndDetails (w : World) (origin destination : string)
    (travelMode : option string) : Async (result TravelPlan) :=
  let travelMode := default_parameter "driving" travelMode in
  originCoords ← getCoordinates w origin;
  destinationCoords ← getCoordinates w destination;
  match originCoords, destinationCoords with
  | Some originCoords, Some destinationCoords =>
      '(routeResult, popularPlaces, historicalInfo, hotels) ←
        Promise_all4
          (getRouteDetails w originCoords destinationCoords (Some travelMode))
          (getPopularPlaces w destination)
          (getHistoricalInfo w destination)
          (getHotelRecommendations w destinationCoords);
      match routeResult with
      | Failure message => mret (Failure message)
      | Success route =>
          mret (Success (mkTravelPlan
            (RouteDetails.duration route)
            (RouteDetails.distance route)
            (RouteDetails.directions route)
            (RouteDetails.places route)
            (match popularPlaces with Success places => places | Failure _ => [] end)
            (match historicalInfo with Success history => Some history | Failure _ => None end)
            (match hotels with Success hotels => hotels | Failure _ => [] end)
            (mapboxDirectionsUrl originCoords destinationCoords travelMode)
            (googleMapsDirectionsUrl originCoords destinationCoords travelMode)))
      end
  | _, _ => mret (Failure "Failed to get coordinates for origin or destination.")
  end.

Definition render_hotel (h : Hotel.t) (index : Number.number) : string :=
  Js.template
    [Number.toString (Js.succ_index index); ". ["; Hotel.name h; "](";
     Hotel.link h; ") - "; Hotel.category h; " (Rating: ";
     Js.ToString (Hotel.rating h); ")"; Js.nl; "   Address: "; Hotel.address h].

Definition hotelRecommendations (hotels : list Hotel.t) : string :=
  Js.join Js.nl (Js.map_indexed render_hotel hotels).

(** The two lines of the historical section. *)
Definition historical_summary (historicalInfo : option HistoricalInfo.t) : string :=
  match historicalInfo with
  | Some history => HistoricalInfo.summary history
  | None => "No historical information available."
  end.

Definition historical_source (historicalInfo : option HistoricalInfo.t) : string :=
  match historicalInfo with
  | Some history => Js.template [Js.nl; "Read more: "; HistoricalInfo.source history]
  | None => ""
  end.

Definition render (origin destination : string) (plan : TravelPlan) : string :=
  Js.template
    ["Travel Plan: "; origin; " to "; destination; Js.nl; Js.nl;
     "Route Information:"; Js.nl;
     "- Duration: "; duration plan; Js.nl;
     "- Distance: "; distance plan; Js.nl; Js.nl;
     "Detailed directions: "; directions plan; Js.nl; Js.nl;
     "Historical Information about "; destination; ":"; Js.nl;
     historical_summary (historicalInfo plan); Js.nl;
     historical_source (historicalInfo plan); Js.nl; Js.nl;
     "Notable places along the route:"; Js.nl;
     placesAlongRouteDescription (placesAlongRoute plan); Js.nl; Js.nl;
     "Popular places to visit at "; destination; ":"; Js.nl;
     popularPlacesDescription (popularPlaces plan); Js.nl; Js.nl;
     "Recommended Hotels:"; Js.nl;
     hotelRecommendations (hotels plan); Js.nl; Js.nl;
     "Interactive Maps:"; Js.nl;
     "- [Google Maps Directions]("; googleMapsUrl plan; ")"; Js.nl; Js.nl;
     "Note: Click the links to view interactive maps and more details about places and hotels."].

Definition execute (w : World) (origin destination : string)
    (travelMode : option string) : Async string :=
  let travelMode := default_parameter "driving" travelMode in
  try_catch
    (result ← getRouteAndDetails w origin destination (Some travelMode);
     match result with
     | Success plan => mret (render origin destination plan)
     | Failure message => mret message
     end)
    (fun _ => mret "There was an error retrieving travel information.").

End Enhanced.

(** ** Sample worlds

    Concrete provider replies on which the handlers are run. *)

Module Sample.

Definition named_step (name instruction : string) (distance duration : Z) : Step.t :=
  Step.mk (Some name) instruction (Number.of_Z distance) (Number.of_Z duration).

Definition steps : list Step.t :=
  [ named_step "MG Road" "Head north on MG Road" 120 30;
    Step.mk None "Turn left" (Number.of_Z 40) (Number.of_Z 10);
    named_step "Mysore Road" "Continue onto Mysore Road" 900 61;
    Step.mk (Some "") "Keep right" (Number.of_Z 15) (Number.of_Z 4);
    named_step "NH 275" "Merge onto NH 275" 300 125;
    named_step "Ring Road" "Take the Ring Road exit" 50 12;
    named_step "Sayyaji Rao Road" "Turn right onto Sayyaji Rao Road" 60 20;
    named_step "Palace Road" "Turn left onto Palace Road" 15 5;
    named_step "Palace Gate" "You have arrived" 0 0 ].

Definition route : Route.t :=
  Route.mk (Number.of_Z 1500) (Number.of_Z 125) [Leg.mk steps].

Definition hits : list SearchHit.t :=
  [ SearchHit.mk "Mysore Palace" (Number.of_Z 42);
    SearchHit.mk "Chamundi Hills" (Number.of_Z 43) ].

Definition venues : list Venue.t :=
  [ Venue.mk "Royal Orchid" (Some (Number.div (Number.of_Z 17) (Number.of_Z 2)))
      "1 Palace Road" [Category.mk (Some "Resort")] "abc";
    Venue.mk "Lodge" None "2 Market Street" [] "def";
    Venue.mk "Inn" (Some (Number.of_Z 0)) "3 Lake View" [Category.mk None] "ghi" ].

Definition pages (text : string) : gmap string string := {[ "42"%string := text ]}.

(** Every place resolves, except the place named Atlantis. *)
Definition world : World :=
  {| mapboxToken := Some "pk.token";
     foursquareApiKey := Some "fsq-key";
     geocoding := fun url =>
       if String.eqb url "https://api.mapbox.com/geocoding/v5/mapbox.places/Atlantis.json?access_token=pk.token"
       then Resolved (Geocoding.mk [])
       else Resolved (Geocoding.mk [Feature.mk (Number.of_Z 77, Number.of_Z 13)]);
     directions := fun _ => Resolved (Directions.mk (Some [route]));
     wikipediaSearch := fun _ => Resolved (Search.mk (Some hits));
     wikipediaSummary := fun url =>
       Resolved (Summary.mk "A place" "Worth a visit." url);
     wikipediaExtracts := fun _ => Resolved (Extracts.mk (pages "An old city."));
     wikipediaInfo := fun _ => Resolved (Info.mk (pages "https://en.wikipedia.org/wiki/Mysore"));
     foursquare := fun _ _ => Resolved (Venues.mk venues) |}.

Definition with_directions (w : World) (d : string -> reply Directions.t) : World :=
  {| mapboxToken := mapboxToken w;
     foursquareApiKey := foursquareApiKey w;
     geocoding := geocoding w;
     directions := d;
     wikipediaSearch := wikipediaSearch w;
     wikipediaSummary := wikipediaSummary w;
     wikipediaExtracts := wikipediaExtracts w;
     wikipediaInfo := wikipediaInfo w;
     foursquare := foursquare w |}.

Definition with_wikipedia (w : World)
    (search : string -> reply Search.t) (summary : string -> reply Summary.t)
    (extracts : string -> reply Extracts.t) (info : string -> reply Info.t) : World :=
  {| mapboxToken := mapboxToken w;
     foursquareApiKey := foursquareApiKey w;
     geocoding := geocoding w;
     directions := directions w;
     wikipediaSearch := search;
     wikipediaSummary := summary;
     wikipediaExtracts := extracts;
     wikipediaInfo := info;
     foursquare := foursquare w |}.

Definition with_foursquare (w : World)
    (f : string -> option string -> reply Venues.t) : World :=
  {| mapboxToken := mapboxToken w;
     foursquareApiKey := foursquareApiKey w;
     geocoding := geocoding w;
     directions := directions w;
     wikipediaSearch := wikipediaSearch w;
     wikipediaSummary := wikipediaSummary w;
     wikipediaExtracts := wikipediaExtracts w;
     wikipediaInfo := wikipediaInfo w;
     foursquare := f |}.

Definition coords : Coordinates.t := Coordinates.mk (Number.of_Z 13) (Number.of_Z 77).

(** The knowledge base and the hotel search are down. *)
Definition degraded : World :=
  with_foursquare
    (with_wikipedia world
       (fun _ => Rejected) (fun _ => Rejected) (fun _ => Rejected) (fun _ => Rejected))
    (fun _ _ => Rejected).

(** The directions provider knows no route. *)
Definition no_routes : World :=
  with_directions world (fun _ => Resolved (Directions.mk (Some []))).

(** A route of 10^24 metres that takes 60 * 2^60 seconds. *)
Definition far : World :=
  with_directions world
    (fun _ => Resolved (Directions.mk (Some
       [Route.mk (Number.of_Z (10 ^ 24)) (Number.of_Z (60 * 2 ^ 60)) [Leg.mk []]]))).

(** The kilometres and the minutes of that route, before formatting. *)
Definition far_km : Number.number :=
  Number.div (Number.of_Z (10 ^ 24)) (Number.of_Z 1000).

Definition far_minutes : Number.number :=
  Number.div (Number.of_Z (60 * 2 ^ 60)) (Number.of_Z 60).

(** The page extract cannot be fetched. *)
Definition no_history : World :=
  with_wikipedia world
    (wikipediaSearch world) (wikipediaSummary world)
    (fun _ => Rejected) (wikipediaInfo world).

(** The hotel search answers with six venues. *)
Definition crowded : World :=
  with_foursquare world (fun _ _ => Resolved (Venues.mk (venues ++ venues))).

(** The summary of the second search result cannot be fetched. *)
Definition broken_summary : World :=
  with_wikipedia world
    (wikipediaSearch world)
    (fun url =>
       if String.eqb url "https://en.wikipedia.org/api/rest_v1/page/summary/Chamundi%20Hills"
       then Rejected else wikipediaSummary world url)
    (wikipediaExtracts world) (wikipediaInfo world).

End Sample.

(** ** Specification-side definitions

    What the claims say, in the vocabulary of the model. *)

(** *** Number formatting *)

(** The sign written in front of a negative quantity. *)
Definition sign_prefix (n : Z) : string := if n <? 0 then "-" else "".

(** An integer [n] of hundredths written with exactly two decimal places. *)
Definition two_decimals (n : Z) : string :=
  Number.decimal (n / 100) +:+ "." +:+ Number.digit (n / 10 mod 10) +:+ Number.digit (n mod 10).

(** [n] hundredths is nearest to the magnitude of [x]. *)
Definition nearest_hundredth (x : Number.number) (n : Z) : Prop :=
  0 <= n /\ 2 * Z.abs (100 * Z.abs (Number.num x) - n * Number.den x) <= Number.den x.

(** An integer written in decimal with its sign. *)
Definition signed_decimal (n : Z) : string :=
  sign_prefix n +:+ Number.decimal (Z.abs n).

Local Close Scope Z_scope.

(** The two formatted fields of a route. *)
Definition format_duration (duration : Number.number) : string :=
  Number.toString (Number.floor (Number.div duration (Number.of_Z 60))) +:+ " minutes".

Definition format_distance (distance : Number.number) : string :=
  Number.toFixed (Number.div distance (Number.of_Z 1000)) 2 +:+ " km".

(** *** Pure readings of the provider replies

    What each helper returns, as a function of the reply it receives. *)

Definition coordinates_of_reply (r : reply Geocoding.t) : option Coordinates.t :=
  match r with
  | Rejected => None
  | Resolved response =>
      match Geocoding.features response with
      | [] => None
      | first :: _ =>
          Some (Coordinates.mk (snd (Feature.coordinates first)) (fst (Feature.coordinates first)))
      end
  end.

(** A step with a non-empty name is a place along the route. *)
Definition place_of_step (step : Step.t) : option RoutePlace.t :=
  match Step.name step with
  | Some name =>
      if String.eqb name "" then None
      else Some (RoutePlace.mk name (Step.maneuver_instruction step)
                   (Step.distance step) (Step.duration step))
  | None => None
  end.

Definition route_result_of_reply (r : reply Directions.t) : result RouteDetails.t :=
  match r with
  | Rejected => Failure "Failed to get route details from Mapbox."
  | Resolved response =>
      match Directions.routes response with
      | None | Some [] =>
          Failure "No routes found. Please check the origin and destination."
      | Some (bestRoute :: _) =>
          match Route.legs bestRoute with
          | [] => Failure "Failed to get route details from Mapbox."
          | leg :: _ =>
              Success (RouteDetails.mk
                (format_duration (Route.duration bestRoute))
                (format_distance (Route.distance bestRoute))
                (String.concat " -> " (map Step.maneuver_instruction (Leg.steps leg)))
                (omap place_of_step (Leg.steps leg)))
          end
      end
  end.

Definition hotels_result_of_reply (r : reply Venues.t) : result (list Hotel.t) :=
  match r with
  | Rejected => Failure "Failed to fetch hotel recommendations."
  | Resolved response => Success (map Enhanced.to_hotel (Venues.results response))
  end.

(** The popular place of one search result, when its title can be encoded
    and its summary resolves. *)
Definition summary_place (w : World) (hit : SearchHit.t) : option PopularPlace.t :=
  if Js.isWellFormed (SearchHit.title hit) then
    match wikipediaSummary w (summaryUrl (SearchHit.title hit)) with
    | Resolved summaryData =>
        Some (PopularPlace.mk (Summary.title summaryData) (Summary.extract summaryData)
                (Summary.content_urls_desktop_page summaryData))
    | Rejected => None
    end
  else None.

Definition popular_places_failed : string := "Failed to get popular places from Wikipedia.".

Definition places_result_of_reply (w : World) (r : reply Search.t)
    : result (list PopularPlace.t) :=
  match r with
  | Rejected => Failure popular_places_failed
  | Resolved response =>
      match Search.query_search response with
      | None | Some [] => Failure "No popular places found at the destination."
      | Some searchResults =>
          match mapM (summary_place w) (take 5 searchResults) with
          | Some places => Success places
          | None => Failure popular_places_failed
          end
      end
  end.

(** The defaults the aggregate substitutes for a failed auxiliary call. *)
Definition places_or_empty (r : result (list PopularPlace.t)) : list PopularPlace.t :=
  match r with Success places => places | Failure _ => [] end.

Definition history_or_null (r : result HistoricalInfo.t) : option HistoricalInfo.t :=
  match r with Success history => Some history | Failure _ => None end.

Definition hotels_or_empty (r : result (list Hotel.t)) : list Hotel.t :=
  match r with Success hotels => hotels | Failure _ => [] end.

(** The two fatal messages. *)
Definition no_routes_message : string :=
  "No routes found. Please check the origin and destination.".

(** *** The rendered reply *)

(** The list item numbered [k] of a place along the route. *)
Definition numbered_route_place (k : Z) (p : RoutePlace.t) : string :=
  Js.template
    [Number.decimal k; ". "; RoutePlace.name p; ": "; RoutePlace.instruction p; " (";
     Number.toFixed (RoutePlace.distance p) 2; " m, ";
     Number.toString (Number.floor (Number.div (RoutePlace.duration p) (Number.of_Z 60)));
     " min)"].

(** The items listed under the notable places: the first five places,
    numbered from one. *)
Definition notable_items (placesAlongRoute : list RoutePlace.t) : list string :=
  imap (fun i p => numbered_route_place (Z.of_nat i + 1) p) (take 5 placesAlongRoute).

(** The notable-places section, up to the heading of the next section. *)
Definition notable_section (items : list string) : list string :=
  ["Notable places along the route:"; Js.nl; Js.join Js.nl items; Js.nl; Js.nl;
   "Popular places to visit at "]%string.

(** The reply up to the notable places when no historical information is
    available: the route summary, the directions, and a historical section
    that holds the placeholder sentence and an empty line. *)
Definition degraded_history_prefix (origin destination : string) (route : RouteDetails.t)
    : list string :=
  ["Travel Plan: "; origin; " to "; destination; Js.nl; Js.nl;
   "Route Information:"; Js.nl;
   "- Duration: "; RouteDetails.duration route; Js.nl;
   "- Distance: "; RouteDetails.distance route; Js.nl; Js.nl;
   "Detailed directions: "; RouteDetails.directions route; Js.nl; Js.nl;
   "Historical Information about "; destination; ":"; Js.nl;
   "No historical information available."; Js.nl; Js.nl; Js.nl;
   "Notable places along the route:"; Js.nl]%string.

(** A venue without a first category, or whose first category has no name. *)
Definition lacks_category (venue : Venue.t) : Prop :=
  match Venue.categories venue with
  | [] => True
  | first :: _ => Category.name first = None
  end.

(** ** Further specification-side definitions *)

(** *** Request URLs *)

(** The value of a hexadecimal digit. *)
Definition hex_value (c : ascii) : N :=
  let n := N_of_ascii c in
  if (n <? 58)%N then (n - 48)%N else (n - 55)%N.

(** The reading of a percent-encoded string, byte by byte. *)
Fixpoint percent_decode (s : string) : string :=
  match s with
  | EmptyString => EmptyString
  | String c rest =>
      if Ascii.eqb c "%" then
        match rest with
        | String h (String l rest') =>
            String (ascii_of_N (16 * hex_value h + hex_value l)) (percent_decode rest')
        | _ => s
        end
      else String c (percent_decode rest)
  end.

(** The characters a percent-encoded component is written with. *)
Definition component_char (c : ascii) : bool :=
  Js.unreserved c || Ascii.eqb c "%".

Fixpoint string_forall (p : ascii -> bool) (s : string) : bool :=
  match s with
  | EmptyString => true
  | String c rest => p c && string_forall p rest
  end.

(** What [encodeURIComponent] writes for one byte. *)
Definition encode_char (c : ascii) : string :=
  if Js.unreserved c then String c EmptyString else Js.percent_encode c.

(** *** Messages and request logs of the helpers *)

Definition route_failed_message : string := "Failed to get route details from Mapbox.".

Definition no_places_message : string := "No popular places found at the destination.".

(** The request for the summary of one search result. *)
Definition summary_request (hit : SearchHit.t) : request :=
  (WikipediaSummary, summaryUrl (SearchHit.title hit)).

(** The search results whose summary is asked for: all of them up to and
    including the first whose summary is rejected, or up to and excluding
    the first whose title cannot be encoded. *)
Fixpoint attempted (w : World) (hits : list SearchHit.t) : list SearchHit.t :=
  match hits with
  | [] => []
  | hit :: rest =>
      if Js.isWellFormed (SearchHit.title hit) then
        match summary_place w hit with
        | Some _ => hit :: attempted w rest
        | None => [hit]
        end
      else []
  end.

Definition history_failed_message : string := "Failed to fetch historical information.".

Definition history_not_found_message : string := "No historical information found.".

(** The three requests of the historical lookup. *)
Definition history_search_request (location : string) : request :=
  (WikipediaSearch, Enhanced.historySearchUrl location).

Definition extract_request (pageId : Number.number) : request :=
  (WikipediaExtracts, Enhanced.contentUrl pageId).

Definition page_url_request (pageId : Number.number) : request :=
  (WikipediaInfo, Enhanced.titleUrl pageId).

(** What the historical lookup does, reply by reply. *)
Definition history_run (w : World) (location : string)
    : result HistoricalInfo.t * list request :=
  let s := history_search_request location in
  if negb (Js.isWellFormed location) then (Failure history_failed_message, []) else
  match wikipediaSearch w (Enhanced.historySearchUrl location) with
  | Rejected => (Failure history_failed_message, [s])
  | Resolved searchResponse =>
      match Search.query_search searchResponse with
      | None => (Failure history_failed_message, [s])
      | Some [] => (Failure history_not_found_message, [s])
      | Some (hit :: _) =>
          let pageId := SearchHit.pageid hit in
          if Number.ToBoolean pageId then
            match wikipediaExtracts w (Enhanced.contentUrl pageId) with
            | Rejected => (Failure history_failed_message, [s; extract_request pageId])
            | Resolved contentResponse =>
                match Extracts.query_pages contentResponse !! Number.toString pageId with
                | None => (Failure history_failed_message, [s; extract_request pageId])
                | Some extract =>
                    let log := [s; extract_request pageId; page_url_request pageId] in
                    match wikipediaInfo w (Enhanced.titleUrl pageId) with
                    | Rejected => (Failure history_failed_message, log)
                    | Resolved titleResponse =>
                        match Info.query_pages titleResponse !! Number.toString pageId with
                        | None => (Failure history_failed_message, log)
                        | Some pageUrl => (Success (HistoricalInfo.mk extract pageUrl), log)
                        end
                    end
                end
            end
          else (Failure history_not_found_message, [s])
      end
  end.

(** The reply up to the notable places when the historical lookup succeeds:
    the historical section holds the summary, an empty line and the link to
    the source. *)
Definition history_prefix (origin destination : string) (route : RouteDetails.t)
    (info : HistoricalInfo.t) : list string :=
  ["Travel Plan: "; origin; " to "; destination; Js.nl; Js.nl;
   "Route Information:"; Js.nl;
   "- Duration: "; RouteDetails.duration route; Js.nl;
   "- Distance: "; RouteDetails.distance route; Js.nl; Js.nl;
   "Detailed directions: "; RouteDetails.directions route; Js.nl; Js.nl;
   "Historical Information about "; destination; ":"; Js.nl;
   HistoricalInfo.summary info; Js.nl; Js.nl;
   "Read more: "; HistoricalInfo.source info; Js.nl; Js.nl;
   "Notable places along the route:"; Js.nl]%string.




(** *** More sample worlds *)

Module Edge.

(** A place name that is one lone surrogate, U+D800. *)
Definition lone_surrogate : string :=
  String (ascii_of_nat 237) (String (ascii_of_nat 160) (String (ascii_of_nat 128) EmptyString)).

(** The directions provider offers a second route and a second leg. *)
Definition alternatives : World :=
  Sample.with_directions Sample.world
    (fun _ => Resolved (Directions.mk (Some
       [Route.mk (Number.of_Z 1500) (Number.of_Z 125)
          [Leg.mk Sample.steps; Leg.mk []];
        Route.mk (Number.of_Z 9000) (Number.of_Z 900) [Leg.mk []]]))).

(** The best route has no leg. *)
Definition no_legs : World :=
  Sample.with_directions Sample.world
    (fun _ => Resolved (Directions.mk (Some
       [Route.mk (Number.of_Z 1500) (Number.of_Z 125) []]))).

(** The search finds a page whose identifier is zero. *)
Definition page_zero : World :=
  Sample.with_wikipedia Sample.world
    (fun _ => Resolved (Search.mk (Some [SearchHit.mk "Mysore" (Number.of_Z 0)])))
    (wikipediaSummary Sample.world)
    (wikipediaExtracts Sample.world) (wikipediaInfo Sample.world).

(** A venue rated zero with two categories, the first without a name. *)
Definition unrated : World :=
  Sample.with_foursquare Sample.world
    (fun _ _ => Resolved (Venues.mk
       [Venue.mk "Inn" (Some (Number.of_Z 0)) "3 Lake View"
          [Category.mk None; Category.mk (Some "Motel")] "ghi"])).

End Edge.

(** ** The chat page

    [Chat] of [src/unnamed/part_000] keeps three pieces of React state and
    talks to [/api/chat].  [handleSubmit] is split where it awaits [fetch]:
    the part before the call, and the part that runs once the call has
    settled. *)

Module Json.

(** A value produced by [response.json()]. *)
#[local] Unset Elimination Schemes.
Inductive t : Type :=
| JNull
| JBool (b : bool)
| JNumber (n : Number.number)
| JString (s : string)
| JArray (items : list t)
| JObject (members : list (string * t)).
#[local] Set Elimination Schemes.

(** [data?.reply]: only a parsed object can have the member, and a later
    duplicate of a key overrides an earlier one. *)
Definition reply (data : t) : option t :=
  match data with
  | JObject members =>
      fold_left (fun found member =>
                   if String.eqb (fst member) "reply" then Some (snd member) else found)
                members None
  | _ => None
  end.

(** Truthiness of a value that may be [undefined]. *)
Definition ToBoolean (v : option t) : bool :=
  match v with
  | None => false
  | Some JNull => false
  | Some (JBool b) => b
  | Some (JNumber n) => Number.ToBoolean n
  | Some (JString s) => negb (String.eqb s "")
  | Some (JArray _) => true
  | Some (JObject _) => true
  end.

End Json.

Module Chat.

(** A string from the bytes of its UTF-8 encoding. *)
Definition utf8 (bytes : list nat) : string :=
  fold_right (fun b s => String (ascii_of_nat b) s) EmptyString bytes.

(** The code points [String.prototype.trim] removes: WhiteSpace and
    LineTerminator. *)
Definition white_space : list string :=
  map utf8
    [[9]; [10]; [11]; [12]; [13]; [32]; [194; 160]; [225; 154; 128];
     [226; 128; 128]; [226; 128; 129]; [226; 128; 130]; [226; 128; 131];
     [226; 128; 132]; [226; 128; 133]; [226; 128; 134]; [226; 128; 135];
     [226; 128; 136]; [226; 128; 137]; [226; 128; 138];
     [226; 128; 168]; [226; 128; 169]; [226; 128; 175]; [226; 129; 159];
     [227; 128; 128]; [239; 187; 191]]%nat.

Fixpoint strip_prefix (p s : string) : option string :=
  match p, s with
  | EmptyString, _ => Some s
  | String a p', String b s' => if Ascii.eqb a b then strip_prefix p' s' else None
  | String _ _, EmptyString => None
  end.

Definition strip_any (prefixes : list string) (s : string) : option string :=
  fold_right (fun p found =>
                match strip_prefix p s with
                | Some rest => Some rest
                | None => found
                end) None prefixes.

Fixpoint strip_all (prefixes : list string) (fuel : nat) (s : string) : string :=
  match fuel with
  | O => s
  | S fuel' =>
      match strip_any prefixes s with
      | Some rest => strip_all prefixes fuel' rest
      | None => s
      end
  end.

Definition trimStart (s : string) : string :=
  strip_all white_space (String.length s) s.

Definition trimEnd (s : string) : string :=
  String.rev (strip_all (map String.rev white_space) (String.length s) (String.rev s)).

(** [s.trim()] *)
Definition trim (s : string) : string := trimEnd (trimStart s).

Record Message : Type := mkMessage {
  id : Number.number;
  content : Json.t;
  role : string
}.

Record State : Type := mkState {
  messages : list Message;
  inputValue : string;
  loading : bool
}.

(** The three [useState] initial values. *)
Definition initial : State := mkState [] "" false.

Definition onInputChange (value : string) (s : State) : State :=
  mkState (messages s) value (loading s).

(** The body posted to [/api/chat]. *)
Record Request : Type := mkRequest { message : string }.

(** How the call settles: [fetch] rejects, or there is a response whose
    body [response.json()] parses or rejects. *)
Inductive fetched : Type :=
| NetworkError
| Responded (ok : bool) (body : option Json.t).

Definition failed_message : string := "Error: Failed to get AI response.".
Definition unreachable_message : string := "Error: Could not connect to server.".

(** [Date.now() + 1] *)
Definition later (now : Number.number) : Number.number :=
  SFadd Number.prec Number.emax now (Number.of_Z 1).

(** [handleSubmit] up to the call: [None] is the early return, otherwise
    the state after the three updates and the request that is sent. *)
Definition handleSubmit (now : Number.number) (s : State) : option (State * Request) :=
  if String.eqb (trim (inputValue s)) "" then None
  else
    let userMessage := mkMessage now (Json.JString (inputValue s)) "user" in
    Some (mkState (messages s ++ [userMessage]) "" true,
          mkRequest (inputValue s)).

(** The message [handleSubmit] appends once the call has settled. *)
Definition answer (now : Number.number) (r : fetched) : Message :=
  match r with
  | NetworkError => mkMessage (later now) (Json.JString unreachable_message) "ai"
  | Responded _ None => mkMessage (later now) (Json.JString unreachable_message) "ai"
  | Responded ok (Some data) =>
      if ok && Json.ToBoolean (Json.reply data) then
        match Json.reply data with
        | Some reply => mkMessage (later now) reply "ai"
        | None => mkMessage (later now) (Json.JString failed_message) "ai"
        end
      else mkMessage (later now) (Json.JString failed_message) "ai"
  end.

(** [handleSubmit] from the settled call to its end, [finally] included. *)
Definition handleSubmit_settled (now : Number.number) (r : fetched) (s : State) : State :=
  mkState (messages s ++ [answer now r]) (inputValue s) false.

(** The [disabled] attributes of the input and of the button. *)
Definition input_disabled (s : State) : bool := loading s.

Definition button_disabled (s : State) : bool :=
  String.eqb (trim (inputValue s)) "" || loading s.

(** The page with its calls in flight, and the events that drive it: a
    change of the input (not fired by a disabled input), a submission of
    the form, and the settling of the oldest call. *)
Record Page : Type := mkPage {
  state : State;
  pending : list Request
}.

Inductive event : Type :=
| Change (value : string)
| Submit (now : Number.number)
| Settle (now : Number.number) (r : fetched).

Definition dispatch (e : event) (p : Page) : option Page :=
  match e with
  | Change value =>
      if input_disabled (state p) then None
      else Some (mkPage (onInputChange value (state p)) (pending p))
  | Submit now =>
      match handleSubmit now (state p) with
      | Some (s, request) => Some (mkPage s (pending p ++ [request]))
      | None => Some p
      end
  | Settle now r =>
      match pending p with
      | [] => None
      | _ :: rest => Some (mkPage (handleSubmit_settled now r (state p)) rest)
      end
  end.

Fixpoint run (events : list event) (p : Page) : option Page :=
  match events with
  | [] => Some p
  | e :: rest =>
      match dispatch e p with
      | Some p' => run rest p'
      | None => None
      end
  end.

Definition start : Page := mkPage initial [].

End Chat.

(** The roles of a conversation of [n] completed exchanges. *)
Fixpoint exchanges (n : nat) : list string :=
  match n with
  | O => []
  | S n' => "user"%string :: "ai"%string :: exchanges n'
  end.

(** What holds of the page after any sequence of events: the page waits for
    one call with an empty input, or for none, and the conversation is a
    sequence of exchanges, followed by a question while it waits. *)
Definition settled_or_waiting (p : Chat.Page) : Prop :=
  length (Chat.pending p) = (if Chat.loading (Chat.state p) then 1 else 0)%nat /\
  (Chat.loading (Chat.state p) = true -> Chat.inputValue (Chat.state p) = EmptyString) /\
  exists n,
    map Chat.role (Chat.messages (Chat.state p)) =
    exchanges n ++ (if Chat.loading (Chat.state p) then ["user"%string] else []).

(** * Properties *)

(** Replace a closed term by its value in a hypothesis. *)
Ltac evaluate_in t H :=
  let v := eval vm_compute in t in
  replace t with v in H by (vm_compute; reflexivity).

(** ** Strings *)

Section Strings.

Lemma string_app_cons (c : ascii) (a b : string) :
  String c a +:+ b = String c (a +:+ b).
Proof. reflexivity. Qed.

Lemma string_app_nil_r (s : string) : s +:+ "" = s.
Proof. induction s as [|c s IH]; [reflexivity|]. rewrite string_app_cons. now rewrite IH. Qed.

Lemma string_app_assoc (a b c : string) : (a +:+ b) +:+ c = a +:+ (b +:+ c).
Proof. induction a as [|x a IH]; [reflexivity|]. rewrite !string_app_cons. now rewrite IH. Qed.

Lemma string_app_length (a b : string) :
  String.length (a +:+ b) = (String.length a + String.length b)%nat.
Proof. induction a as [|x a IH]; [reflexivity|]. rewrite string_app_cons. cbn. now rewrite IH. Qed.

Lemma substring_all (b : string) : substring 0 (String.length b) b = b.
Proof. induction b as [|x b IH]; [reflexivity|]. cbn. now rewrite IH. Qed.

Lemma substring_app_prefix (a b : string) :
  substring 0 (String.length a) (a +:+ b) = a.
Proof.
  induction a as [|x a IH].
  - destruct b; reflexivity.
  - rewrite string_app_cons. cbn. now rewrite IH.
Qed.

Lemma substring_app_suffix (a b : string) :
  substring (String.length a) (String.length b) (a +:+ b) = b.
Proof.
  induction a as [|x a IH]; [apply substring_all|].
  rewrite string_app_cons. cbn. exact IH.
Qed.

Lemma template_two (a b : string) : Js.template [a; b] = a +:+ b.
Proof. unfold Js.template. cbn [fold_right]. now rewrite string_app_nil_r. Qed.

Lemma template_app (l1 l2 : list string) :
  Js.template (l1 ++ l2) = Js.template l1 +:+ Js.template l2.
Proof.
  unfold Js.template. induction l1 as [|x l1 IH]; [reflexivity|].
  cbn [app fold_right]. rewrite IH. now rewrite string_app_assoc.
Qed.

Lemma join_fold (sep : string) (l : list string) (r : string) :
  fold_left (Js.join_step sep) l (r, false) =
  (r +:+ fold_right (fun y acc => sep +:+ y +:+ acc) EmptyString l, false).
Proof.
  revert r. induction l as [|x l IH]; intros r; cbn [fold_left fold_right].
  - now rewrite string_app_nil_r.
  - unfold Js.join_step at 2. rewrite IH. now rewrite !string_app_assoc.
Qed.

Lemma concat_fold (sep : string) (x : string) (l : list string) :
  String.concat sep (x :: l) =
  x +:+ fold_right (fun y acc => sep +:+ y +:+ acc) EmptyString l.
Proof.
  revert x. induction l as [|y l IH]; intros x.
  - simpl. now rewrite string_app_nil_r.
  - change (String.concat sep (x :: y :: l)) with (x +:+ sep +:+ String.concat sep (y :: l)).
    rewrite IH. reflexivity.
Qed.

Lemma join_concat (sep : string) (l : list string) : Js.join sep l = String.concat sep l.
Proof.
  unfold Js.join. destruct l as [|x l]; [reflexivity|].
  cbn [fold_left]. unfold Js.join_step at 2. change ("" +:+ x) with x.
  rewrite join_fold, concat_fold. reflexivity.
Qed.

End Strings.

(** ** Decimal digits and number formatting *)

Section NumberFormatting.

Local Open Scope Z_scope.

Lemma digit_length d : String.length (Number.digit d) = 1%nat.
Proof. reflexivity. Qed.

Lemma decimal_fuel_enough (f1 f2 : nat) (n : Z) :
  0 <= n -> n < 10 ^ (Z.of_nat f1 + 1) -> n < 10 ^ (Z.of_nat f2 + 1) ->
  Number.decimal_fuel f1 n = Number.decimal_fuel f2 n.
Proof.
  revert f2 n. induction f1 as [|f1 IH]; intros f2 n Hn H1 H2.
  - simpl in H1. destruct f2 as [|f2]; [reflexivity|]. simpl.
    assert ((n <? 10) = true) as -> by (apply Z.ltb_lt; lia).
    rewrite Z.mod_small by lia. reflexivity.
  - destruct f2 as [|f2].
    + simpl in H2. simpl.
      assert ((n <? 10) = true) as -> by (apply Z.ltb_lt; lia).
      rewrite Z.mod_small by lia. reflexivity.
    + simpl. destruct (n <? 10) eqn:E; [reflexivity|].
      apply Z.ltb_ge in E. f_equal. apply IH.
      * apply Z.div_pos; lia.
      * apply Z.div_lt_upper_bound; [lia|].
        replace (Z.of_nat (S f1) + 1) with (Z.succ (Z.of_nat f1 + 1)) in H1 by lia.
        rewrite Z.pow_succ_r in H1 by lia. lia.
      * apply Z.div_lt_upper_bound; [lia|].
        replace (Z.of_nat (S f2) + 1) with (Z.succ (Z.of_nat f2 + 1)) in H2 by lia.
        rewrite Z.pow_succ_r in H2 by lia. lia.
Qed.

Lemma lt_pow10_log2 (n : Z) : 0 <= n -> n < 10 ^ (Z.of_nat (Z.to_nat (Z.log2 n)) + 1).
Proof.
  intros Hn. rewrite Z2Nat.id by apply Z.log2_nonneg.
  destruct (Z.eq_dec n 0) as [->|Hz]; [reflexivity|].
  assert (n < 2 ^ (Z.log2 n + 1)).
  { replace (Z.log2 n + 1) with (Z.succ (Z.log2 n)) by lia. apply Z.log2_spec. lia. }
  assert (2 ^ (Z.log2 n + 1) <= 10 ^ (Z.log2 n + 1)).
  { apply Z.pow_le_mono_l. lia. }
  lia.
Qed.

Lemma decimal_eq_fuel (f : nat) (n : Z) :
  0 <= n -> n < 10 ^ (Z.of_nat f + 1) -> Number.decimal n = Number.decimal_fuel f n.
Proof.
  intros Hn Hf. unfold Number.decimal. apply decimal_fuel_enough; auto.
  apply lt_pow10_log2; auto.
Qed.

Lemma decimal_small (n : Z) : 0 <= n < 10 -> Number.decimal n = Number.digit n.
Proof.
  intros Hn. rewrite (decimal_eq_fuel 0) by (simpl; lia). simpl.
  rewrite Z.mod_small by lia. reflexivity.
Qed.

Lemma decimal_step (n : Z) :
  10 <= n -> Number.decimal n = Number.decimal (n / 10) +:+ Number.digit (n mod 10).
Proof.
  intros Hn.
  pose proof (lt_pow10_log2 n ltac:(lia)) as Hlog.
  rewrite (decimal_eq_fuel (S (Z.to_nat (Z.log2 n))) n); [|lia|].
  2:{ replace (Z.of_nat (S (Z.to_nat (Z.log2 n))) + 1)
        with (Z.succ (Z.of_nat (Z.to_nat (Z.log2 n)) + 1)) by lia.
      rewrite Z.pow_succ_r by lia. lia. }
  simpl. assert ((n <? 10) = false) as -> by (apply Z.ltb_ge; lia).
  f_equal. symmetry. apply decimal_eq_fuel.
  - apply Z.div_pos; lia.
  - apply Z.div_lt_upper_bound; lia.
Qed.

Lemma decimal_length_pos (n : Z) : (1 <= String.length (Number.decimal n))%nat.
Proof.
  unfold Number.decimal. generalize (Z.to_nat (Z.log2 n)). intros f. revert n.
  induction f as [|f IH]; intros n; simpl; [lia|].
  destruct (n <? 10); [simpl; lia|].
  rewrite string_app_length. simpl. lia.
Qed.

Lemma toFixed_split (n : Z) :
  0 <= n ->
  let m := Number.decimal n in
  let k := String.length m in
  let m' := if (k <=? 2)%nat then Number.zeros (2 + 1 - k) +:+ m else m in
  let k' := if (k <=? 2)%nat then (2 + 1)%nat else k in
  substring 0 (k' - 2) m' +:+ "." +:+ substring (k' - 2) 2 m' = two_decimals n.
Proof.
  intros Hn. unfold two_decimals.
  destruct (Z.lt_ge_cases n 10) as [H10|H10].
  - cbn zeta. rewrite (decimal_small n) by lia.
    rewrite (Z.div_small n 100) by lia. rewrite (Z.div_small n 10) by lia.
    rewrite (Z.mod_small n 10) by lia. reflexivity.
  - destruct (Z.lt_ge_cases n 100) as [H100|H100].
    + cbn zeta. rewrite (decimal_step n) by lia.
      assert (0 <= n / 10 < 10) by (split; [apply Z.div_pos|apply Z.div_lt_upper_bound]; lia).
      rewrite (decimal_small (n / 10)) by lia.
      rewrite (Z.div_small n 100) by lia. rewrite (Z.mod_small (n / 10)) by lia.
      reflexivity.
    + cbn zeta. rewrite (decimal_step n) by lia.
      assert (10 <= n / 10) by (apply Z.div_le_lower_bound; lia).
      rewrite (decimal_step (n / 10)) by lia.
      rewrite Z.div_div by lia. change (10 * 10) with 100.
      set (A := Number.decimal (n / 100)).
      set (d1 := Number.digit (n / 10 mod 10)). set (d2 := Number.digit (n mod 10)).
      pose proof (decimal_length_pos (n / 100)) as HA. fold A in HA.
      rewrite string_app_assoc.
      assert (String.length (A +:+ d1 +:+ d2) = (String.length A + 2)%nat) as Hlen.
      { rewrite string_app_length. reflexivity. }
      rewrite Hlen.
      assert ((String.length A + 2 <=? 2)%nat = false) as -> by (apply Nat.leb_gt; lia).
      replace (String.length A + 2 - 2)%nat with (String.length A) by lia.
      rewrite substring_app_prefix.
      change 2%nat with (String.length (d1 +:+ d2)) at 1.
      rewrite substring_app_suffix. reflexivity.
Qed.

Lemma den_pos (x : Number.number) : 0 < Number.den x.
Proof.
  destruct x as [s|s| |s m e]; simpl; try lia.
  rewrite Z.shiftl_1_l. apply Z.pow_pos_nonneg; lia.
Qed.

Lemma floorZ_spec (x : Number.number) :
  Number.floorZ x * Number.den x <= Number.num x < (Number.floorZ x + 1) * Number.den x.
Proof.
  unfold Number.floorZ. pose proof (den_pos x) as Hd.
  pose proof (Z.mul_div_le (Number.num x) (Number.den x) Hd).
  pose proof (Z.mul_succ_div_gt (Number.num x) (Number.den x) Hd).
  lia.
Qed.

Lemma floor_unique (a b n : Z) : 0 < b -> n * b <= a < (n + 1) * b -> n = a / b.
Proof. intros Hb H. apply Z.div_unique with (r := a - n * b); lia. Qed.

Lemma toFixed_two_decimals (x : Number.number) :
  Number.isFinite x = true ->
  Z.abs (Number.num x) < 10 ^ 21 * Number.den x ->
  exists n, nearest_hundredth x n /\
    Number.toFixed x 2 = sign_prefix (Number.num x) +:+ two_decimals n.
Proof.
  intros Hfin Hlt. pose proof (den_pos x) as Hd.
  set (a := Z.abs (Number.num x)) in *. set (b := Number.den x) in *.
  exists ((2 * a * 100 + b) / (2 * b)).
  assert (0 <= a) by (subst a; lia).
  pose proof (Z.mul_div_le (2 * a * 100 + b) (2 * b) ltac:(lia)).
  pose proof (Z.mul_succ_div_gt (2 * a * 100 + b) (2 * b) ltac:(lia)).
  assert (0 <= (2 * a * 100 + b) / (2 * b)) by (apply Z.div_pos; lia).
  split; [split; [assumption|lia]|].
  unfold Number.toFixed. rewrite Hfin. cbn [negb]. fold a b.
  destruct (10 ^ 21 * b <=? a) eqn:E; [apply Z.leb_le in E; lia|].
  change (10 ^ Z.of_nat 2) with 100.
  unfold sign_prefix. f_equal. apply toFixed_split. assumption.
Qed.

Lemma digits2_pos_bounds (p : positive) :
  2 ^ (Zpos (digits2_pos p) - 1) <= Zpos p < 2 ^ Zpos (digits2_pos p).
Proof.
  induction p as [p IH|p IH|]; cbn [digits2_pos].
  - rewrite Pos2Z.inj_succ. replace (Z.succ (Z.pos (digits2_pos p)) - 1) with (Z.succ (Z.pos (digits2_pos p) - 1)) by lia.
    rewrite !Z.pow_succ_r by lia. lia.
  - rewrite Pos2Z.inj_succ. replace (Z.succ (Z.pos (digits2_pos p)) - 1) with (Z.succ (Z.pos (digits2_pos p) - 1)) by lia.
    rewrite !Z.pow_succ_r by lia. lia.
  - simpl. lia.
Qed.

Lemma iter_xO_value (p k : positive) : Zpos (Pos.iter xO p k) = Zpos p * 2 ^ Zpos k.
Proof.
  induction k as [|k IH] using Pos.peano_ind.
  - simpl. lia.
  - rewrite Pos.iter_succ, Pos2Z.inj_succ, Z.pow_succ_r by lia.
    rewrite Pos2Z.inj_xO, IH. lia.
Qed.

Lemma iter_xO_digits (p k : positive) :
  digits2_pos (Pos.iter xO p k) = (digits2_pos p + k)%positive.
Proof.
  induction k as [|k IH] using Pos.peano_ind.
  - simpl. lia.
  - rewrite Pos.iter_succ. cbn [digits2_pos]. rewrite IH. lia.
Qed.

Lemma binary_round_aux_canonical (s : bool) (m : positive) (e : Z) :
  Zpos (digits2_pos m) = 53 -> -1074 <= e <= 971 ->
  binary_round_aux Number.prec Number.emax s (Zpos m) e loc_Exact = S754_finite s m e.
Proof.
  intros Hd He.
  unfold binary_round_aux, shr_fexp, fexp, emin, Number.prec, Number.emax.
  cbn [Zdigits2 shr_record_of_loc]. rewrite Hd.
  replace (Z.max (53 + e - 53) (3 - 1024 - 53) - e) with 0 by lia.
  cbn [shr shr_m loc_of_shr_record round_nearest_even Zdigits2 shr_record_of_loc].
  rewrite Hd.
  replace (Z.max (53 + e - 53) (3 - 1024 - 53) - e) with 0 by lia.
  cbn [shr shr_m].
  assert ((e <=? 1024 - 53) = true) as -> by (apply Z.leb_le; lia).
  reflexivity.
Qed.

Lemma binary_round_small (s : bool) (p : positive) :
  Zpos p < 2 ^ 53 ->
  exists m e, binary_round Number.prec Number.emax s p 0 = S754_finite s m e /\
    -52 <= e <= 0 /\ Zpos m = Zpos p * 2 ^ (- e).
Proof.
  intros Hp. pose proof (digits2_pos_bounds p) as [Hlo Hhi].
  assert (Zpos (digits2_pos p) <= 53) as Hd.
  { destruct (Z.le_gt_cases (Zpos (digits2_pos p)) 53) as [|Hgt]; [assumption|].
    assert (2 ^ 53 <= 2 ^ (Zpos (digits2_pos p) - 1)) by (apply Z.pow_le_mono_r; lia). lia. }
  unfold binary_round, shl_align, fexp, emin, Number.prec, Number.emax.
  replace (Z.max (Z.pos (digits2_pos p) + 0 - 53) (3 - 1024 - 53) - 0)
    with (Z.pos (digits2_pos p) - 53) by lia.
  replace (Z.max (Z.pos (digits2_pos p) + 0 - 53) (3 - 1024 - 53))
    with (Z.pos (digits2_pos p) - 53) by lia.
  destruct (Z.pos (digits2_pos p) - 53) as [|q|q] eqn:Eq; [|lia|].
  - exists p, 0. split; [|split; [lia|simpl; lia]].
    apply (binary_round_aux_canonical s p 0); lia.
  - exists (Pos.iter xO p q), (Zneg q). split; [|split].
    + apply binary_round_aux_canonical; [|lia].
      rewrite iter_xO_digits. lia.
    + lia.
    + rewrite iter_xO_value. reflexivity.
Qed.

Lemma toString_of_Z (n : Z) :
  Z.abs n < 2 ^ 53 -> Number.toString (Number.of_Z n) = signed_decimal n.
Proof.
  intros Hn. unfold Number.of_Z, binary_normalize.
  destruct n as [|p|p]; [reflexivity| |].
  - destruct (binary_round_small false p) as (m & e & -> & He & Hm); [lia|].
    unfold Number.toString, Number.isSafeInteger. cbn [Number.num Number.den cond_Zopp].
    replace (Z.max e 0) with 0 by lia. replace (Z.max (- e) 0) with (- e) by lia.
    rewrite Z.shiftl_0_r, Z.shiftl_1_l, Hm.
    assert (0 < 2 ^ (- e)) by (apply Z.pow_pos_nonneg; lia).
    rewrite Z.mod_mul, Z.div_mul by lia.
    assert ((Z.abs (Z.pos p) <? 2 ^ 53) = true) as -> by (apply Z.ltb_lt; lia).
    reflexivity.
  - destruct (binary_round_small true p) as (m & e & -> & He & Hm); [lia|].
    unfold Number.toString, Number.isSafeInteger. cbn [Number.num Number.den cond_Zopp].
    replace (Z.max e 0) with 0 by lia. replace (Z.max (- e) 0) with (- e) by lia.
    rewrite Z.shiftl_0_r, Z.shiftl_1_l, Hm.
    assert (0 < 2 ^ (- e)) by (apply Z.pow_pos_nonneg; lia).
    rewrite <- Z.mul_opp_l.
    rewrite Z.mod_mul, Z.div_mul by lia.
    assert ((Z.abs (- Z.pos p) <? 2 ^ 53) = true) as -> by (apply Z.ltb_lt; lia).
    reflexivity.
Qed.

Lemma toString_floor (y : Number.number) :
  Number.isFinite y = true -> Z.abs (Number.floorZ y) < 2 ^ 53 ->
  Number.toString (Number.floor y) = signed_decimal (Number.floorZ y).
Proof.
  intros Hfin Hn. destruct y as [s|s| |s m e]; try discriminate.
  - reflexivity.
  - unfold Number.floor. apply toString_of_Z. assumption.
Qed.

End NumberFormatting.

(** ** Asynchronous computations *)

Section AsyncLaws.

Lemma outcome_ret {A : Type} (a : A) : outcome (mret a : Async A) = Normal a.
Proof. reflexivity. Qed.

Lemma outcome_bind {A B : Type} (m : Async A) (f : A -> Async B) :
  outcome (m ≫= f) =
  match outcome m with
  | Normal a => outcome (f a)
  | Throw e => Throw e
  end.
Proof.
  destruct m as [[a|e] log]; unfold mbind, Async_bind, outcome; simpl; [|reflexivity].
  destruct (f a); reflexivity.
Qed.

Lemma requests_bind {A B : Type} (m : Async A) (f : A -> Async B) :
  requests (m ≫= f) =
  match outcome m with
  | Normal a => requests m ++ requests (f a)
  | Throw e => requests m
  end.
Proof.
  destruct m as [[a|e] log]; unfold mbind, Async_bind, outcome, requests; simpl; [|reflexivity].
  destruct (f a); reflexivity.
Qed.

Lemma outcome_try_catch {A : Type} (body : Async A) (handler : error -> Async A) :
  outcome (try_catch body handler) =
  match outcome body with
  | Normal a => Normal a
  | Throw e => outcome (handler e)
  end.
Proof.
  destruct body as [[a|e] log]; unfold try_catch, outcome; simpl; [reflexivity|].
  destruct (handler e); reflexivity.
Qed.

Lemma requests_try_catch {A : Type} (body : Async A) (handler : error -> Async A) :
  requests (try_catch body handler) =
  match outcome body with
  | Normal a => requests body
  | Throw e => requests body ++ requests (handler e)
  end.
Proof.
  destruct body as [[a|e] log]; unfold try_catch, outcome, requests; simpl; [reflexivity|].
  destruct (handler e); reflexivity.
Qed.

Lemma outcome_axios_get {A : Type} (ep : endpoint) (provider : string -> reply A) (url : string) :
  outcome (axios_get ep provider url) =
  match provider url with
  | Resolved data => Normal data
  | Rejected => Throw AxiosError
  end.
Proof. unfold axios_get. destruct (provider url); reflexivity. Qed.

Lemma requests_axios_get {A : Type} (ep : endpoint) (provider : string -> reply A) (url : string) :
  requests (axios_get ep provider url) = [(ep, url)].
Proof. unfold axios_get. destruct (provider url); reflexivity. Qed.

Lemma try_catch_returns {A : Type} (body : Async A) (a : A) :
  exists r, outcome (try_catch body (fun _ => mret a)) = Normal r.
Proof.
  rewrite outcome_try_catch. destruct (outcome body); eauto.
Qed.

Lemma outcome_Promise_all4 {A B C D : Type}
    (a : Async A) (b : Async B) (c : Async C) (d : Async D) x y z u :
  outcome a = Normal x -> outcome b = Normal y -> outcome c = Normal z ->
  outcome d = Normal u ->
  outcome (Promise_all4 a b c d) = Normal (x, y, z, u).
Proof.
  intros Ha Hb Hc Hd. unfold Promise_all4.
  change (outcome (?o, _)) with o. now rewrite Ha, Hb, Hc, Hd.
Qed.

Lemma ret_bind {A B : Type} (a : A) (f : A -> Async B) : (mret a ≫= f) = f a.
Proof. unfold mret, mbind, Async_ret, Async_bind. now destruct (f a). Qed.

Lemma throw_bind {A B : Type} (e : error) (f : A -> Async B) : (throw e ≫= f) = throw e.
Proof. reflexivity. Qed.

Lemma encode_well_formed {A : Type} (s : string) (k : string -> Async A) :
  Js.isWellFormed s = true ->
  (or_throw URIError (Js.encodeURIComponent s) ≫= k) = k (Js.encode_bytes s).
Proof. intros H. unfold Js.encodeURIComponent. rewrite H. apply ret_bind. Qed.

Lemma encode_ill_formed {A : Type} (s : string) (k : string -> Async A) :
  Js.isWellFormed s = false ->
  (or_throw URIError (Js.encodeURIComponent s) ≫= k) = throw URIError.
Proof. intros H. unfold Js.encodeURIComponent. now rewrite H. Qed.

End AsyncLaws.

(** ** The helpers, as functions of the replies *)

Lemma getCoordinates_ill_formed (w : World) (location : string) :
  Js.isWellFormed location = false -> getCoordinates w location = throw URIError.
Proof. intros H. unfold getCoordinates. now rewrite encode_ill_formed. Qed.

Lemma getCoordinates_normal (w : World) (location : string) (c : option Coordinates.t) :
  outcome (getCoordinates w location) = Normal c -> Js.isWellFormed location = true.
Proof.
  destruct (Js.isWellFormed location) eqn:H; [reflexivity|].
  now rewrite (getCoordinates_ill_formed w location H).
Qed.

Lemma getCoordinates_outcome (w : World) (location : string) :
  Js.isWellFormed location = true ->
  outcome (getCoordinates w location) =
  Normal (coordinates_of_reply (geocoding w (geocodeUrl w location))).
Proof.
  intros Hwf. unfold getCoordinates. rewrite (encode_well_formed _ _ Hwf).
  fold (geocodeUrl w location). cbn zeta.
  rewrite outcome_try_catch, outcome_bind, outcome_axios_get.
  destruct (geocoding w (geocodeUrl w location)) as [|response]; [reflexivity|].
  simpl. destruct (Geocoding.features response) as [|first rest]; [reflexivity|].
  simpl. destruct (Feature.coordinates first) as [lon lat]. reflexivity.
Qed.

Lemma getCoordinates_requests (w : World) (location : string) :
  Js.isWellFormed location = true ->
  requests (getCoordinates w location) = [(MapboxGeocoding, geocodeUrl w location)].
Proof.
  intros Hwf. unfold getCoordinates. rewrite (encode_well_formed _ _ Hwf).
  fold (geocodeUrl w location). cbn zeta.
  rewrite requests_try_catch, outcome_bind, requests_bind.
  rewrite outcome_axios_get, requests_axios_get.
  destruct (geocoding w (geocodeUrl w location)) as [|response]; [reflexivity|].
  destruct (Geocoding.features response) as [|first rest]; [reflexivity|].
  simpl. destruct (Feature.coordinates first) as [lon lat]. reflexivity.
Qed.

Lemma collect_steps (steps : list Step.t) (ds : list string) (ps : list RoutePlace.t) :
  fold_left collect_step steps (ds, ps) =
  (ds ++ map Step.maneuver_instruction steps, ps ++ omap place_of_step steps).
Proof.
  revert ds ps. induction steps as [|step steps IH]; intros ds ps.
  - simpl. now rewrite !app_nil_r.
  - assert (collect_step (ds, ps) step =
            (ds ++ [Step.maneuver_instruction step],
             ps ++ match place_of_step step with Some p => [p] | None => [] end)) as Hstep.
    { unfold collect_step, place_of_step.
      destruct (Step.name step) as [[|c name]|]; cbn [Js.truthy String.eqb andb negb];
        rewrite ?app_nil_r; reflexivity. }
    cbn [fold_left]. rewrite Hstep, IH. cbn [map omap list_omap].
    rewrite <- !app_assoc. destruct (place_of_step step); reflexivity.
Qed.

Lemma getRouteDetails_outcome (w : World) (origin destination : Coordinates.t)
    (travelMode : option string) :
  outcome (getRouteDetails w origin destination travelMode) =
  Normal (route_result_of_reply
            (directions w (routeUrl w origin destination
                             (default_parameter "driving" travelMode)))).
Proof.
  unfold getRouteDetails. cbn zeta.
  rewrite outcome_try_catch, outcome_bind, outcome_axios_get.
  destruct (directions w _) as [|response]; [reflexivity|].
  unfold route_result_of_reply.
  destruct (Directions.routes response) as [[|bestRoute rest]|]; [reflexivity| |reflexivity].
  cbn [length Nat.eqb lookup list_lookup].
  destruct (Route.legs bestRoute) as [|leg legs]; [reflexivity|].
  cbn [lookup list_lookup]. rewrite collect_steps. cbn [app].
  rewrite join_concat, !template_two. reflexivity.
Qed.

Lemma getRouteDetails_requests (w : World) (origin destination : Coordinates.t)
    (travelMode : option string) :
  requests (getRouteDetails w origin destination travelMode) =
  [(MapboxDirections,
    routeUrl w origin destination (default_parameter "driving" travelMode))].
Proof.
  unfold getRouteDetails. cbn zeta.
  rewrite requests_try_catch, outcome_bind, requests_bind, outcome_axios_get, requests_axios_get.
  destruct (directions w _) as [|response]; [reflexivity|].
  destruct (Directions.routes response) as [[|bestRoute rest]|]; [reflexivity| |reflexivity].
  cbn [length Nat.eqb lookup list_lookup].
  destruct (Route.legs bestRoute) as [|leg legs]; [reflexivity|].
  cbn [lookup list_lookup]. rewrite collect_steps. reflexivity.
Qed.

Lemma getRouteDetails_first_route (w : World) (origin destination : Coordinates.t)
    (travelMode : option string) (route : Route.t) (rest : list Route.t)
    (leg : Leg.t) (legs : list Leg.t) :
  directions w (routeUrl w origin destination (default_parameter "driving" travelMode)) =
    Resolved (Directions.mk (Some (route :: rest))) ->
  Route.legs route = leg :: legs ->
  outcome (getRouteDetails w origin destination travelMode) =
  Normal (Success (RouteDetails.mk
    (format_duration (Route.duration route))
    (format_distance (Route.distance route))
    (String.concat " -> " (map Step.maneuver_instruction (Leg.steps leg)))
    (omap place_of_step (Leg.steps leg)))).
Proof.
  intros Hreply Hlegs. rewrite getRouteDetails_outcome, Hreply.
  unfold route_result_of_reply. cbn [Directions.routes]. now rewrite Hlegs.
Qed.

Lemma getRouteDetails_success_inv (w : World) (origin destination : Coordinates.t)
    (travelMode : option string) (details : RouteDetails.t) :
  outcome (getRouteDetails w origin destination travelMode) = Normal (Success details) ->
  exists response route rest leg legs,
    directions w (routeUrl w origin destination (default_parameter "driving" travelMode)) =
      Resolved response /\
    Directions.routes response = Some (route :: rest) /\
    Route.legs route = leg :: legs /\
    details = RouteDetails.mk
      (format_duration (Route.duration route))
      (format_distance (Route.distance route))
      (String.concat " -> " (map Step.maneuver_instruction (Leg.steps leg)))
      (omap place_of_step (Leg.steps leg)).
Proof.
  rewrite getRouteDetails_outcome. unfold route_result_of_reply.
  destruct (directions w _) as [|response]; [discriminate|].
  destruct (Directions.routes response) as [[|route rest]|] eqn:Hroutes; try discriminate.
  destruct (Route.legs route) as [|leg legs] eqn:Hlegs; [discriminate|].
  intros H. injection H as <-. exists response, route, rest, leg, legs. auto.
Qed.

Lemma fetch_summary_outcome (w : World) (hits : list SearchHit.t) (i : nat)
    (hit : SearchHit.t) (places : list PopularPlace.t) :
  hits !! i = Some hit ->
  outcome (fetch_summary w hits i places) =
  match summary_place w hit with
  | Some place => Normal (places ++ [place])
  | None => Throw (if Js.isWellFormed (SearchHit.title hit) then AxiosError else URIError)
  end.
Proof.
  intros Hi. unfold fetch_summary, summary_place. rewrite Hi. cbn zeta.
  destruct (Js.isWellFormed (SearchHit.title hit)) eqn:Hwf.
  - rewrite (encode_well_formed _ _ Hwf). fold (summaryUrl (SearchHit.title hit)).
    rewrite outcome_bind, outcome_axios_get.
    destruct (wikipediaSummary w _); reflexivity.
  - now rewrite (encode_ill_formed _ _ Hwf).
Qed.

Lemma for_from_fetch (w : World) (hits : list SearchHit.t) (count : nat) :
  forall (start : nat) (places : list PopularPlace.t),
    start + count <= length hits ->
    match mapM (summary_place w) (take count (drop start hits)) with
    | Some fetched =>
        outcome (for_from count start (fetch_summary w hits) places) =
          Normal (places ++ fetched)
    | None =>
        exists e, outcome (for_from count start (fetch_summary w hits) places) = Throw e
    end.
Proof.
  induction count as [|count IH]; intros start places Hlen.
  - rewrite take_0. cbn. now rewrite app_nil_r.
  - destruct (lookup_lt_is_Some_2 hits start ltac:(lia)) as [hit Hhit].
    rewrite (drop_S _ _ _ Hhit), firstn_cons. cbn [for_from].
    rewrite outcome_bind, (fetch_summary_outcome _ _ _ _ _ Hhit).
    cbn [mapM]. destruct (summary_place w hit) as [place|]; [|cbn; eauto].
    specialize (IH (start + 1) (places ++ [place]) ltac:(lia)).
    replace (start + 1) with (S start) in * by lia.
    cbn [mbind option_bind].
    destruct (mapM (summary_place w) (take count (drop (S start) hits))) as [fetched|];
      [|exact IH].
    cbn. rewrite IH. now rewrite <- app_assoc.
Qed.

Lemma getPopularPlaces_ill_formed (w : World) (location : string) :
  Js.isWellFormed location = false -> getPopularPlaces w location = throw URIError.
Proof. intros H. unfold getPopularPlaces. now rewrite encode_ill_formed. Qed.

Lemma getPopularPlaces_outcome (w : World) (location : string) :
  Js.isWellFormed location = true ->
  outcome (getPopularPlaces w location) =
  Normal (places_result_of_reply w (wikipediaSearch w (placesSearchUrl location))).
Proof.
  intros Hwf. unfold getPopularPlaces. rewrite (encode_well_formed _ _ Hwf).
  fold (placesSearchUrl location). cbn zeta.
  rewrite outcome_try_catch, outcome_bind, outcome_axios_get.
  destruct (wikipediaSearch w _) as [|response]; [reflexivity|].
  unfold places_result_of_reply.
  destruct (Search.query_search response) as [[|hit hits]|]; [reflexivity| |reflexivity].
  set (searchResults := hit :: hits).
  assert ((length searchResults =? 0) = false) as -> by reflexivity.
  rewrite outcome_bind. unfold for_range.
  pose proof (for_from_fetch w searchResults (length searchResults `min` 5) 0 []
                ltac:(lia)) as Hloop.
  rewrite drop_0 in Hloop.
  assert (take (length searchResults `min` 5) searchResults = take 5 searchResults) as Htake.
  { destruct (Nat.le_gt_cases (length searchResults) 5) as [Hle|Hgt].
    - rewrite Nat.min_l by assumption. now rewrite !take_ge by lia.
    - now rewrite Nat.min_r by lia. }
  rewrite Htake in Hloop.
  destruct (mapM _ _); [now rewrite Hloop|].
  destruct Hloop as [e ->]. reflexivity.
Qed.

Lemma getPopularPlaces_returns (w : World) (location : string) :
  Js.isWellFormed location = true ->
  exists r, outcome (getPopularPlaces w location) = Normal r.
Proof. intros Hwf. rewrite getPopularPlaces_outcome by assumption. eauto. Qed.

Lemma getHistoricalInfo_returns (w : World) (location : string) :
  exists r, outcome (Enhanced.getHistoricalInfo w location) = Normal r.
Proof. apply try_catch_returns. Qed.

Lemma getHotelRecommendations_returns (w : World) (c : Coordinates.t) :
  exists r, outcome (Enhanced.getHotelRecommendations w c) = Normal r.
Proof. apply try_catch_returns. Qed.

Lemma getHotelRecommendations_outcome (w : World) (coordinates : Coordinates.t) :
  outcome (Enhanced.getHotelRecommendations w coordinates) =
  Normal (hotels_result_of_reply
            (foursquare w (Enhanced.hotelSearchUrl coordinates) (foursquareApiKey w))).
Proof.
  unfold Enhanced.getHotelRecommendations. cbn zeta.
  rewrite outcome_try_catch, outcome_bind, outcome_axios_get.
  destruct (foursquare w _ _); reflexivity.
Qed.

Lemma getHotelRecommendations_requests (w : World) (coordinates : Coordinates.t) :
  requests (Enhanced.getHotelRecommendations w coordinates) =
  [(FoursquareSearch, Enhanced.hotelSearchUrl coordinates)].
Proof.
  unfold Enhanced.getHotelRecommendations. cbn zeta.
  rewrite requests_try_catch, outcome_bind, requests_bind, outcome_axios_get, requests_axios_get.
  destruct (foursquare w _ _); reflexivity.
Qed.

Lemma getCoordinates_same_world (w1 w2 : World) (location : string) :
  mapboxToken w1 = mapboxToken w2 ->
  (forall url, geocoding w1 url = geocoding w2 url) ->
  outcome (getCoordinates w1 location) = outcome (getCoordinates w2 location).
Proof.
  intros Ht Hg. destruct (Js.isWellFormed location) eqn:Hwf.
  - rewrite !getCoordinates_outcome by assumption. unfold geocodeUrl, geocodeUrlOf.
    now rewrite Ht, Hg.
  - now rewrite !getCoordinates_ill_formed by assumption.
Qed.

Lemma getRouteDetails_same_world (w1 w2 : World) (o d : Coordinates.t) (mode : option string) :
  mapboxToken w1 = mapboxToken w2 ->
  (forall url, directions w1 url = directions w2 url) ->
  outcome (getRouteDetails w1 o d mode) = outcome (getRouteDetails w2 o d mode).
Proof.
  intros Ht Hd. rewrite !getRouteDetails_outcome. unfold routeUrl.
  now rewrite Ht, Hd.
Qed.

(** ** The aggregate *)

Lemma Enhanced_outcome_coordinates (w : World) (origin destination : string)
    (travelMode : option string) (oc dc : Coordinates.t) pp hh ht :
  outcome (getCoordinates w origin) = Normal (Some oc) ->
  outcome (getCoordinates w destination) = Normal (Some dc) ->
  outcome (getPopularPlaces w destination) = Normal pp ->
  outcome (Enhanced.getHistoricalInfo w destination) = Normal hh ->
  outcome (Enhanced.getHotelRecommendations w dc) = Normal ht ->
  outcome (Enhanced.getRouteAndDetails w origin destination travelMode) =
  Normal
    match route_result_of_reply
            (directions w (routeUrl w oc dc (default_parameter "driving" travelMode))) with
    | Failure message => Failure message
    | Success route =>
        Success (Enhanced.mkTravelPlan
          (RouteDetails.duration route) (RouteDetails.distance route)
          (RouteDetails.directions route) (RouteDetails.places route)
          (places_or_empty pp) (history_or_null hh) (hotels_or_empty ht)
          (mapboxDirectionsUrl oc dc (default_parameter "driving" travelMode))
          (googleMapsDirectionsUrl oc dc (default_parameter "driving" travelMode)))
    end.
Proof.
  intros Ho Hd Hpp Hhh Hht. unfold Enhanced.getRouteAndDetails. cbn zeta.
  rewrite outcome_bind, Ho, outcome_bind, Hd, outcome_bind.
  rewrite (outcome_Promise_all4 _ _ _ _ _ pp hh ht (getRouteDetails_outcome _ _ _ _) Hpp Hhh Hht).
  cbn [default_parameter].
  destruct (route_result_of_reply _); reflexivity.
Qed.

Lemma Enhanced_outcome_ill_formed (w : World) (origin destination : string)
    (travelMode : option string) :
  Js.isWellFormed origin = false \/ Js.isWellFormed destination = false ->
  outcome (Enhanced.getRouteAndDetails w origin destination travelMode) = Throw URIError.
Proof.
  intros H. unfold Enhanced.getRouteAndDetails. cbn zeta. rewrite outcome_bind.
  destruct (Js.isWellFormed origin) eqn:Hwo.
  - destruct H as [H|H]; [discriminate|].
    rewrite (getCoordinates_outcome w origin Hwo), outcome_bind.
    now rewrite (getCoordinates_ill_formed w destination H).
  - now rewrite (getCoordinates_ill_formed w origin Hwo).
Qed.

Lemma Enhanced_requests_ill_formed (w : World) (origin destination : string)
    (travelMode : option string) :
  (Js.isWellFormed origin = false ->
   requests (Enhanced.getRouteAndDetails w origin destination travelMode) = []) /\
  (Js.isWellFormed origin = true -> Js.isWellFormed destination = false ->
   requests (Enhanced.getRouteAndDetails w origin destination travelMode) =
     [(MapboxGeocoding, geocodeUrl w origin)]).
Proof.
  unfold Enhanced.getRouteAndDetails. cbn zeta. rewrite requests_bind. split.
  - intros Hwo. now rewrite (getCoordinates_ill_formed w origin Hwo).
  - intros Hwo Hwd.
    rewrite (getCoordinates_outcome w origin Hwo), (getCoordinates_requests w origin Hwo).
    rewrite requests_bind, (getCoordinates_ill_formed w destination Hwd). reflexivity.
Qed.

Lemma Enhanced_outcome_no_coordinates (w : World) (origin destination : string)
    (travelMode : option string) (oc dc : option Coordinates.t) :
  outcome (getCoordinates w origin) = Normal oc ->
  outcome (getCoordinates w destination) = Normal dc ->
  oc = None \/ dc = None ->
  outcome (Enhanced.getRouteAndDetails w origin destination travelMode) =
  Normal (Failure "Failed to get coordinates for origin or destination.").
Proof.
  intros Ho Hd H. unfold Enhanced.getRouteAndDetails. cbn zeta.
  rewrite outcome_bind, Ho, outcome_bind, Hd.
  destruct H as [-> | ->]; [reflexivity|]. destruct oc; reflexivity.
Qed.

Lemma Enhanced_requests_no_coordinates (w : World) (origin destination : string)
    (travelMode : option string) (oc dc : option Coordinates.t) :
  outcome (getCoordinates w origin) = Normal oc ->
  outcome (getCoordinates w destination) = Normal dc ->
  oc = None \/ dc = None ->
  requests (Enhanced.getRouteAndDetails w origin destination travelMode) =
  [(MapboxGeocoding, geocodeUrl w origin); (MapboxGeocoding, geocodeUrl w destination)].
Proof.
  intros Ho Hd H. unfold Enhanced.getRouteAndDetails. cbn zeta.
  rewrite requests_bind, Ho, requests_bind, Hd.
  rewrite (getCoordinates_requests w origin (getCoordinates_normal _ _ _ Ho)).
  rewrite (getCoordinates_requests w destination (getCoordinates_normal _ _ _ Hd)).
  destruct H as [-> | ->]; [reflexivity|]. destruct oc; reflexivity.
Qed.

Lemma Basic_outcome_coordinates (w : World) (origin destination : string)
    (travelMode : option string) (oc dc : Coordinates.t) pp :
  outcome (getCoordinates w origin) = Normal (Some oc) ->
  outcome (getCoordinates w destination) = Normal (Some dc) ->
  outcome (getPopularPlaces w destination) = Normal pp ->
  outcome (Basic.getRouteAndDetails w origin destination travelMode) =
  Normal
    match route_result_of_reply
            (directions w (routeUrl w oc dc (default_parameter "driving" travelMode))) with
    | Failure message => Failure message
    | Success route =>
        Success (Basic.mkTravelPlan
          (RouteDetails.duration route) (RouteDetails.distance route)
          (RouteDetails.directions route) (RouteDetails.places route)
          (places_or_empty pp)
          (mapboxDirectionsUrl oc dc (default_parameter "driving" travelMode))
          (googleMapsDirectionsUrl oc dc (default_parameter "driving" travelMode)))
    end.
Proof.
  intros Ho Hd Hpp. unfold Basic.getRouteAndDetails. cbn zeta.
  rewrite outcome_bind, Ho, outcome_bind, Hd, outcome_bind, getRouteDetails_outcome.
  cbn [default_parameter].
  destruct (route_result_of_reply _); [|reflexivity].
  rewrite outcome_bind, Hpp. reflexivity.
Qed.

Lemma Basic_outcome_ill_formed (w : World) (origin destination : string)
    (travelMode : option string) :
  Js.isWellFormed origin = false \/ Js.isWellFormed destination = false ->
  outcome (Basic.getRouteAndDetails w origin destination travelMode) = Throw URIError.
Proof.
  intros H. unfold Basic.getRouteAndDetails. cbn zeta. rewrite outcome_bind.
  destruct (Js.isWellFormed origin) eqn:Hwo.
  - destruct H as [H|H]; [discriminate|].
    rewrite (getCoordinates_outcome w origin Hwo), outcome_bind.
    now rewrite (getCoordinates_ill_formed w destination H).
  - now rewrite (getCoordinates_ill_formed w origin Hwo).
Qed.

Lemma Basic_requests_ill_formed (w : World) (origin destination : string)
    (travelMode : option string) :
  (Js.isWellFormed origin = false ->
   requests (Basic.getRouteAndDetails w origin destination travelMode) = []) /\
  (Js.isWellFormed origin = true -> Js.isWellFormed destination = false ->
   requests (Basic.getRouteAndDetails w origin destination travelMode) =
     [(MapboxGeocoding, geocodeUrl w origin)]).
Proof.
  unfold Basic.getRouteAndDetails. cbn zeta. rewrite requests_bind. split.
  - intros Hwo. now rewrite (getCoordinates_ill_formed w origin Hwo).
  - intros Hwo Hwd.
    rewrite (getCoordinates_outcome w origin Hwo), (getCoordinates_requests w origin Hwo).
    rewrite requests_bind, (getCoordinates_ill_formed w destination Hwd). reflexivity.
Qed.

Lemma Basic_outcome_no_coordinates (w : World) (origin destination : string)
    (travelMode : option string) (oc dc : option Coordinates.t) :
  outcome (getCoordinates w origin) = Normal oc ->
  outcome (getCoordinates w destination) = Normal dc ->
  oc = None \/ dc = None ->
  outcome (Basic.getRouteAndDetails w origin destination travelMode) =
  Normal (Failure "Failed to get coordinates for origin or destination.").
Proof.
  intros Ho Hd H. unfold Basic.getRouteAndDetails. cbn zeta.
  rewrite outcome_bind, Ho, outcome_bind, Hd.
  destruct H as [-> | ->]; [reflexivity|]. destruct oc; reflexivity.
Qed.

Lemma Basic_requests_no_coordinates (w : World) (origin destination : string)
    (travelMode : option string) (oc dc : option Coordinates.t) :
  outcome (getCoordinates w origin) = Normal oc ->
  outcome (getCoordinates w destination) = Normal dc ->
  oc = None \/ dc = None ->
  requests (Basic.getRouteAndDetails w origin destination travelMode) =
  [(MapboxGeocoding, geocodeUrl w origin); (MapboxGeocoding, geocodeUrl w destination)].
Proof.
  intros Ho Hd H. unfold Basic.getRouteAndDetails. cbn zeta.
  rewrite requests_bind, Ho, requests_bind, Hd.
  rewrite (getCoordinates_requests w origin (getCoordinates_normal _ _ _ Ho)).
  rewrite (getCoordinates_requests w destination (getCoordinates_normal _ _ _ Hd)).
  destruct H as [-> | ->]; [reflexivity|]. destruct oc; reflexivity.
Qed.

Lemma Enhanced_success_inv (w : World) (origin destination : string)
    (travelMode : option string) (plan : Enhanced.TravelPlan) :
  outcome (Enhanced.getRouteAndDetails w origin destination travelMode) = Normal (Success plan) ->
  exists oc dc route pp hh ht,
    outcome (getCoordinates w origin) = Normal (Some oc) /\
    outcome (getCoordinates w destination) = Normal (Some dc) /\
    outcome (getRouteDetails w oc dc (Some (default_parameter "driving" travelMode))) =
      Normal (Success route) /\
    outcome (getPopularPlaces w destination) = Normal pp /\
    outcome (Enhanced.getHistoricalInfo w destination) = Normal hh /\
    outcome (Enhanced.getHotelRecommendations w dc) = Normal ht /\
    plan = Enhanced.mkTravelPlan
          (RouteDetails.duration route) (RouteDetails.distance route)
          (RouteDetails.directions route) (RouteDetails.places route)
          (places_or_empty pp) (history_or_null hh) (hotels_or_empty ht)
          (mapboxDirectionsUrl oc dc (default_parameter "driving" travelMode))
          (googleMapsDirectionsUrl oc dc (default_parameter "driving" travelMode)).
Proof.
  intros H.
  destruct (Js.isWellFormed origin) eqn:Hwo;
    [|rewrite Enhanced_outcome_ill_formed in H by auto; discriminate].
  destruct (Js.isWellFormed destination) eqn:Hwd;
    [|rewrite Enhanced_outcome_ill_formed in H by auto; discriminate].
  pose proof (getCoordinates_outcome w origin Hwo) as Ho.
  pose proof (getCoordinates_outcome w destination Hwd) as Hd.
  destruct (coordinates_of_reply (geocoding w (geocodeUrl w origin))) as [oc|].
  2:{ rewrite (Enhanced_outcome_no_coordinates _ _ _ _ _ _ Ho Hd) in H by auto.
      discriminate. }
  destruct (coordinates_of_reply (geocoding w (geocodeUrl w destination))) as [dc|].
  2:{ rewrite (Enhanced_outcome_no_coordinates _ _ _ _ _ _ Ho Hd) in H by auto.
      discriminate. }
  destruct (getPopularPlaces_returns w destination Hwd) as [pp Hpp].
  destruct (getHistoricalInfo_returns w destination) as [hh Hhh].
  destruct (getHotelRecommendations_returns w dc) as [ht Hht].
  rewrite (Enhanced_outcome_coordinates w origin destination travelMode oc dc pp hh ht) in H
    by assumption.
  destruct (route_result_of_reply _) as [route|message] eqn:Er; [|discriminate].
  exists oc, dc, route, pp, hh, ht. repeat split; try assumption.
  - rewrite getRouteDetails_outcome. cbn [default_parameter]. now rewrite Er.
  - now injection H as <-.
Qed.

Lemma Basic_success_inv (w : World) (origin destination : string)
    (travelMode : option string) (plan : Basic.TravelPlan) :
  outcome (Basic.getRouteAndDetails w origin destination travelMode) = Normal (Success plan) ->
  exists oc dc route pp,
    outcome (getCoordinates w origin) = Normal (Some oc) /\
    outcome (getCoordinates w destination) = Normal (Some dc) /\
    outcome (getRouteDetails w oc dc (Some (default_parameter "driving" travelMode))) =
      Normal (Success route) /\
    outcome (getPopularPlaces w destination) = Normal pp /\
    plan = Basic.mkTravelPlan
          (RouteDetails.duration route) (RouteDetails.distance route)
          (RouteDetails.directions route) (RouteDetails.places route)
          (places_or_empty pp)
          (mapboxDirectionsUrl oc dc (default_parameter "driving" travelMode))
          (googleMapsDirectionsUrl oc dc (default_parameter "driving" travelMode)).
Proof.
  intros H.
  destruct (Js.isWellFormed origin) eqn:Hwo;
    [|rewrite Basic_outcome_ill_formed in H by auto; discriminate].
  destruct (Js.isWellFormed destination) eqn:Hwd;
    [|rewrite Basic_outcome_ill_formed in H by auto; discriminate].
  pose proof (getCoordinates_outcome w origin Hwo) as Ho.
  pose proof (getCoordinates_outcome w destination Hwd) as Hd.
  destruct (coordinates_of_reply (geocoding w (geocodeUrl w origin))) as [oc|].
  2:{ rewrite (Basic_outcome_no_coordinates _ _ _ _ _ _ Ho Hd) in H by auto.
      discriminate. }
  destruct (coordinates_of_reply (geocoding w (geocodeUrl w destination))) as [dc|].
  2:{ rewrite (Basic_outcome_no_coordinates _ _ _ _ _ _ Ho Hd) in H by auto.
      discriminate. }
  destruct (getPopularPlaces_returns w destination Hwd) as [pp Hpp].
  rewrite (Basic_outcome_coordinates w origin destination travelMode oc dc pp) in H
    by assumption.
  destruct (route_result_of_reply _) as [route|message] eqn:Er; [|discriminate].
  exists oc, dc, route, pp. repeat split; try assumption.
  - rewrite getRouteDetails_outcome. cbn [default_parameter]. now rewrite Er.
  - now injection H as <-.
Qed.

Lemma Enhanced_execute_outcome (w : World) (origin destination : string)
    (travelMode : option string) (plan : Enhanced.TravelPlan) :
  outcome (Enhanced.getRouteAndDetails w origin destination travelMode) =
    Normal (Success plan) ->
  outcome (Enhanced.execute w origin destination travelMode) =
    Normal (Enhanced.render origin destination plan).
Proof.
  intros H. unfold Enhanced.execute. cbn zeta.
  rewrite outcome_try_catch, outcome_bind.
  assert (outcome (Enhanced.getRouteAndDetails w origin destination
                     (Some (default_parameter "driving" travelMode))) =
          outcome (Enhanced.getRouteAndDetails w origin destination travelMode)) as ->
    by (destruct travelMode; reflexivity).
  now rewrite H.
Qed.

Lemma Basic_execute_outcome (w : World) (origin destination : string)
    (travelMode : option string) (plan : Basic.TravelPlan) :
  outcome (Basic.getRouteAndDetails w origin destination travelMode) =
    Normal (Success plan) ->
  outcome (Basic.execute w origin destination travelMode) =
    Normal (Basic.render origin destination plan).
Proof.
  intros H. unfold Basic.execute. cbn zeta.
  rewrite outcome_try_catch, outcome_bind.
  assert (outcome (Basic.getRouteAndDetails w origin destination
                     (Some (default_parameter "driving" travelMode))) =
          outcome (Basic.getRouteAndDetails w origin destination travelMode)) as ->
    by (destruct travelMode; reflexivity).
  now rewrite H.
Qed.

Lemma placesAlongRouteDescription_items (placesAlongRoute : list RoutePlace.t) :
  placesAlongRouteDescription placesAlongRoute = Js.join Js.nl (notable_items placesAlongRoute).
Proof.
  unfold placesAlongRouteDescription, notable_items, Js.map_indexed, Js.slice.
  f_equal. cbn [drop Nat.sub]. apply imap_ext. intros i p Hi.
  apply lookup_take_Some in Hi as [_ Hi].
  unfold render_route_place, numbered_route_place.
  do 5 (destruct i as [|i]; [reflexivity|]). lia.
Qed.

Lemma places_or_empty_all_or_nothing (w : World) (location : string) :
  let places :=
    places_or_empty (places_result_of_reply w (wikipediaSearch w (placesSearchUrl location))) in
  places = [] \/
  exists response hits,
    wikipediaSearch w (placesSearchUrl location) = Resolved response /\
    Search.query_search response = Some hits /\
    length places = Nat.min (length hits) 5 /\
    Forall2 (fun hit place => summary_place w hit = Some place) (take 5 hits) places.
Proof.
  cbn zeta. destruct (wikipediaSearch w (placesSearchUrl location)) as [|response] eqn:Hreply;
    [left; reflexivity|].
  unfold places_result_of_reply.
  destruct (Search.query_search response) as [[|hit hits]|] eqn:Hsearch;
    [left; reflexivity| |left; reflexivity].
  destruct (mapM (summary_place w) (take 5 (hit :: hits))) as [places|] eqn:Hm;
    [|left; reflexivity].
  right. exists response, (hit :: hits). cbn [places_or_empty].
  split; [reflexivity|]. split; [assumption|]. split.
  - rewrite <- (length_mapM _ _ _ Hm), length_take. apply Nat.min_comm.
  - now apply mapM_Some_1.
Qed.

(** ** The claims *)

(** C1: a travel plan is returned only when both coordinate lookups return
    coordinates and the routing call succeeds, and then always.  In a returned
    plan a failed place discovery leaves [popularPlaces] empty, a failed
    historical lookup leaves [historicalInfo] null and a failed hotel search
    leaves [hotels] empty; none of the three turns the aggregate into a
    failure.  The revision without history and hotels behaves the same for its
    own fields. *)
Theorem plan_requires_coordinates_and_route
    (w : World) (origin destination : string) (travelMode : option string) :
  (forall plan : Enhanced.TravelPlan,
     outcome (Enhanced.getRouteAndDetails w origin destination travelMode) =
       Normal (Success plan) ->
     exists originCoords destinationCoords route,
       outcome (getCoordinates w origin) = Normal (Some originCoords) /\
       outcome (getCoordinates w destination) = Normal (Some destinationCoords) /\
       outcome (getRouteDetails w originCoords destinationCoords
                  (Some (default_parameter "driving" travelMode))) =
         Normal (Success route) /\
       (forall message, outcome (getPopularPlaces w destination) = Normal (Failure message) ->
          Enhanced.popularPlaces plan = []) /\
       (forall message,
          outcome (Enhanced.getHistoricalInfo w destination) = Normal (Failure message) ->
          Enhanced.historicalInfo plan = None) /\
       (forall message,
          outcome (Enhanced.getHotelRecommendations w destinationCoords) =
            Normal (Failure message) ->
          Enhanced.hotels plan = [])) /\
  (forall originCoords destinationCoords route,
     outcome (getCoordinates w origin) = Normal (Some originCoords) ->
     outcome (getCoordinates w destination) = Normal (Some destinationCoords) ->
     outcome (getRouteDetails w originCoords destinationCoords
                (Some (default_parameter "driving" travelMode))) =
       Normal (Success route) ->
     exists plan,
       outcome (Enhanced.getRouteAndDetails w origin destination travelMode) =
         Normal (Success plan)) /\
  (forall plan : Basic.TravelPlan,
     outcome (Basic.getRouteAndDetails w origin destination travelMode) =
       Normal (Success plan) ->
     exists originCoords destinationCoords route,
       outcome (getCoordinates w origin) = Normal (Some originCoords) /\
       outcome (getCoordinates w destination) = Normal (Some destinationCoords) /\
       outcome (getRouteDetails w originCoords destinationCoords
                  (Some (default_parameter "driving" travelMode))) =
         Normal (Success route) /\
       (forall message, outcome (getPopularPlaces w destination) = Normal (Failure message) ->
          Basic.popularPlaces plan = [])) /\
  (forall originCoords destinationCoords route,
     outcome (getCoordinates w origin) = Normal (Some originCoords) ->
     outcome (getCoordinates w destination) = Normal (Some destinationCoords) ->
     outcome (getRouteDetails w originCoords destinationCoords
                (Some (default_parameter "driving" travelMode))) =
       Normal (Success route) ->
     exists plan,
       outcome (Basic.getRouteAndDetails w origin destination travelMode) =
         Normal (Success plan)).
Proof.
  repeat split.
  - intros plan H.
    destruct (Enhanced_success_inv _ _ _ _ _ H)
      as (oc & dc & route & pp & hh & ht & Ho & Hd & Hr & Hpp & Hhh & Hht & ->).
    exists oc, dc, route. repeat split; try assumption; intros message Hm; cbn.
    + rewrite Hpp in Hm. now injection Hm as ->.
    + rewrite Hhh in Hm. now injection Hm as ->.
    + rewrite Hht in Hm. now injection Hm as ->.
  - intros oc dc route Ho Hd Hr.
    destruct (getPopularPlaces_returns w destination (getCoordinates_normal _ _ _ Hd))
      as [pp Hpp].
    destruct (getHistoricalInfo_returns w destination) as [hh Hhh].
    destruct (getHotelRecommendations_returns w dc) as [ht Hht].
    rewrite (Enhanced_outcome_coordinates w origin destination travelMode oc dc pp hh ht)
      by assumption.
    rewrite getRouteDetails_outcome in Hr. cbn [default_parameter] in Hr.
    injection Hr as ->. eauto.
  - intros plan H.
    destruct (Basic_success_inv _ _ _ _ _ H)
      as (oc & dc & route & pp & Ho & Hd & Hr & Hpp & ->).
    exists oc, dc, route. repeat split; try assumption; intros message Hm; cbn.
    rewrite Hpp in Hm. now injection Hm as ->.
  - intros oc dc route Ho Hd Hr.
    destruct (getPopularPlaces_returns w destination (getCoordinates_normal _ _ _ Hd))
      as [pp Hpp].
    rewrite (Basic_outcome_coordinates w origin destination travelMode oc dc pp)
      by assumption.
    rewrite getRouteDetails_outcome in Hr. cbn [default_parameter] in Hr.
    injection Hr as ->. eauto.
Qed.

Lemma plan_requires_coordinates_and_route_witness :
  exists plan,
    outcome (Enhanced.getRouteAndDetails Sample.degraded "Bangalore" "Mysore" None) =
      Normal (Success plan) /\
    Enhanced.popularPlaces plan = [] /\
    Enhanced.historicalInfo plan = None /\
    Enhanced.hotels plan = [].
Proof.
  destruct (proj1 (proj2 (plan_requires_coordinates_and_route
                            Sample.degraded "Bangalore" "Mysore" None))
              Sample.coords Sample.coords
              (RouteDetails.mk "2 minutes" "1.50 km"
                 (String.concat " -> " (map Step.maneuver_instruction Sample.steps))
                 (omap place_of_step Sample.steps)))
    as [plan Hplan]; [vm_compute; reflexivity..|].
  exists plan. split; [exact Hplan|].
  destruct (proj1 (plan_requires_coordinates_and_route
                     Sample.degraded "Bangalore" "Mysore" None) plan Hplan)
    as (oc & dc & route & Ho & Hd & Hr & Hpp & Hhh & Hht).
  assert (dc = Sample.coords) as ->.
  { assert (Normal (Some dc) = Normal (Some Sample.coords)) as E
      by (rewrite <- Hd; vm_compute; reflexivity).
    now injection E. }
  split; [|split].
  - apply (Hpp "Failed to get popular places from Wikipedia."). vm_compute. reflexivity.
  - apply (Hhh "Failed to fetch historical information."). vm_compute. reflexivity.
  - apply (Hht "Failed to fetch hotel recommendations."). vm_compute. reflexivity.
Defined.

(** C2: when both coordinate lookups succeed and the directions provider
    answers with a missing or empty list of routes, [getRouteAndDetails]
    returns the failure whose message is exactly [No routes found. Please
    check the origin and destination.], in both revisions. *)
Theorem no_routes_is_fatal
    (w : World) (origin destination : string) (travelMode : option string)
    (originCoords destinationCoords : Coordinates.t) (response : Directions.t) :
  outcome (getCoordinates w origin) = Normal (Some originCoords) ->
  outcome (getCoordinates w destination) = Normal (Some destinationCoords) ->
  directions w (routeUrl w originCoords destinationCoords
                  (default_parameter "driving" travelMode)) = Resolved response ->
  Directions.routes response = None \/ Directions.routes response = Some [] ->
  outcome (Enhanced.getRouteAndDetails w origin destination travelMode) =
    Normal (Failure no_routes_message) /\
  outcome (Basic.getRouteAndDetails w origin destination travelMode) =
    Normal (Failure no_routes_message).
Proof.
  intros Ho Hd Hreply Hroutes.
  assert (route_result_of_reply
            (directions w (routeUrl w originCoords destinationCoords
                             (default_parameter "driving" travelMode))) =
          Failure no_routes_message) as Hr.
  { rewrite Hreply. unfold route_result_of_reply.
    destruct Hroutes as [-> | ->]; reflexivity. }
  destruct (getPopularPlaces_returns w destination (getCoordinates_normal _ _ _ Hd))
      as [pp Hpp].
  destruct (getHistoricalInfo_returns w destination) as [hh Hhh].
  destruct (getHotelRecommendations_returns w destinationCoords) as [ht Hht].
  split.
  - rewrite (Enhanced_outcome_coordinates w origin destination travelMode
               originCoords destinationCoords pp hh ht) by assumption.
    now rewrite Hr.
  - rewrite (Basic_outcome_coordinates w origin destination travelMode
               originCoords destinationCoords pp) by assumption.
    now rewrite Hr.
Qed.

Lemma no_routes_is_fatal_witness :
  outcome (getCoordinates Sample.no_routes "Bangalore") = Normal (Some Sample.coords) /\
  outcome (Enhanced.getRouteAndDetails Sample.no_routes "Bangalore" "Mysore" None) =
    Normal (Failure no_routes_message) /\
  outcome (Basic.getRouteAndDetails Sample.no_routes "Bangalore" "Mysore" None) =
    Normal (Failure no_routes_message).
Proof.
  split; [vm_compute; reflexivity|].
  apply (no_routes_is_fatal Sample.no_routes "Bangalore" "Mysore" None
           Sample.coords Sample.coords (Directions.mk (Some []))).
  - vm_compute. reflexivity.
  - vm_compute. reflexivity.
  - reflexivity.
  - right. reflexivity.
Defined.




(** C4: two worlds that agree on the geocoding and directions providers yield
    plans with the same duration, distance, directions, places along the route
    and map links, whatever the knowledge base and the hotel search answer;
    and each of [popularPlaces], [historicalInfo] and [hotels] is the same as
    soon as its own provider call has the same outcome. *)
Theorem auxiliary_outcomes_frame
    (w1 w2 : World) (origin destination : string) (travelMode : option string)
    (plan1 : Enhanced.TravelPlan) :
  mapboxToken w1 = mapboxToken w2 ->
  (forall url, geocoding w1 url = geocoding w2 url) ->
  (forall url, directions w1 url = directions w2 url) ->
  outcome (Enhanced.getRouteAndDetails w1 origin destination travelMode) =
    Normal (Success plan1) ->
  exists plan2,
    outcome (Enhanced.getRouteAndDetails w2 origin destination travelMode) =
      Normal (Success plan2) /\
    Enhanced.duration plan1 = Enhanced.duration plan2 /\
    Enhanced.distance plan1 = Enhanced.distance plan2 /\
    Enhanced.directions plan1 = Enhanced.directions plan2 /\
    Enhanced.placesAlongRoute plan1 = Enhanced.placesAlongRoute plan2 /\
    Enhanced.mapboxUrl plan1 = Enhanced.mapboxUrl plan2 /\
    Enhanced.googleMapsUrl plan1 = Enhanced.googleMapsUrl plan2 /\
    (outcome (getPopularPlaces w1 destination) = outcome (getPopularPlaces w2 destination) ->
     Enhanced.popularPlaces plan1 = Enhanced.popularPlaces plan2) /\
    (outcome (Enhanced.getHistoricalInfo w1 destination) =
       outcome (Enhanced.getHistoricalInfo w2 destination) ->
     Enhanced.historicalInfo plan1 = Enhanced.historicalInfo plan2) /\
    (forall destinationCoords,
       outcome (getCoordinates w1 destination) = Normal (Some destinationCoords) ->
       outcome (Enhanced.getHotelRecommendations w1 destinationCoords) =
         outcome (Enhanced.getHotelRecommendations w2 destinationCoords) ->
       Enhanced.hotels plan1 = Enhanced.hotels plan2).
Proof.
  intros Ht Hg Hdir H1.
  destruct (Enhanced_success_inv _ _ _ _ _ H1)
    as (oc & dc & route & pp & hh & ht & Ho & Hd & Hr & Hpp & Hhh & Hht & ->).
  destruct (getPopularPlaces_returns w2 destination (getCoordinates_normal _ _ _ Hd))
    as [pp2 Hpp2].
  destruct (getHistoricalInfo_returns w2 destination) as [hh2 Hhh2].
  destruct (getHotelRecommendations_returns w2 dc) as [ht2 Hht2].
  rewrite (getCoordinates_same_world w1 w2) in Ho, Hd by assumption.
  rewrite (getRouteDetails_same_world w1 w2) in Hr by assumption.
  eexists. split.
  - rewrite (Enhanced_outcome_coordinates w2 origin destination travelMode oc dc pp2 hh2 ht2)
      by assumption.
    rewrite getRouteDetails_outcome in Hr. cbn [default_parameter] in Hr.
    injection Hr as ->. reflexivity.
  - cbn. repeat split.
    + intros E. rewrite Hpp, Hpp2 in E. now injection E as ->.
    + intros E. rewrite Hhh, Hhh2 in E. now injection E as ->.
    + intros dc' Hd' E. rewrite <- (getCoordinates_same_world w1 w2) in Hd by assumption.
      rewrite Hd in Hd'. injection Hd' as <-.
      rewrite Hht, Hht2 in E. now injection E as ->.
Qed.

Lemma auxiliary_outcomes_frame_witness :
  exists plan1 plan2,
    outcome (Enhanced.getRouteAndDetails Sample.world "Bangalore" "Mysore" None) =
      Normal (Success plan1) /\
    outcome (Enhanced.getRouteAndDetails Sample.degraded "Bangalore" "Mysore" None) =
      Normal (Success plan2) /\
    Enhanced.duration plan1 = Enhanced.duration plan2 /\
    Enhanced.distance plan1 = Enhanced.distance plan2 /\
    Enhanced.directions plan1 = Enhanced.directions plan2.
Proof.
  assert (exists plan,
            outcome (Enhanced.getRouteAndDetails Sample.world "Bangalore" "Mysore" None) =
              Normal (Success plan)) as [plan1 H1]
    by (eexists; vm_compute; reflexivity).
  destruct (auxiliary_outcomes_frame Sample.world Sample.degraded
              "Bangalore" "Mysore" None plan1)
    as (plan2 & H2 & Hdur & Hdist & Hdir & _); [reflexivity..|exact H1|].
  exists plan1, plan2. repeat split; assumption.
Defined.

Section RouteSummary.

Local Open Scope Z_scope.

(** C5: (amended) for every successful route result, when the distance of
    the best route divided by 1000 is finite and below 10^21 in magnitude the
    formatted distance is the hundredth nearest to it written with exactly two
    decimal places and followed by [ km]; when the duration divided by 60 is
    finite and its floor is below 2^53 in magnitude the formatted duration is
    that floor in decimal followed by [ minutes]. *)
Theorem route_summary_formatting
    (w : World) (origin destination : Coordinates.t) (travelMode : option string)
    (details : RouteDetails.t) :
  outcome (getRouteDetails w origin destination travelMode) = Normal (Success details) ->
  exists response route rest,
    directions w (routeUrl w origin destination (default_parameter "driving" travelMode)) =
      Resolved response /\
    Directions.routes response = Some (route :: rest) /\
    let km := Number.div (Route.distance route) (Number.of_Z 1000) in
    let minutes := Number.div (Route.duration route) (Number.of_Z 60) in
    (Number.isFinite km = true ->
     Z.abs (Number.num km) < 10 ^ 21 * Number.den km ->
     exists n, nearest_hundredth km n /\
       RouteDetails.distance details =
         sign_prefix (Number.num km) +:+ two_decimals n +:+ " km") /\
    (Number.isFinite minutes = true ->
     forall n,
       n * Number.den minutes <= Number.num minutes < (n + 1) * Number.den minutes ->
       Z.abs n < 2 ^ 53 ->
       RouteDetails.duration details = signed_decimal n +:+ " minutes").
Proof.
  intros Hout.
  destruct (getRouteDetails_success_inv _ _ _ _ _ Hout)
    as (response & route & rest & leg & legs & Hreply & Hroutes & Hlegs & ->).
  exists response, route, rest. split; [assumption|]. split; [assumption|].
  intros km minutes. split.
  - intros Hfin Hlt. destruct (toFixed_two_decimals km Hfin Hlt) as (n & Hn & E).
    exists n. split; [assumption|]. cbn [RouteDetails.distance].
    unfold format_distance. fold km. rewrite E. now rewrite !string_app_assoc.
  - intros Hfin n Hfloor Hn. cbn [RouteDetails.duration].
    unfold format_duration. fold minutes.
    assert (n = Number.floorZ minutes) as ->
      by (apply floor_unique; [apply den_pos|assumption]).
    rewrite toString_floor by assumption.
    unfold signed_decimal. now rewrite !string_app_assoc.
Qed.

Lemma route_summary_formatting_witness :
  exists details,
    outcome (getRouteDetails Sample.world Sample.coords Sample.coords None) =
      Normal (Success details) /\
    RouteDetails.distance details = "1.50 km"%string /\
    RouteDetails.duration details = "2 minutes"%string.
Proof.
  assert (exists details,
            outcome (getRouteDetails Sample.world Sample.coords Sample.coords None) =
              Normal (Success details)) as [details Hout]
    by (eexists; vm_compute; reflexivity).
  exists details. split; [exact Hout|].
  destruct (route_summary_formatting Sample.world Sample.coords Sample.coords None
              details Hout)
    as (response & route & rest & Hreply & Hroutes & Hdist & Hdur).
  assert (response = Directions.mk (Some [Sample.route])) as ->
    by (cbn in Hreply; congruence).
  assert (route = Sample.route) as -> by (cbn in Hroutes; congruence).
  split.
  - destruct Hdist as (n & [Hn Hnear] & ->); [vm_compute; reflexivity..|].
    set (km := Number.div (Route.distance Sample.route) (Number.of_Z 1000)) in *.
    evaluate_in (Number.num km) Hnear. evaluate_in (Number.den km) Hnear.
    assert (n = 150) as -> by lia.
    vm_compute. reflexivity.
  - rewrite (Hdur eq_refl 2); [vm_compute; reflexivity|vm_compute; split; congruence|reflexivity].
Defined.

(** C5, as stated, fails outside these ranges: a distance of 10^24 metres is
    formatted [1e+21 km], without decimal places, and a duration of 60 * 2^60
    seconds is formatted [1152921504606847000 minutes], which is not the floor
    2^60 = 1152921504606846976. *)
Lemma distance_beyond_fixed_notation :
  exists details,
    outcome (getRouteDetails Sample.far Sample.coords Sample.coords None) =
      Normal (Success details) /\
    RouteDetails.distance details = "1e+21 km"%string /\
    (forall n, nearest_hundredth Sample.far_km n ->
       RouteDetails.distance details <>
         sign_prefix (Number.num Sample.far_km) +:+ two_decimals n +:+ " km") /\
    RouteDetails.duration details = "1152921504606847000 minutes"%string /\
    2 ^ 60 * Number.den Sample.far_minutes <= Number.num Sample.far_minutes
      < (2 ^ 60 + 1) * Number.den Sample.far_minutes /\
    RouteDetails.duration details <> signed_decimal (2 ^ 60) +:+ " minutes".
Proof.
  eexists. split; [vm_compute; reflexivity|].
  cbn [RouteDetails.distance RouteDetails.duration].
  split; [reflexivity|]. split; [|split; [reflexivity|split]].
  - intros n [Hn Hnear].
    evaluate_in (Number.num Sample.far_km) Hnear.
    evaluate_in (Number.den Sample.far_km) Hnear.
    assert (n = 10 ^ 23) as -> by lia.
    vm_compute. discriminate.
  - vm_compute. split; congruence.
  - vm_compute. discriminate.
Qed.

End RouteSummary.

(** C6: for every successful route result, the places of the result are
    exactly the steps of the first leg of the best route that carry a
    non-empty name, in travel order, and the directions are the maneuver
    instructions of all steps, named or not, in step order, joined with
    [ -> ]. *)
Theorem named_steps_and_joined_directions
    (w : World) (origin destination : Coordinates.t) (travelMode : option string)
    (details : RouteDetails.t) :
  outcome (getRouteDetails w origin destination travelMode) = Normal (Success details) ->
  exists response route rest leg legs,
    directions w (routeUrl w origin destination (default_parameter "driving" travelMode)) =
      Resolved response /\
    Directions.routes response = Some (route :: rest) /\
    Route.legs route = leg :: legs /\
    RouteDetails.places details = omap place_of_step (Leg.steps leg) /\
    RouteDetails.directions details =
      String.concat " -> " (map Step.maneuver_instruction (Leg.steps leg)).
Proof.
  intros Hout.
  destruct (getRouteDetails_success_inv _ _ _ _ _ Hout)
    as (response & route & rest & leg & legs & Hreply & Hroutes & Hlegs & ->).
  exists response, route, rest, leg, legs. repeat split; assumption.
Qed.

Lemma named_steps_and_joined_directions_witness :
  exists details,
    outcome (getRouteDetails Sample.world Sample.coords Sample.coords None) =
      Normal (Success details) /\
    map RoutePlace.name (RouteDetails.places details) =
      ["MG Road"; "Mysore Road"; "NH 275"; "Ring Road"; "Sayyaji Rao Road";
       "Palace Road"; "Palace Gate"]%string /\
    RouteDetails.directions details =
      "Head north on MG Road -> Turn left -> Continue onto Mysore Road -> Keep right -> Merge onto NH 275 -> Take the Ring Road exit -> Turn right onto Sayyaji Rao Road -> Turn left onto Palace Road -> You have arrived"%string.
Proof.
  assert (exists details,
            outcome (getRouteDetails Sample.world Sample.coords Sample.coords None) =
              Normal (Success details)) as [details Hout]
    by (eexists; vm_compute; reflexivity).
  exists details. split; [exact Hout|].
  destruct (named_steps_and_joined_directions Sample.world Sample.coords Sample.coords None
              details Hout)
    as (response & route & rest & leg & legs & Hreply & Hroutes & Hlegs & Hplaces & Hdirections).
  assert (response = Directions.mk (Some [Sample.route])) as ->
    by (cbn in Hreply; congruence).
  assert (route = Sample.route) as -> by (cbn in Hroutes; congruence).
  assert (leg = Leg.mk Sample.steps) as -> by (cbn in Hlegs; congruence).
  rewrite Hplaces, Hdirections. split; vm_compute; reflexivity.
Defined.

(** C7: in the reply rendered for a successful plan, the section of notable
    places lists the first five places along the route and no more, one item
    per place, the item of the place at position [i] carrying the number
    [i + 1]; in both revisions. *)
Theorem notable_places_capped_and_numbered
    (w : World) (origin destination : string) (travelMode : option string) :
  (forall plan : Enhanced.TravelPlan,
     outcome (Enhanced.getRouteAndDetails w origin destination travelMode) =
       Normal (Success plan) ->
     exists before after,
       outcome (Enhanced.execute w origin destination travelMode) =
         Normal (before +:+
                 Js.template (notable_section (notable_items (Enhanced.placesAlongRoute plan)))
                 +:+ after)) /\
  (forall plan : Basic.TravelPlan,
     outcome (Basic.getRouteAndDetails w origin destination travelMode) =
       Normal (Success plan) ->
     exists before after,
       outcome (Basic.execute w origin destination travelMode) =
         Normal (before +:+
                 Js.template (notable_section (notable_items (Basic.placesAlongRoute plan)))
                 +:+ after)) /\
  (forall placesAlongRoute : list RoutePlace.t,
     placesAlongRouteDescription placesAlongRoute =
       Js.join Js.nl (notable_items placesAlongRoute) /\
     (length (notable_items placesAlongRoute) <= 5)%nat /\
     length (notable_items placesAlongRoute) = Nat.min 5 (length placesAlongRoute) /\
     forall (i : nat) (p : RoutePlace.t),
       (i < 5)%nat -> placesAlongRoute !! i = Some p ->
       notable_items placesAlongRoute !! i =
         Some (numbered_route_place (Z.of_nat i + 1) p)).
Proof.
  split; [|split].
  - intros plan H. rewrite (Enhanced_execute_outcome _ _ _ _ _ H).
    unfold Enhanced.render. rewrite placesAlongRouteDescription_items.
    match goal with
    | |- context [Js.template ?l] =>
        exists (Js.template (take 28 l)), (Js.template (drop 34 l))
    end.
    rewrite <- !template_app. reflexivity.
  - intros plan H. rewrite (Basic_execute_outcome _ _ _ _ _ H).
    unfold Basic.render. rewrite placesAlongRouteDescription_items.
    match goal with
    | |- context [Js.template ?l] =>
        exists (Js.template (take 15 l)), (Js.template (drop 21 l))
    end.
    rewrite <- !template_app. reflexivity.
  - intros places. split; [apply placesAlongRouteDescription_items|].
    unfold notable_items. rewrite length_imap, length_take.
    split; [lia|]. split; [reflexivity|].
    intros i p Hi Hp. rewrite list_lookup_imap, lookup_take_lt by assumption.
    now rewrite Hp.
Qed.

Lemma notable_places_capped_and_numbered_witness :
  exists plan before after,
    outcome (Enhanced.getRouteAndDetails Sample.world "Bangalore" "Mysore" None) =
      Normal (Success plan) /\
    length (Enhanced.placesAlongRoute plan) = 7%nat /\
    outcome (Enhanced.execute Sample.world "Bangalore" "Mysore" None) =
      Normal (before +:+
              Js.template (notable_section (notable_items (Enhanced.placesAlongRoute plan)))
              +:+ after) /\
    length (notable_items (Enhanced.placesAlongRoute plan)) = 5%nat.
Proof.
  assert (exists plan,
            outcome (Enhanced.getRouteAndDetails Sample.world "Bangalore" "Mysore" None) =
              Normal (Success plan) /\
            length (Enhanced.placesAlongRoute plan) = 7%nat) as (plan & Hplan & Hlen)
    by (eexists; split; vm_compute; reflexivity).
  destruct (notable_places_capped_and_numbered Sample.world "Bangalore" "Mysore" None)
    as (Henhanced & _ & Hitems).
  destruct (Henhanced plan Hplan) as (before & after & Htext).
  destruct (Hitems (Enhanced.placesAlongRoute plan)) as (_ & _ & Hmin & _).
  exists plan, before, after. repeat split; try assumption.
  rewrite Hmin, Hlen. reflexivity.
Defined.

(** C8: (amended) the hotel search asks the provider for at most five venues
    ranked by rating ([sort=RATING&limit=5]) and returns one hotel entry per
    venue of the reply, in the order of the reply: at most five whenever the
    reply honours the limit.  An entry whose venue has no rating gets the
    rating [N/A], and an entry whose venue has no category gets the category
    [Hotel]. *)
Theorem hotels_follow_provider_list
    (w : World) (coordinates : Coordinates.t) (response : Venues.t) :
  foursquare w (Enhanced.hotelSearchUrl coordinates) (foursquareApiKey w) =
    Resolved response ->
  exists hotels,
    outcome (Enhanced.getHotelRecommendations w coordinates) = Normal (Success hotels) /\
    requests (Enhanced.getHotelRecommendations w coordinates) =
      [(FoursquareSearch, Enhanced.hotelSearchUrl coordinates)] /\
    (exists base, Enhanced.hotelSearchUrl coordinates = base +:+ "&sort=RATING&limit=5") /\
    length hotels = length (Venues.results response) /\
    (length (Venues.results response) <= 5 -> length hotels <= 5) /\
    forall (i : nat) (venue : Venue.t),
      Venues.results response !! i = Some venue ->
      exists hotel,
        hotels !! i = Some hotel /\
        Hotel.name hotel = Venue.name venue /\
        (Venue.rating venue = None -> Hotel.rating hotel = Js.VString "N/A") /\
        (lacks_category venue -> Hotel.category hotel = "Hotel"%string).
Proof.
  intros Hreply. eexists. split; [|split; [|split; [|split; [|split]]]].
  - rewrite getHotelRecommendations_outcome, Hreply. reflexivity.
  - apply getHotelRecommendations_requests.
  - unfold Enhanced.hotelSearchUrl.
    match goal with
    | |- context [Js.template ?l] => exists (Js.template (take 4 l))
    end.
    change "&sort=RATING&limit=5"%string with (Js.template ["&sort=RATING&limit=5"%string]).
    rewrite <- template_app. reflexivity.
  - apply length_map.
  - rewrite length_map. auto.
  - intros i venue Hi. exists (Enhanced.to_hotel venue).
    split; [rewrite list_lookup_fmap, Hi; reflexivity|].
    split; [reflexivity|]. split.
    + intros Hr. cbn. now rewrite Hr.
    + unfold lacks_category. intros Hc. cbn. unfold Enhanced.category_or_default.
      destruct (Venue.categories venue) as [|first rest]; [reflexivity|].
      cbn. now rewrite Hc.
Qed.

Lemma hotels_follow_provider_list_witness :
  exists hotels,
    outcome (Enhanced.getHotelRecommendations Sample.world Sample.coords) =
      Normal (Success hotels) /\
    length hotels = 3 /\
    map Hotel.rating hotels =
      [Js.VNumber (Number.div (Number.of_Z 17) (Number.of_Z 2));
       Js.VString "N/A"; Js.VString "N/A"] /\
    map Hotel.category hotels = ["Resort"; "Hotel"; "Hotel"]%string.
Proof.
  destruct (hotels_follow_provider_list Sample.world Sample.coords
              (Venues.mk Sample.venues) eq_refl)
    as (hotels & Hout & _ & _ & Hlen & _ & _).
  exists hotels. split; [exact Hout|]. split; [exact Hlen|].
  rewrite getHotelRecommendations_outcome in Hout.
  injection Hout as <-. split; reflexivity.
Defined.

(** C8, as stated, fails: the handler does not truncate the reply, so a reply
    with six venues yields six hotel entries. *)
Lemma six_venues_six_hotels :
  exists hotels,
    outcome (Enhanced.getHotelRecommendations Sample.crowded Sample.coords) =
      Normal (Success hotels) /\
    length hotels = 6 /\
    ~ length hotels <= 5.
Proof.
  eexists. split; [vm_compute; reflexivity|]. split; [reflexivity|]. cbn. lia.
Qed.

(** C9: when the coordinates and the route are found and the historical lookup
    fails, the plan has a null [historicalInfo] and the rendered reply starts
    with the route summary (duration and distance), the directions and a
    historical section that holds the sentence [No historical information
    available.] followed by nothing but line breaks, with no source link. *)
Theorem missing_history_placeholder
    (w : World) (origin destination : string) (travelMode : option string)
    (originCoords destinationCoords : Coordinates.t) (route : RouteDetails.t)
    (message : string) :
  outcome (getCoordinates w origin) = Normal (Some originCoords) ->
  outcome (getCoordinates w destination) = Normal (Some destinationCoords) ->
  outcome (getRouteDetails w originCoords destinationCoords
             (Some (default_parameter "driving" travelMode))) = Normal (Success route) ->
  outcome (Enhanced.getHistoricalInfo w destination) = Normal (Failure message) ->
  exists plan rest,
    outcome (Enhanced.getRouteAndDetails w origin destination travelMode) =
      Normal (Success plan) /\
    Enhanced.historicalInfo plan = None /\
    outcome (Enhanced.execute w origin destination travelMode) =
      Normal (Js.template (degraded_history_prefix origin destination route) +:+ rest).
Proof.
  intros Ho Hd Hr Hh.
  destruct (getPopularPlaces_returns w destination (getCoordinates_normal _ _ _ Hd))
      as [pp Hpp].
  destruct (getHotelRecommendations_returns w destinationCoords) as [ht Hht].
  pose proof (Enhanced_outcome_coordinates w origin destination travelMode
                originCoords destinationCoords pp _ ht Ho Hd Hpp Hh Hht) as Hplan.
  rewrite getRouteDetails_outcome in Hr. cbn [default_parameter] in Hr.
  injection Hr as Hr. rewrite Hr in Hplan.
  eexists. eexists. split; [exact Hplan|]. split; [reflexivity|].
  rewrite (Enhanced_execute_outcome _ _ _ _ _ Hplan).
  unfold Enhanced.render.
  cbn [Enhanced.duration Enhanced.distance Enhanced.directions Enhanced.historicalInfo
       history_or_null Enhanced.historical_summary Enhanced.historical_source].
  match goal with
  | |- Normal (Js.template ?l) = _ =>
      change l with (take 25 l ++ [""%string] ++ drop 26 l)
  end.
  rewrite !template_app.
  change (Js.template [""%string]) with ""%string.
  change ("" +:+ ?s) with s.
  rewrite <- template_app. cbn [take drop app].
  f_equal.
  match goal with
  | |- Js.template ?l = _ =>
      change l with (degraded_history_prefix origin destination route ++ drop 29 l)
  end.
  rewrite template_app. reflexivity.
Qed.

Lemma missing_history_placeholder_witness :
  outcome (Enhanced.getHistoricalInfo Sample.no_history "Mysore") =
    Normal (Failure "Failed to fetch historical information.") /\
  exists rest,
    outcome (Enhanced.execute Sample.no_history "Bangalore" "Mysore" None) =
      Normal (Js.template
                (degraded_history_prefix "Bangalore" "Mysore"
                   (RouteDetails.mk "2 minutes" "1.50 km"
                      (String.concat " -> " (map Step.maneuver_instruction Sample.steps))
                      (omap place_of_step Sample.steps)))
              +:+ rest).
Proof.
  split; [vm_compute; reflexivity|].
  destruct (missing_history_placeholder Sample.no_history "Bangalore" "Mysore" None
              Sample.coords Sample.coords
              (RouteDetails.mk "2 minutes" "1.50 km"
                 (String.concat " -> " (map Step.maneuver_instruction Sample.steps))
                 (omap place_of_step Sample.steps))
              "Failed to fetch historical information.")
    as (plan & rest & _ & _ & Htext); [vm_compute; reflexivity..|].
  exists rest. exact Htext.
Defined.

(** C10: when [getPopularPlaces] has searched for a location, which it does
    for every location whose name [encodeURIComponent] accepts, and the
    search returns a non-empty list and the summary of one of its first five
    results cannot be fetched (the request is rejected, or the title cannot be
    encoded), [getPopularPlaces] returns a failure and no list; hence the
    [popularPlaces] of a plan is either empty or holds one entry for each of
    the first five search results, never a proper prefix; in both revisions. *)
Theorem popular_places_all_or_nothing (w : World) :
  (forall (location : string) (response : Search.t) (hits : list SearchHit.t)
          (i : nat) (hit : SearchHit.t),
     Js.isWellFormed location = true ->
     wikipediaSearch w (placesSearchUrl location) = Resolved response ->
     Search.query_search response = Some hits ->
     i < Nat.min (length hits) 5 ->
     hits !! i = Some hit ->
     wikipediaSummary w (summaryUrl (SearchHit.title hit)) = Rejected \/
     Js.isWellFormed (SearchHit.title hit) = false ->
     outcome (getPopularPlaces w location) = Normal (Failure popular_places_failed)) /\
  (forall (origin destination : string) (travelMode : option string)
          (plan : Enhanced.TravelPlan),
     outcome (Enhanced.getRouteAndDetails w origin destination travelMode) =
       Normal (Success plan) ->
     Enhanced.popularPlaces plan = [] \/
     exists response hits,
       wikipediaSearch w (placesSearchUrl destination) = Resolved response /\
       Search.query_search response = Some hits /\
       length (Enhanced.popularPlaces plan) = Nat.min (length hits) 5 /\
       Forall2 (fun hit place => summary_place w hit = Some place)
         (take 5 hits) (Enhanced.popularPlaces plan)) /\
  (forall (origin destination : string) (travelMode : option string)
          (plan : Basic.TravelPlan),
     outcome (Basic.getRouteAndDetails w origin destination travelMode) =
       Normal (Success plan) ->
     Basic.popularPlaces plan = [] \/
     exists response hits,
       wikipediaSearch w (placesSearchUrl destination) = Resolved response /\
       Search.query_search response = Some hits /\
       length (Basic.popularPlaces plan) = Nat.min (length hits) 5 /\
       Forall2 (fun hit place => summary_place w hit = Some place)
         (take 5 hits) (Basic.popularPlaces plan)).
Proof.
  split; [|split].
  - intros location response hits i hit Hwf Hreply Hsearch Hi Hhit Hsummary.
    rewrite getPopularPlaces_outcome, Hreply by assumption. unfold places_result_of_reply.
    rewrite Hsearch. destruct hits as [|first rest]; [cbn in Hi; lia|].
    assert (mapM (summary_place w) (take 5 (first :: rest)) = None) as ->; [|reflexivity].
    apply mapM_None_2, Exists_exists. exists hit. split.
    + apply (list_elem_of_lookup_2 _ i). rewrite lookup_take_lt by lia. assumption.
    + unfold summary_place. destruct Hsummary as [-> | ->]; [|reflexivity].
      now destruct (Js.isWellFormed (SearchHit.title hit)).
  - intros origin destination travelMode plan H.
    destruct (Enhanced_success_inv _ _ _ _ _ H)
      as (oc & dc & route & pp & hh & ht & _ & Hd & _ & Hpp & _ & _ & ->).
    rewrite getPopularPlaces_outcome in Hpp by exact (getCoordinates_normal _ _ _ Hd).
    injection Hpp as <-. apply places_or_empty_all_or_nothing.
  - intros origin destination travelMode plan H.
    destruct (Basic_success_inv _ _ _ _ _ H)
      as (oc & dc & route & pp & _ & Hd & _ & Hpp & ->).
    rewrite getPopularPlaces_outcome in Hpp by exact (getCoordinates_normal _ _ _ Hd).
    injection Hpp as <-. apply places_or_empty_all_or_nothing.
Qed.

Lemma popular_places_all_or_nothing_witness :
  wikipediaSummary Sample.broken_summary
    (summaryUrl (SearchHit.title (SearchHit.mk "Chamundi Hills" (Number.of_Z 43)))) = Rejected /\
  outcome (getPopularPlaces Sample.broken_summary "Mysore") =
    Normal (Failure popular_places_failed) /\
  exists plan,
    outcome (Enhanced.getRouteAndDetails Sample.broken_summary "Bangalore" "Mysore" None) =
      Normal (Success plan) /\
    Enhanced.popularPlaces plan = [].
Proof.
  split; [reflexivity|].
  destruct (popular_places_all_or_nothing Sample.broken_summary) as (Hfail & Hplan & _).
  assert (outcome (getPopularPlaces Sample.broken_summary "Mysore") =
            Normal (Failure popular_places_failed)) as Hfailed.
  { apply (Hfail "Mysore"%string (Search.mk (Some Sample.hits)) Sample.hits 1
             (SearchHit.mk "Chamundi Hills" (Number.of_Z 43)));
      [reflexivity|reflexivity|reflexivity|cbn; lia|reflexivity|left; reflexivity]. }
  split; [exact Hfailed|].
  assert (exists plan,
            outcome (Enhanced.getRouteAndDetails Sample.broken_summary
                       "Bangalore" "Mysore" None) = Normal (Success plan))
    as [plan Hout] by (eexists; vm_compute; reflexivity).
  exists plan. split; [exact Hout|].
  destruct (Hplan "Bangalore"%string "Mysore"%string None plan Hout)
    as [Hempty|(response & hits & Hreply & Hsearch & Hlen & Hall)]; [exact Hempty|].
  exfalso.
  assert (response = Search.mk (Some Sample.hits)) as ->
    by (cbn in Hreply; congruence).
  assert (hits = Sample.hits) as -> by (cbn in Hsearch; congruence).
  apply Forall2_lookup_l with (i := 1) (x := SearchHit.mk "Chamundi Hills" (Number.of_Z 43))
    in Hall as (place & _ & Hplace); [|reflexivity].
  vm_compute in Hplace. discriminate Hplace.
Defined.

(** * Further properties of the code *)

(** ** Request URLs *)

Section Urls.

Lemma encode_bytes_cons (c : ascii) (s : string) :
  Js.encode_bytes (String c s) = encode_char c +:+ Js.encode_bytes s.
Proof. reflexivity. Qed.

Lemma percent_decode_encode_char (c : ascii) (rest : string) :
  percent_decode (encode_char c +:+ rest) = String c (percent_decode rest).
Proof.
  destruct c as [[] [] [] [] [] [] [] []]; reflexivity.
Qed.

Lemma percent_decode_encode_bytes (s : string) :
  percent_decode (Js.encode_bytes s) = s.
Proof.
  induction s as [|c s IH]; [reflexivity|].
  rewrite encode_bytes_cons, percent_decode_encode_char, IH. reflexivity.
Qed.

Lemma encode_bytes_inj (s1 s2 : string) :
  Js.encode_bytes s1 = Js.encode_bytes s2 -> s1 = s2.
Proof.
  intros H. rewrite <- (percent_decode_encode_bytes s1), H.
  apply percent_decode_encode_bytes.
Qed.

Lemma string_forall_app (p : ascii -> bool) (a b : string) :
  string_forall p (a +:+ b) = string_forall p a && string_forall p b.
Proof.
  induction a as [|c a IH]; [reflexivity|].
  rewrite string_app_cons. cbn [string_forall]. rewrite IH. now rewrite andb_assoc.
Qed.

Lemma encode_char_component (c : ascii) :
  string_forall component_char (encode_char c) = true.
Proof. destruct c as [[] [] [] [] [] [] [] []]; reflexivity. Qed.

Lemma encode_bytes_component (s : string) :
  string_forall component_char (Js.encode_bytes s) = true.
Proof.
  induction s as [|c s IH]; [reflexivity|].
  rewrite encode_bytes_cons, string_forall_app, encode_char_component, IH.
  reflexivity.
Qed.

Lemma string_app_inj_r (a b t : string) : a +:+ t = b +:+ t -> a = b.
Proof.
  revert b. induction a as [|x a IH]; intros [|y b] H.
  - reflexivity.
  - exfalso. apply (f_equal String.length) in H.
    rewrite string_app_cons in H. cbn [String.length] in H.
    rewrite !string_app_length in H. cbn in H. lia.
  - exfalso. apply (f_equal String.length) in H.
    rewrite string_app_cons in H. cbn [String.length] in H.
    rewrite !string_app_length in H. cbn in H. lia.
  - rewrite !string_app_cons in H. injection H as -> H. f_equal. now apply IH.
Qed.

Lemma template_cons (x : string) (l : list string) :
  Js.template (x :: l) = x +:+ Js.template l.
Proof. reflexivity. Qed.

Lemma component_tails_differ (a b x y : string) (c d : ascii) :
  string_forall component_char a = true ->
  string_forall component_char b = true ->
  component_char c = false -> component_char d = false -> c <> d ->
  a +:+ String c x <> b +:+ String d y.
Proof.
  intros Ha Hb Hc Hd Hcd. revert b Hb.
  induction a as [|u a IH]; intros [|v b] Hb H.
  - cbn in H. injection H as H _. contradiction.
  - rewrite string_app_cons in H. change ("" +:+ String c x) with (String c x) in H.
    injection H as -> _. cbn [string_forall] in Hb.
    apply andb_true_iff in Hb as [Hv _]. congruence.
  - rewrite string_app_cons in H. change ("" +:+ String d y) with (String d y) in H.
    injection H as -> _. cbn [string_forall] in Ha.
    apply andb_true_iff in Ha as [Hu _]. congruence.
  - rewrite !string_app_cons in H. injection H as _ H.
    cbn [string_forall] in Ha, Hb.
    apply andb_true_iff in Ha as [_ Ha]. apply andb_true_iff in Hb as [_ Hb].
    exact (IH Ha b Hb H).
Qed.

End Urls.

(** X1.  For every two different place names the helpers build different request
    URLs: the geocoding URL of [getCoordinates], the summary URL and the
    search URL of [getPopularPlaces], and the search URL of
    [getHistoricalInfo] are injective in the name, because
    [encodeURIComponent] can be decoded. *)
Theorem request_urls_distinguish_places (w : World) (location1 location2 : string) :
  location1 <> location2 ->
  geocodeUrl w location1 <> geocodeUrl w location2 /\
  summaryUrl location1 <> summaryUrl location2 /\
  placesSearchUrl location1 <> placesSearchUrl location2 /\
  Enhanced.historySearchUrl location1 <> Enhanced.historySearchUrl location2.
Proof.
  intros Hne. repeat split; intros H; apply Hne, encode_bytes_inj.
  - unfold geocodeUrl, geocodeUrlOf in H. rewrite !template_cons in H.
    apply (inj (String.append _)) in H. now apply string_app_inj_r in H.
  - unfold summaryUrl, summaryUrlOf in H. rewrite !template_cons in H.
    apply (inj (String.append _)) in H. now apply string_app_inj_r in H.
  - unfold placesSearchUrl, placesSearchUrlOf in H. rewrite !template_cons in H.
    apply (inj (String.append _)) in H. now apply string_app_inj_r in H.
  - unfold Enhanced.historySearchUrl, Enhanced.historySearchUrlOf in H. rewrite !template_cons in H.
    apply (inj (String.append _)) in H. now apply string_app_inj_r in H.
Qed.

Lemma request_urls_distinguish_places_witness :
  geocodeUrl Sample.world "Paris" <> geocodeUrl Sample.world "Rome" /\
  summaryUrl "Paris" <> summaryUrl "Rome".
Proof.
  destruct (request_urls_distinguish_places Sample.world "Paris" "Rome") as (H1 & H2 & _).
  - discriminate.
  - split; assumption.
Defined.

(** X2.  The search of [getPopularPlaces] and the search of [getHistoricalInfo]
    never ask the same URL, whatever the two place names are: the first
    appends " tourist attractions" unencoded to the encoded name. *)
Theorem searches_never_share_a_url (location1 location2 : string) :
  placesSearchUrl location1 <> Enhanced.historySearchUrl location2.
Proof.
  unfold placesSearchUrl, placesSearchUrlOf, Enhanced.historySearchUrl,
    Enhanced.historySearchUrlOf. rewrite !template_cons.
  intros H. apply (inj (String.append _)) in H.
  revert H. apply component_tails_differ;
    auto using encode_bytes_component; discriminate.
Qed.

(** ** Geocoding and routing *)

(** X3.  For a name with a lone surrogate [getCoordinates] throws the
    [URIError] of [encodeURIComponent] before any request.  For every other
    name it issues exactly one geocoding request and returns; it returns null
    exactly when the request is rejected or the reply has no feature;
    otherwise it returns the coordinates of the first feature, read as
    [longitude, latitude]. *)
Theorem getCoordinates_contract (w : World) (location : string) :
  (Js.isWellFormed location = false ->
   outcome (getCoordinates w location) = Throw URIError /\
   requests (getCoordinates w location) = []) /\
  (Js.isWellFormed location = true ->
   requests (getCoordinates w location) = [(MapboxGeocoding, geocodeUrl w location)] /\
   exists coords,
     outcome (getCoordinates w location) = Normal coords /\
     (coords = None <->
      geocoding w (geocodeUrl w location) = Rejected \/
      exists response,
        geocoding w (geocodeUrl w location) = Resolved response /\
        Geocoding.features response = []) /\
     (forall response first rest,
        geocoding w (geocodeUrl w location) = Resolved response ->
        Geocoding.features response = first :: rest ->
        coords = Some (Coordinates.mk (snd (Feature.coordinates first))
                                      (fst (Feature.coordinates first))))).
Proof.
  split; [intros Hwf; now rewrite (getCoordinates_ill_formed w location Hwf)|].
  intros Hwf. split; [now apply getCoordinates_requests|].
  eexists. split; [now apply getCoordinates_outcome|].
  unfold coordinates_of_reply.
  destruct (geocoding w (geocodeUrl w location)) as [|response]; [split|].
  - split; auto.
  - discriminate.
  - destruct (Geocoding.features response) as [|first rest] eqn:Hf; split.
    + split; [|reflexivity]. intros _. right. eauto.
    + intros r f l H. injection H as <-. rewrite Hf. discriminate.
    + split; [discriminate|]. intros [H|(r & H & Hr)]; [discriminate|].
      injection H as <-. rewrite Hf in Hr. discriminate.
    + intros r f l H Hr. injection H as <-. rewrite Hf in Hr. now injection Hr as <- <-.
Qed.

Lemma getCoordinates_contract_witness :
  outcome (getCoordinates Sample.world Edge.lone_surrogate) = Throw URIError /\
  requests (getCoordinates Sample.world Edge.lone_surrogate) = [] /\
  requests (getCoordinates Sample.world "Atlantis") =
    [(MapboxGeocoding, geocodeUrl Sample.world "Atlantis")].
Proof.
  destruct (proj1 (getCoordinates_contract Sample.world Edge.lone_surrogate) eq_refl)
    as [Hthrow Hnone].
  destruct (proj2 (getCoordinates_contract Sample.world "Atlantis") eq_refl) as [Hone _].
  split; [exact Hthrow|]. split; [exact Hnone|exact Hone].
Defined.

(** X4.  [getRouteDetails] issues exactly one directions request and never
    throws; a rejected request, and a best route without a leg, give the
    failure "Failed to get route details from Mapbox."; its failure message
    is always that one or "No routes found. Please check the origin and
    destination.". *)
Theorem getRouteDetails_failure_modes
    (w : World) (origin destination : Coordinates.t) (travelMode : option string) :
  requests (getRouteDetails w origin destination travelMode) =
    [(MapboxDirections,
      routeUrl w origin destination (default_parameter "driving" travelMode))] /\
  exists r,
    outcome (getRouteDetails w origin destination travelMode) = Normal r /\
    (directions w (routeUrl w origin destination (default_parameter "driving" travelMode)) =
       Rejected ->
     r = Failure route_failed_message) /\
    (forall response route rest,
       directions w (routeUrl w origin destination (default_parameter "driving" travelMode)) =
         Resolved response ->
       Directions.routes response = Some (route :: rest) ->
       Route.legs route = [] ->
       r = Failure route_failed_message) /\
    (forall message,
       r = Failure message ->
       message = no_routes_message \/ message = route_failed_message).
Proof.
  set (url := routeUrl w origin destination (default_parameter "driving" travelMode)).
  split; [apply getRouteDetails_requests|].
  eexists. split; [apply getRouteDetails_outcome|]. fold url.
  unfold route_result_of_reply.
  destruct (directions w url) as [|response]; [|destruct (Directions.routes response)
    as [[|route rest]|] eqn:Hr; [| destruct (Route.legs route) as [|leg legs] eqn:Hl |]];
    (split; [|split]).
  - reflexivity.
  - discriminate.
  - intros m H. injection H as <-. now right.
  - discriminate.
  - intros r' ro re H. injection H as <-. rewrite Hr. discriminate.
  - intros m H. injection H as <-. now left.
  - discriminate.
  - reflexivity.
  - intros m H. injection H as <-. now right.
  - discriminate.
  - intros r' ro re H Hr' Hl'. injection H as <-. rewrite Hr in Hr'.
    injection Hr' as <- <-. rewrite Hl in Hl'. discriminate.
  - discriminate.
  - discriminate.
  - intros r' ro re H. injection H as <-. rewrite Hr. discriminate.
  - intros m H. injection H as <-. now left.
Qed.

Lemma getRouteDetails_failure_modes_witness :
  outcome (getRouteDetails Edge.no_legs Sample.coords Sample.coords None) =
    Normal (Failure route_failed_message).
Proof.
  destruct (getRouteDetails_failure_modes Edge.no_legs Sample.coords Sample.coords None)
    as (_ & r & Hout & _ & Hlegs & _).
  rewrite Hout. f_equal.
  apply (Hlegs (Directions.mk (Some [Route.mk (Number.of_Z 1500) (Number.of_Z 125) []]))
           (Route.mk (Number.of_Z 1500) (Number.of_Z 125) []) []); reflexivity.
Defined.

(** X5.  [getRouteDetails] reads the first route and the first leg only: two
    replies whose first routes have the same distance, duration and first
    leg give the same result, whatever other routes and legs they hold. *)
Theorem alternatives_are_ignored
    (w1 w2 : World) (origin destination : Coordinates.t) (travelMode : option string)
    (response1 response2 : Directions.t) (route1 route2 : Route.t)
    (rest1 rest2 : list Route.t) (leg : Leg.t) (legs1 legs2 : list Leg.t) :
  directions w1 (routeUrl w1 origin destination (default_parameter "driving" travelMode)) =
    Resolved response1 ->
  directions w2 (routeUrl w2 origin destination (default_parameter "driving" travelMode)) =
    Resolved response2 ->
  Directions.routes response1 = Some (route1 :: rest1) ->
  Directions.routes response2 = Some (route2 :: rest2) ->
  Route.distance route1 = Route.distance route2 ->
  Route.duration route1 = Route.duration route2 ->
  Route.legs route1 = leg :: legs1 ->
  Route.legs route2 = leg :: legs2 ->
  outcome (getRouteDetails w1 origin destination travelMode) =
  outcome (getRouteDetails w2 origin destination travelMode).
Proof.
  intros H1 H2 Hr1 Hr2 Hdist Hdur Hl1 Hl2.
  rewrite !getRouteDetails_outcome, H1, H2. unfold route_result_of_reply.
  now rewrite Hr1, Hr2, Hl1, Hl2, Hdist, Hdur.
Qed.

Lemma alternatives_are_ignored_witness :
  outcome (getRouteDetails Sample.world Sample.coords Sample.coords None) =
  outcome (getRouteDetails Edge.alternatives Sample.coords Sample.coords None).
Proof.
  eapply (alternatives_are_ignored Sample.world Edge.alternatives
            Sample.coords Sample.coords None _ _ _ _ _ _ (Leg.mk Sample.steps));
    reflexivity.
Defined.

(** ** Popular places *)

Lemma requests_try_catch_ret {A : Type} (body : Async A) (a : A) :
  requests (try_catch body (fun _ => mret a)) = requests body.
Proof.
  rewrite requests_try_catch. destruct (outcome body); [reflexivity|].
  apply app_nil_r.
Qed.

Lemma summary_place_ill_formed (w : World) (hit : SearchHit.t) :
  Js.isWellFormed (SearchHit.title hit) = false -> summary_place w hit = None.
Proof. intros H. unfold summary_place. now rewrite H. Qed.

Lemma fetch_summary_requests (w : World) (hits : list SearchHit.t) (i : nat)
    (hit : SearchHit.t) (places : list PopularPlace.t) :
  hits !! i = Some hit ->
  requests (fetch_summary w hits i places) =
  if Js.isWellFormed (SearchHit.title hit) then [summary_request hit] else [].
Proof.
  intros Hi. unfold fetch_summary. rewrite Hi. cbn zeta.
  destruct (Js.isWellFormed (SearchHit.title hit)) eqn:Hwf.
  - rewrite (encode_well_formed _ _ Hwf). fold (summaryUrl (SearchHit.title hit)).
    rewrite requests_bind, outcome_axios_get, requests_axios_get.
    destruct (wikipediaSummary w _); reflexivity.
  - now rewrite (encode_ill_formed _ _ Hwf).
Qed.

Lemma for_from_fetch_requests (w : World) (hits : list SearchHit.t) (count : nat) :
  forall (start : nat) (places : list PopularPlace.t),
    start + count <= length hits ->
    requests (for_from count start (fetch_summary w hits) places) =
    map summary_request (attempted w (take count (drop start hits))).
Proof.
  induction count as [|count IH]; intros start places Hlen.
  - rewrite take_0. reflexivity.
  - destruct (lookup_lt_is_Some_2 hits start ltac:(lia)) as [hit Hhit].
    rewrite (drop_S _ _ _ Hhit), firstn_cons. cbn [for_from attempted].
    rewrite requests_bind, (fetch_summary_outcome _ _ _ _ _ Hhit),
      (fetch_summary_requests _ _ _ _ _ Hhit).
    destruct (Js.isWellFormed (SearchHit.title hit)) eqn:Hwf.
    + destruct (summary_place w hit) as [place|]; [|reflexivity].
      rewrite IH by lia. replace (start + 1) with (S start) by lia. reflexivity.
    + now rewrite (summary_place_ill_formed w hit Hwf).
Qed.

Lemma take_min_length {A : Type} (l : list A) (n : nat) :
  take (length l `min` n) l = take n l.
Proof.
  destruct (Nat.le_gt_cases (length l) n) as [Hle|Hgt].
  - rewrite Nat.min_l by assumption. now rewrite !take_ge by lia.
  - now rewrite Nat.min_r by lia.
Qed.

Lemma getPopularPlaces_requests (w : World) (location : string) :
  Js.isWellFormed location = true ->
  requests (getPopularPlaces w location) =
  (WikipediaSearch, placesSearchUrl location) ::
  match wikipediaSearch w (placesSearchUrl location) with
  | Resolved response =>
      match Search.query_search response with
      | Some searchResults => map summary_request (attempted w (take 5 searchResults))
      | None => []
      end
  | Rejected => []
  end.
Proof.
  intros Hwf. unfold getPopularPlaces. rewrite (encode_well_formed _ _ Hwf).
  fold (placesSearchUrl location). cbn zeta.
  rewrite requests_try_catch_ret, requests_bind, outcome_axios_get, requests_axios_get.
  destruct (wikipediaSearch w _) as [|response]; [reflexivity|].
  destruct (Search.query_search response) as [[|hit hits]|]; [reflexivity| |reflexivity].
  set (searchResults := hit :: hits).
  assert ((length searchResults =? 0) = false) as -> by reflexivity.
  rewrite requests_bind. unfold for_range.
  rewrite for_from_fetch_requests by lia.
  rewrite drop_0, take_min_length.
  destruct (outcome _); cbn; now rewrite ?app_nil_r.
Qed.

Lemma attempted_length (w : World) (hits : list SearchHit.t) :
  length (attempted w hits) <= length hits.
Proof.
  induction hits as [|hit hits IH]; cbn; [lia|].
  destruct (Js.isWellFormed _); [|cbn; lia].
  destruct (summary_place w hit); cbn; lia.
Qed.

Lemma attempted_all (w : World) (hits : list SearchHit.t) (places : list PopularPlace.t) :
  mapM (summary_place w) hits = Some places -> attempted w hits = hits.
Proof.
  revert places. induction hits as [|hit hits IH]; intros places H; [reflexivity|].
  cbn in *. destruct (summary_place w hit) eqn:Hs; [|discriminate].
  destruct (Js.isWellFormed (SearchHit.title hit)) eqn:Hwf;
    [|rewrite (summary_place_ill_formed w hit Hwf) in Hs; discriminate].
  cbn in H. destruct (mapM (summary_place w) hits) eqn:E; [|discriminate].
  f_equal. eauto.
Qed.

Lemma attempted_until (w : World) (hits : list SearchHit.t) (i : nat) (hit : SearchHit.t) :
  hits !! i = Some hit ->
  summary_place w hit = None ->
  (forall j earlier, j < i -> hits !! j = Some earlier -> summary_place w earlier <> None) ->
  attempted w hits =
  if Js.isWellFormed (SearchHit.title hit) then take (S i) hits else take i hits.
Proof.
  revert i. induction hits as [|first rest IH]; intros i Hi Hnone Hbefore; [discriminate|].
  destruct i as [|i].
  - injection Hi as ->. cbn. rewrite Hnone. now destruct (Js.isWellFormed _).
  - cbn [attempted]. destruct (summary_place w first) eqn:E.
    + destruct (Js.isWellFormed (SearchHit.title first)) eqn:Hwf;
        [|rewrite (summary_place_ill_formed w first Hwf) in E; discriminate].
      rewrite (IH i Hi Hnone).
      * now destruct (Js.isWellFormed (SearchHit.title hit)).
      * intros j earlier Hj He. apply (Hbefore (S j) earlier); [lia|exact He].
    + exfalso. apply (Hbefore 0 first); [lia|reflexivity|exact E].
Qed.

Lemma summary_place_resolved (w : World) (hit : SearchHit.t) :
  Js.isWellFormed (SearchHit.title hit) = true ->
  wikipediaSummary w (summaryUrl (SearchHit.title hit)) <> Rejected ->
  summary_place w hit <> None.
Proof.
  intros Hwf Hres. unfold summary_place. rewrite Hwf.
  destruct (wikipediaSummary w _); [contradiction|discriminate].
Qed.

(** X6.  [getPopularPlaces] issues at most six requests.  A success has asked
    the search and then the summaries of the first five results in their
    order.  When the location was searched for and result [i] is the first
    whose summary fails, the later results are never asked for: the requests
    stop with the summary of result [i] when that request is rejected, and
    before it when the title of result [i] cannot be encoded. *)
Theorem summaries_requested_in_order (w : World) (location : string) :
  (length (requests (getPopularPlaces w location)) <= 6) /\
  (forall response searchResults,
     wikipediaSearch w (placesSearchUrl location) = Resolved response ->
     Search.query_search response = Some searchResults ->
     (forall places,
        outcome (getPopularPlaces w location) = Normal (Success places) ->
        requests (getPopularPlaces w location) =
          (WikipediaSearch, placesSearchUrl location) ::
          map summary_request (take 5 searchResults)) /\
     (forall i hit,
        Js.isWellFormed location = true ->
        i < 5 ->
        searchResults !! i = Some hit ->
        (forall j earlier,
           j < i -> searchResults !! j = Some earlier ->
           Js.isWellFormed (SearchHit.title earlier) = true /\
           wikipediaSummary w (summaryUrl (SearchHit.title earlier)) <> Rejected) ->
        (Js.isWellFormed (SearchHit.title hit) = true ->
         wikipediaSummary w (summaryUrl (SearchHit.title hit)) = Rejected ->
         requests (getPopularPlaces w location) =
           (WikipediaSearch, placesSearchUrl location) ::
           map summary_request (take (S i) searchResults)) /\
        (Js.isWellFormed (SearchHit.title hit) = false ->
         requests (getPopularPlaces w location) =
           (WikipediaSearch, placesSearchUrl location) ::
           map summary_request (take i searchResults)))).
Proof.
  split.
  - destruct (Js.isWellFormed location) eqn:Hwf;
      [|rewrite (getPopularPlaces_ill_formed w location Hwf); cbn; lia].
    rewrite getPopularPlaces_requests by assumption.
    destruct (wikipediaSearch w _) as [|response]; [cbn; lia|].
    destruct (Search.query_search response) as [hits|]; [|cbn; lia].
    cbn [length]. rewrite length_map.
    pose proof (attempted_length w (take 5 hits)) as H.
    rewrite length_take in H. lia.
  - intros response hits Hreply Hsearch. split.
    + intros places Hout.
      destruct (Js.isWellFormed location) eqn:Hwf;
        [|rewrite (getPopularPlaces_ill_formed w location Hwf) in Hout; discriminate].
      rewrite getPopularPlaces_requests, Hreply, Hsearch by assumption.
      rewrite getPopularPlaces_outcome, Hreply in Hout by assumption.
      unfold places_result_of_reply in Hout. rewrite Hsearch in Hout.
      destruct hits as [|hit hits]; [discriminate|].
      destruct (mapM (summary_place w) (take 5 (hit :: hits))) as [fetched|] eqn:Hm;
        [|discriminate].
      now rewrite (attempted_all _ _ _ Hm).
    + intros i hit Hwf Hi Hhit Hbefore.
      assert (forall j earlier,
                j < i -> take 5 hits !! j = Some earlier ->
                summary_place w earlier <> None) as Hearlier.
      { intros j earlier Hj He. rewrite lookup_take_lt in He by lia.
        destruct (Hbefore j earlier Hj He). now apply summary_place_resolved. }
      assert (take 5 hits !! i = Some hit) as Htaken
        by (rewrite lookup_take_lt by lia; exact Hhit).
      split.
      * intros Hwt Hrej.
        rewrite getPopularPlaces_requests, Hreply, Hsearch by assumption. do 2 f_equal.
        rewrite (attempted_until w (take 5 hits) i hit Htaken); [|
          unfold summary_place; now rewrite Hwt, Hrej|exact Hearlier].
        rewrite Hwt, take_take. f_equal. lia.
      * intros Hwt.
        rewrite getPopularPlaces_requests, Hreply, Hsearch by assumption. do 2 f_equal.
        rewrite (attempted_until w (take 5 hits) i hit Htaken); [|
          now apply summary_place_ill_formed|exact Hearlier].
        rewrite Hwt, take_take. f_equal. lia.
Qed.

Lemma summaries_requested_in_order_witness :
  requests (getPopularPlaces Sample.broken_summary "Mysore") =
    [(WikipediaSearch, placesSearchUrl "Mysore");
     summary_request (SearchHit.mk "Mysore Palace" (Number.of_Z 42));
     summary_request (SearchHit.mk "Chamundi Hills" (Number.of_Z 43))] /\
  requests (getPopularPlaces Sample.world "Mysore") =
    (WikipediaSearch, placesSearchUrl "Mysore") :: map summary_request Sample.hits.
Proof.
  destruct (summaries_requested_in_order Sample.broken_summary "Mysore") as [_ Hbroken].
  destruct (Hbroken (Search.mk (Some Sample.hits)) Sample.hits eq_refl eq_refl)
    as [_ Habort].
  destruct (summaries_requested_in_order Sample.world "Mysore") as [_ Hworld].
  destruct (Hworld (Search.mk (Some Sample.hits)) Sample.hits eq_refl eq_refl)
    as [Hsuccess _].
  split.
  - apply (Habort 1 (SearchHit.mk "Chamundi Hills" (Number.of_Z 43)));
      [reflexivity|lia|reflexivity| |reflexivity|reflexivity].
    intros [|j] earlier Hj He; [|lia]. injection He as <-. split; [reflexivity|discriminate].
  - eapply Hsuccess. vm_compute. reflexivity.
Defined.

(** X7.  A location whose name has a lone surrogate makes [getPopularPlaces]
    throw before any request.  For every other location it tells a failed
    search from an empty one: a rejected search gives "Failed to get popular
    places from Wikipedia.", a missing or empty result list gives "No popular
    places found at the destination."; in both cases the search is the only
    request. *)
Theorem no_search_results_no_summaries (w : World) (location : string) :
  (Js.isWellFormed location = false ->
   outcome (getPopularPlaces w location) = Throw URIError /\
   requests (getPopularPlaces w location) = []) /\
  (Js.isWellFormed location = true ->
   wikipediaSearch w (placesSearchUrl location) = Rejected ->
   outcome (getPopularPlaces w location) = Normal (Failure popular_places_failed) /\
   requests (getPopularPlaces w location) = [(WikipediaSearch, placesSearchUrl location)]) /\
  (forall response,
     Js.isWellFormed location = true ->
     wikipediaSearch w (placesSearchUrl location) = Resolved response ->
     Search.query_search response = None \/ Search.query_search response = Some [] ->
     outcome (getPopularPlaces w location) = Normal (Failure no_places_message) /\
     requests (getPopularPlaces w location) = [(WikipediaSearch, placesSearchUrl location)]).
Proof.
  split; [|split].
  - intros Hwf. now rewrite (getPopularPlaces_ill_formed w location Hwf).
  - intros Hwf H.
    rewrite getPopularPlaces_outcome, getPopularPlaces_requests, H by assumption. auto.
  - intros response Hwf H Hs.
    rewrite getPopularPlaces_outcome, getPopularPlaces_requests, H by assumption.
    unfold places_result_of_reply. destruct Hs as [-> | ->]; auto.
Qed.

Lemma no_search_results_no_summaries_witness :
  outcome (getPopularPlaces Sample.world Edge.lone_surrogate) = Throw URIError /\
  requests (getPopularPlaces Sample.world Edge.lone_surrogate) = [] /\
  outcome (getPopularPlaces Sample.degraded "Mysore") =
    Normal (Failure popular_places_failed).
Proof.
  destruct (no_search_results_no_summaries Sample.world Edge.lone_surrogate) as [Hill _].
  destruct (no_search_results_no_summaries Sample.degraded "Mysore") as (_ & Hrejected & _).
  destruct (Hill eq_refl) as [Hthrow Hnone].
  split; [exact Hthrow|]. split; [exact Hnone|].
  apply Hrejected; reflexivity.
Defined.

(** ** Historical information *)

Lemma getHistoricalInfo_run (w : World) (location : string) :
  Enhanced.getHistoricalInfo w location =
  (Normal (fst (history_run w location)), snd (history_run w location)).
Proof.
  unfold Enhanced.getHistoricalInfo, history_run.
  destruct (Js.isWellFormed location) eqn:Hwf;
    [|now rewrite (encode_ill_formed _ _ Hwf)].
  rewrite (encode_well_formed _ _ Hwf). fold (Enhanced.historySearchUrl location).
  unfold axios_get. cbn zeta. cbn [negb].
  destruct (wikipediaSearch w _) as [|searchResponse]; [reflexivity|].
  cbn [mbind Async_bind try_catch].
  destruct (Search.query_search searchResponse) as [[|hit rest]|]; try reflexivity.
  cbn [lookup list_lookup fmap option_fmap option_map].
  destruct (Number.ToBoolean (SearchHit.pageid hit)); [|reflexivity].
  cbn [negb]. destruct (wikipediaExtracts w _) as [|contentResponse]; [reflexivity|].
  cbn [mbind Async_bind].
  destruct (Extracts.query_pages contentResponse !! _) as [extract|]; [|reflexivity].
  destruct (wikipediaInfo w _) as [|titleResponse]; [reflexivity|].
  cbn [mbind Async_bind].
  destruct (Info.query_pages titleResponse !! _) as [pageUrl|]; reflexivity.
Qed.

(** X8.  [getHistoricalInfo] succeeds exactly when the name of the location
    can be encoded, the search resolves with a first result whose page
    identifier is truthy, and the extract and the page-information replies
    both resolve and hold that page; the summary and the source are the
    extract and the URL of that page. *)
Theorem history_is_first_hit_page
    (w : World) (location : string) (info : HistoricalInfo.t) :
  outcome (Enhanced.getHistoricalInfo w location) = Normal (Success info) <->
  exists searchResponse hit rest contentResponse titleResponse,
    Js.isWellFormed location = true /\
    wikipediaSearch w (Enhanced.historySearchUrl location) = Resolved searchResponse /\
    Search.query_search searchResponse = Some (hit :: rest) /\
    Number.ToBoolean (SearchHit.pageid hit) = true /\
    wikipediaExtracts w (Enhanced.contentUrl (SearchHit.pageid hit)) =
      Resolved contentResponse /\
    wikipediaInfo w (Enhanced.titleUrl (SearchHit.pageid hit)) = Resolved titleResponse /\
    Extracts.query_pages contentResponse !! Number.toString (SearchHit.pageid hit) =
      Some (HistoricalInfo.summary info) /\
    Info.query_pages titleResponse !! Number.toString (SearchHit.pageid hit) =
      Some (HistoricalInfo.source info).
Proof.
  rewrite getHistoricalInfo_run. unfold outcome, history_run. cbn [fst]. split.
  - destruct (Js.isWellFormed location) eqn:Hwf; [|discriminate]. cbn [negb].
    destruct (wikipediaSearch w _) as [|searchResponse] eqn:Hsearch; [discriminate|].
    destruct (Search.query_search searchResponse) as [[|hit rest]|] eqn:Hs; try discriminate.
    destruct (Number.ToBoolean (SearchHit.pageid hit)) eqn:Hb; [|discriminate].
    destruct (wikipediaExtracts w _) as [|contentResponse] eqn:Hcontent; [discriminate|].
    destruct (Extracts.query_pages contentResponse !! _) as [extract|] eqn:He;
      [|discriminate].
    destruct (wikipediaInfo w _) as [|titleResponse] eqn:Htitle; [discriminate|].
    destruct (Info.query_pages titleResponse !! _) as [pageUrl|] eqn:Hu; [|discriminate].
    intros H. injection H as <-.
    exists searchResponse, hit, rest, contentResponse, titleResponse.
    repeat split; try reflexivity; assumption.
  - intros (searchResponse & hit & rest & contentResponse & titleResponse
            & -> & -> & -> & -> & -> & -> & -> & ->).
    destruct info. reflexivity.
Qed.

Lemma history_is_first_hit_page_witness :
  outcome (Enhanced.getHistoricalInfo Sample.world "Mysore") =
    Normal (Success (HistoricalInfo.mk "An old city." "https://en.wikipedia.org/wiki/Mysore")).
Proof.
  apply (proj2 (history_is_first_hit_page Sample.world "Mysore" _)).
  exists (Search.mk (Some Sample.hits)), (SearchHit.mk "Mysore Palace" (Number.of_Z 42)),
    [SearchHit.mk "Chamundi Hills" (Number.of_Z 43)],
    (Extracts.mk (Sample.pages "An old city.")),
    (Info.mk (Sample.pages "https://en.wikipedia.org/wiki/Mysore")).
  repeat split; vm_compute; reflexivity.
Defined.

(** X9.  When the name of the location can be encoded, [getHistoricalInfo]
    answers "No historical information found." after the search alone when
    the search has no result or its first result has a falsy page identifier
    (zero included).  A search reply without a result list, like a rejected
    search, gives "Failed to fetch historical information." instead, and so
    does a name with a lone surrogate, for which no request is issued. *)
Theorem history_not_found_or_failed (w : World) (location : string) :
  (forall searchResponse,
     Js.isWellFormed location = true ->
     wikipediaSearch w (Enhanced.historySearchUrl location) = Resolved searchResponse ->
     (Search.query_search searchResponse = Some [] \/
      exists hit rest,
        Search.query_search searchResponse = Some (hit :: rest) /\
        Number.ToBoolean (SearchHit.pageid hit) = false) ->
     outcome (Enhanced.getHistoricalInfo w location) =
       Normal (Failure history_not_found_message) /\
     requests (Enhanced.getHistoricalInfo w location) = [history_search_request location]) /\
  (forall searchResponse,
     wikipediaSearch w (Enhanced.historySearchUrl location) = Resolved searchResponse ->
     Search.query_search searchResponse = None ->
     outcome (Enhanced.getHistoricalInfo w location) =
       Normal (Failure history_failed_message)) /\
  (wikipediaSearch w (Enhanced.historySearchUrl location) = Rejected ->
   outcome (Enhanced.getHistoricalInfo w location) =
     Normal (Failure history_failed_message)) /\
  (Js.isWellFormed location = false ->
   outcome (Enhanced.getHistoricalInfo w location) =
     Normal (Failure history_failed_message) /\
   requests (Enhanced.getHistoricalInfo w location) = []).
Proof.
  rewrite getHistoricalInfo_run. unfold outcome, requests, history_run. cbn [fst snd].
  split; [|split; [|split]].
  - intros searchResponse -> -> [-> | (hit & rest & -> & ->)]; auto.
  - intros searchResponse -> ->. now destruct (Js.isWellFormed location).
  - intros ->. now destruct (Js.isWellFormed location).
  - intros ->. auto.
Qed.

Lemma history_not_found_or_failed_witness :
  outcome (Enhanced.getHistoricalInfo Edge.page_zero "Mysore") =
    Normal (Failure history_not_found_message) /\
  requests (Enhanced.getHistoricalInfo Edge.page_zero "Mysore") =
    [history_search_request "Mysore"].
Proof.
  apply (proj1 (history_not_found_or_failed Edge.page_zero "Mysore")
           (Search.mk (Some [SearchHit.mk "Mysore" (Number.of_Z 0)])) eq_refl eq_refl).
  right. exists (SearchHit.mk "Mysore" (Number.of_Z 0)), []. split; reflexivity.
Defined.

(** X10.  [getHistoricalInfo] issues at most three requests, a prefix of
    search, extract, page information in this order, and at least one
    exactly when the name of the location can be encoded; a success has
    issued all three, and the page information is only asked for after the
    extract reply held the page. *)
Theorem history_requests_in_order (w : World) (location : string) :
  exists pageId,
    requests (Enhanced.getHistoricalInfo w location) `prefix_of`
      [history_search_request location; extract_request pageId; page_url_request pageId] /\
    length (requests (Enhanced.getHistoricalInfo w location)) <= 3 /\
    (1 <= length (requests (Enhanced.getHistoricalInfo w location)) <->
     Js.isWellFormed location = true) /\
    (forall info,
       outcome (Enhanced.getHistoricalInfo w location) = Normal (Success info) ->
       requests (Enhanced.getHistoricalInfo w location) =
         [history_search_request location; extract_request pageId;
          page_url_request pageId]) /\
    (In (page_url_request pageId) (requests (Enhanced.getHistoricalInfo w location)) ->
     exists contentResponse,
       wikipediaExtracts w (Enhanced.contentUrl pageId) = Resolved contentResponse /\
       is_Some (Extracts.query_pages contentResponse !! Number.toString pageId)).
Proof.
  rewrite getHistoricalInfo_run. unfold outcome, requests, history_run. cbn [fst snd].
  set (s := history_search_request location).
  assert (forall p, [s] `prefix_of` [s; extract_request p; page_url_request p]) as P1
    by (intros p; eexists; reflexivity).
  assert (forall p, [s; extract_request p]
                      `prefix_of` [s; extract_request p; page_url_request p]) as P2
    by (intros p; eexists; reflexivity).
  assert (forall p, ~ In (page_url_request p) [s]) as N1
    by (intros p [E|[]]; discriminate E).
  assert (forall p, ~ In (page_url_request p) [s; extract_request p]) as N2
    by (intros p [E|[E|[]]]; discriminate E).
  destruct (Js.isWellFormed location); cbn [negb].
  2:{ exists (Number.of_Z 0). cbn. repeat split; try lia; try discriminate; auto.
      apply prefix_nil. }
  destruct (wikipediaSearch w _) as [|searchResponse].
  { exists (Number.of_Z 0). cbn. repeat split; try lia; try discriminate; auto.
    intros H. now apply N1 in H. }
  destruct (Search.query_search searchResponse) as [[|hit rest]|].
  { exists (Number.of_Z 0). cbn. repeat split; try lia; try discriminate; auto.
    intros H. now apply N1 in H. }
  2:{ exists (Number.of_Z 0). cbn. repeat split; try lia; try discriminate; auto.
      intros H. now apply N1 in H. }
  exists (SearchHit.pageid hit).
  destruct (Number.ToBoolean (SearchHit.pageid hit)).
  2:{ cbn. repeat split; try lia; try discriminate; auto.
      intros H. now apply N1 in H. }
  destruct (wikipediaExtracts w _) as [|contentResponse].
  { cbn. repeat split; try lia; try discriminate; auto.
    intros H. now apply N2 in H. }
  destruct (Extracts.query_pages contentResponse !! _) as [extract|] eqn:He.
  2:{ cbn. repeat split; try lia; try discriminate; auto.
      intros H. now apply N2 in H. }
  assert (exists contentResponse0,
            Resolved contentResponse = Resolved contentResponse0 /\
            is_Some (Extracts.query_pages contentResponse0
                       !! Number.toString (SearchHit.pageid hit))) as Hfound
    by (exists contentResponse; split; [reflexivity|rewrite He; eauto]).
  destruct (wikipediaInfo w _) as [|titleResponse].
  { cbn. repeat split; try lia; try discriminate; auto. }
  destruct (Info.query_pages titleResponse !! _) as [pageUrl|].
  - cbn. repeat split; try lia; auto.
  - cbn. repeat split; try lia; try discriminate; auto.
Qed.

Lemma history_requests_in_order_witness :
  requests (Enhanced.getHistoricalInfo Sample.world Edge.lone_surrogate) = [] /\
  1 <= length (requests (Enhanced.getHistoricalInfo Sample.world "Mysore")).
Proof.
  destruct (history_requests_in_order Sample.world Edge.lone_surrogate)
    as (p1 & _ & _ & Hill & _).
  destruct (history_requests_in_order Sample.world "Mysore") as (p2 & _ & _ & Hwell & _).
  split; [|apply Hwell; reflexivity].
  destruct (requests (Enhanced.getHistoricalInfo Sample.world Edge.lone_surrogate)) as [|r l];
    [reflexivity|].
  assert (Js.isWellFormed Edge.lone_surrogate = true) as E by (apply Hill; cbn; lia).
  discriminate E.
Defined.

(** ** Hotels *)

(** X11.  When the venue search resolves, [getHotelRecommendations] succeeds
    with one entry per venue at the same position: name and address are
    copied, the link is "https://foursquare.com/v/" followed by the venue
    identifier, a missing or falsy rating (zero included) becomes "N/A", and
    the category is the name of the first category only, "Hotel" when there
    is no first category or it has no name or an empty one. *)
Theorem hotel_entries_follow_venues
    (w : World) (coordinates : Coordinates.t) (response : Venues.t)
    (i : nat) (venue : Venue.t) :
  foursquare w (Enhanced.hotelSearchUrl coordinates) (foursquareApiKey w) =
    Resolved response ->
  Venues.results response !! i = Some venue ->
  exists hotels hotel,
    outcome (Enhanced.getHotelRecommendations w coordinates) = Normal (Success hotels) /\
    hotels !! i = Some hotel /\
    Hotel.name hotel = Venue.name venue /\
    Hotel.address hotel = Venue.location_formatted_address venue /\
    Hotel.link hotel = "https://foursquare.com/v/" +:+ Venue.fsq_id venue /\
    (forall rating,
       Venue.rating venue = Some rating ->
       Hotel.rating hotel =
         if Number.ToBoolean rating then Js.VNumber rating else Js.VString "N/A") /\
    (Venue.rating venue = None -> Hotel.rating hotel = Js.VString "N/A") /\
    (Venue.categories venue = [] \/
     (exists first others,
        Venue.categories venue = first :: others /\ Category.name first = None) ->
     Hotel.category hotel = "Hotel"%string) /\
    (forall first others name,
       Venue.categories venue = first :: others ->
       Category.name first = Some name ->
       Hotel.category hotel = if String.eqb name "" then "Hotel"%string else name).
Proof.
  intros Hreply Hi. eexists. exists (Enhanced.to_hotel venue).
  split; [rewrite getHotelRecommendations_outcome, Hreply; reflexivity|].
  split; [rewrite list_lookup_fmap, Hi; reflexivity|].
  split; [reflexivity|]. split; [reflexivity|].
  split; [unfold Enhanced.to_hotel; cbn [Hotel.link]; apply template_two|]. split.
  - intros rating Hr. cbn. rewrite Hr. reflexivity.
  - split; [intros Hr; cbn; rewrite Hr; reflexivity|]. split.
    + intros [Hc|(first & others & Hc & Hn)]; cbn; unfold Enhanced.category_or_default;
        rewrite Hc; cbn; [reflexivity|now rewrite Hn].
    + intros first others name Hc Hn. cbn. unfold Enhanced.category_or_default.
      rewrite Hc. cbn. rewrite Hn. destruct name; reflexivity.
Qed.

Lemma hotel_entries_follow_venues_witness :
  exists hotels hotel,
    outcome (Enhanced.getHotelRecommendations Edge.unrated Sample.coords) =
      Normal (Success hotels) /\
    hotels !! 0 = Some hotel /\
    Hotel.rating hotel = Js.VString "N/A" /\
    Hotel.category hotel = "Hotel"%string.
Proof.
  destruct (hotel_entries_follow_venues Edge.unrated Sample.coords
              (Venues.mk [Venue.mk "Inn" (Some (Number.of_Z 0)) "3 Lake View"
                            [Category.mk None; Category.mk (Some "Motel")] "ghi"])
              0 (Venue.mk "Inn" (Some (Number.of_Z 0)) "3 Lake View"
                   [Category.mk None; Category.mk (Some "Motel")] "ghi")
              eq_refl eq_refl)
    as (hotels & hotel & Hout & Hi & _ & _ & _ & Hrating & _ & Hcategory & _).
  exists hotels, hotel. split; [exact Hout|]. split; [exact Hi|]. split.
  - rewrite (Hrating (Number.of_Z 0) eq_refl). reflexivity.
  - apply Hcategory. right. eexists. eexists. split; reflexivity.
Defined.

(** ** The requests of the aggregate *)

Lemma requests_Promise_all4 {A B C D : Type}
    (a : Async A) (b : Async B) (c : Async C) (d : Async D) :
  requests (Promise_all4 a b c d) = requests a ++ requests b ++ requests c ++ requests d.
Proof. reflexivity. Qed.

Lemma Enhanced_requests_coordinates (w : World) (origin destination : string)
    (travelMode : option string) (oc dc : Coordinates.t) :
  outcome (getCoordinates w origin) = Normal (Some oc) ->
  outcome (getCoordinates w destination) = Normal (Some dc) ->
  requests (Enhanced.getRouteAndDetails w origin destination travelMode) =
  [(MapboxGeocoding, geocodeUrl w origin); (MapboxGeocoding, geocodeUrl w destination);
   (MapboxDirections, routeUrl w oc dc (default_parameter "driving" travelMode))] ++
  requests (getPopularPlaces w destination) ++
  requests (Enhanced.getHistoricalInfo w destination) ++
  requests (Enhanced.getHotelRecommendations w dc).
Proof.
  intros Ho Hd.
  destruct (getPopularPlaces_returns w destination (getCoordinates_normal _ _ _ Hd))
      as [pp Hpp].
  destruct (getHistoricalInfo_returns w destination) as [hh Hhh].
  destruct (getHotelRecommendations_returns w dc) as [ht Hht].
  unfold Enhanced.getRouteAndDetails. cbn zeta.
  rewrite requests_bind, Ho, requests_bind, Hd, requests_bind.
  rewrite (getCoordinates_requests w origin (getCoordinates_normal _ _ _ Ho)).
  rewrite (getCoordinates_requests w destination (getCoordinates_normal _ _ _ Hd)).
  rewrite (outcome_Promise_all4 _ _ _ _ _ pp hh ht (getRouteDetails_outcome _ _ _ _) Hpp Hhh Hht).
  rewrite requests_Promise_all4, getRouteDetails_requests. cbn [default_parameter].
  destruct (route_result_of_reply _); cbn [requests snd mret Async_ret];
    rewrite app_nil_r; reflexivity.
Qed.

Lemma Basic_requests_coordinates (w : World) (origin destination : string)
    (travelMode : option string) (oc dc : Coordinates.t) :
  outcome (getCoordinates w origin) = Normal (Some oc) ->
  outcome (getCoordinates w destination) = Normal (Some dc) ->
  requests (Basic.getRouteAndDetails w origin destination travelMode) =
  [(MapboxGeocoding, geocodeUrl w origin); (MapboxGeocoding, geocodeUrl w destination);
   (MapboxDirections, routeUrl w oc dc (default_parameter "driving" travelMode))] ++
  match route_result_of_reply
          (directions w (routeUrl w oc dc (default_parameter "driving" travelMode))) with
  | Success _ => requests (getPopularPlaces w destination)
  | Failure _ => []
  end.
Proof.
  intros Ho Hd.
  destruct (getPopularPlaces_returns w destination (getCoordinates_normal _ _ _ Hd))
      as [pp Hpp].
  unfold Basic.getRouteAndDetails. cbn zeta.
  rewrite requests_bind, Ho, requests_bind, Hd, requests_bind.
  rewrite (getCoordinates_requests w origin (getCoordinates_normal _ _ _ Ho)).
  rewrite (getCoordinates_requests w destination (getCoordinates_normal _ _ _ Hd)).
  rewrite getRouteDetails_outcome, getRouteDetails_requests. cbn [default_parameter].
  destruct (route_result_of_reply _); [|reflexivity].
  rewrite requests_bind, Hpp. cbn [requests snd mret Async_ret].
  rewrite app_nil_r. reflexivity.
Qed.

(** X12.  When both places are geocoded and the route fails, the revision with
    [Promise.all] has still issued the requests of popular places, of the
    historical lookup and of the hotel search (the hotel search among them)
    after the two geocoding requests, while the basic revision stops after
    the directions request. *)
Theorem fan_out_despite_route_failure
    (w : World) (origin destination : string) (travelMode : option string)
    (originCoords destinationCoords : Coordinates.t) (message : string) :
  outcome (getCoordinates w origin) = Normal (Some originCoords) ->
  outcome (getCoordinates w destination) = Normal (Some destinationCoords) ->
  outcome (getRouteDetails w originCoords destinationCoords
             (Some (default_parameter "driving" travelMode))) = Normal (Failure message) ->
  (exists concurrent,
     requests (Enhanced.getRouteAndDetails w origin destination travelMode) =
       (MapboxGeocoding, geocodeUrl w origin) ::
       (MapboxGeocoding, geocodeUrl w destination) :: concurrent /\
     Permutation concurrent
       ((MapboxDirections,
         routeUrl w originCoords destinationCoords (default_parameter "driving" travelMode)) ::
        requests (getPopularPlaces w destination) ++
        requests (Enhanced.getHistoricalInfo w destination) ++
        requests (Enhanced.getHotelRecommendations w destinationCoords))) /\
  In (FoursquareSearch, Enhanced.hotelSearchUrl destinationCoords)
     (requests (Enhanced.getRouteAndDetails w origin destination travelMode)) /\
  requests (Basic.getRouteAndDetails w origin destination travelMode) =
    [(MapboxGeocoding, geocodeUrl w origin); (MapboxGeocoding, geocodeUrl w destination);
     (MapboxDirections,
      routeUrl w originCoords destinationCoords (default_parameter "driving" travelMode))].
Proof.
  intros Ho Hd Hr.
  pose proof (Enhanced_requests_coordinates w origin destination travelMode _ _ Ho Hd) as He.
  split; [eexists; split; [exact He|reflexivity]|]. split.
  - rewrite He, getHotelRecommendations_requests. rewrite !in_app_iff. right. right. right.
    now left.
  - rewrite (Basic_requests_coordinates w origin destination travelMode _ _ Ho Hd).
    rewrite getRouteDetails_outcome in Hr. cbn [default_parameter] in Hr.
    injection Hr as ->. reflexivity.
Qed.

Lemma fan_out_despite_route_failure_witness :
  length (requests (Enhanced.getRouteAndDetails Sample.no_routes "Bangalore" "Mysore" None)) = 10 /\
  length (requests (Basic.getRouteAndDetails Sample.no_routes "Bangalore" "Mysore" None)) = 3.
Proof.
  destruct (fan_out_despite_route_failure Sample.no_routes "Bangalore" "Mysore" None
              Sample.coords Sample.coords no_routes_message)
    as ((concurrent & He & Hperm) & _ & Hb); [vm_compute; reflexivity..|].
  rewrite He, Hb. cbn [length]. rewrite Hperm. split; vm_compute; reflexivity.
Defined.

(** X13.  A run of [getRouteAndDetails] issues no request when the name of
    the origin has a lone surrogate, and only the geocoding request of the
    origin when the name of the destination has one.  Every other run starts
    with the geocoding request of the origin and then of the destination,
    and issues at most eleven more requests in the revision with history and
    hotels, at most seven more in the basic revision; so no run issues more
    than thirteen requests, or nine. *)
Theorem requests_are_bounded
    (w : World) (origin destination : string) (travelMode : option string) :
  ((Js.isWellFormed origin = false ->
    requests (Enhanced.getRouteAndDetails w origin destination travelMode) = []) /\
   (Js.isWellFormed origin = true -> Js.isWellFormed destination = false ->
    requests (Enhanced.getRouteAndDetails w origin destination travelMode) =
      [(MapboxGeocoding, geocodeUrl w origin)]) /\
   (Js.isWellFormed origin = true -> Js.isWellFormed destination = true ->
    exists rest,
      requests (Enhanced.getRouteAndDetails w origin destination travelMode) =
        (MapboxGeocoding, geocodeUrl w origin) ::
        (MapboxGeocoding, geocodeUrl w destination) :: rest /\
      length rest <= 11) /\
   length (requests (Enhanced.getRouteAndDetails w origin destination travelMode)) <= 13) /\
  ((Js.isWellFormed origin = false ->
    requests (Basic.getRouteAndDetails w origin destination travelMode) = []) /\
   (Js.isWellFormed origin = true -> Js.isWellFormed destination = false ->
    requests (Basic.getRouteAndDetails w origin destination travelMode) =
      [(MapboxGeocoding, geocodeUrl w origin)]) /\
   (Js.isWellFormed origin = true -> Js.isWellFormed destination = true ->
    exists rest,
      requests (Basic.getRouteAndDetails w origin destination travelMode) =
        (MapboxGeocoding, geocodeUrl w origin) ::
        (MapboxGeocoding, geocodeUrl w destination) :: rest /\
      length rest <= 7) /\
   length (requests (Basic.getRouteAndDetails w origin destination travelMode)) <= 9).
Proof.
  assert (Js.isWellFormed origin = true -> Js.isWellFormed destination = true ->
          (exists rest,
             requests (Enhanced.getRouteAndDetails w origin destination travelMode) =
               (MapboxGeocoding, geocodeUrl w origin) ::
               (MapboxGeocoding, geocodeUrl w destination) :: rest /\
             length rest <= 11) /\
          (exists rest,
             requests (Basic.getRouteAndDetails w origin destination travelMode) =
               (MapboxGeocoding, geocodeUrl w origin) ::
               (MapboxGeocoding, geocodeUrl w destination) :: rest /\
             length rest <= 7)) as Hboth.
  { intros Hwo Hwd.
    assert (length (requests (getPopularPlaces w destination)) <= 6) as Hpp.
    { rewrite getPopularPlaces_requests by assumption.
      destruct (wikipediaSearch w _) as [|response]; [cbn; lia|].
      destruct (Search.query_search response) as [hits|]; [|cbn; lia].
      cbn [length]. rewrite length_map.
      pose proof (attempted_length w (take 5 hits)) as H.
      rewrite length_take in H. lia. }
    assert (length (requests (Enhanced.getHistoricalInfo w destination)) <= 3) as Hhh.
    { rewrite getHistoricalInfo_run. unfold requests, history_run. cbn [snd].
      repeat match goal with
             | |- context [match ?x with _ => _ end] => destruct x
             end; cbn; lia. }
    pose proof (getCoordinates_outcome w origin Hwo) as Ho.
    pose proof (getCoordinates_outcome w destination Hwd) as Hd.
    destruct (coordinates_of_reply (geocoding w (geocodeUrl w origin))) as [oc|].
    2:{ split; eexists; (split;
          [first [apply (Enhanced_requests_no_coordinates _ _ _ _ _ _ Ho Hd)
                 | apply (Basic_requests_no_coordinates _ _ _ _ _ _ Ho Hd)]; now left
          | cbn; lia]). }
    destruct (coordinates_of_reply (geocoding w (geocodeUrl w destination))) as [dc|].
    2:{ split; eexists; (split;
          [first [apply (Enhanced_requests_no_coordinates _ _ _ _ _ _ Ho Hd)
                 | apply (Basic_requests_no_coordinates _ _ _ _ _ _ Ho Hd)]; now right
          | cbn; lia]). }
    split; eexists; (split;
      [first [apply (Enhanced_requests_coordinates _ _ _ _ _ _ Ho Hd)
             | apply (Basic_requests_coordinates _ _ _ _ _ _ Ho Hd)]|]).
    - cbn [length app]. rewrite !length_app, getHotelRecommendations_requests.
      cbn [length]. lia.
    - cbn [length app]. destruct (route_result_of_reply _); cbn [length];
        [apply le_n_S; exact Hpp|lia]. }
  destruct (Enhanced_requests_ill_formed w origin destination travelMode) as [He0 He1].
  destruct (Basic_requests_ill_formed w origin destination travelMode) as [Hb0 Hb1].
  split.
  - split; [exact He0|]. split; [exact He1|].
    split; [intros Hwo Hwd; exact (proj1 (Hboth Hwo Hwd))|].
    destruct (Js.isWellFormed origin) eqn:Hwo; [|rewrite (He0 eq_refl); cbn; lia].
    destruct (Js.isWellFormed destination) eqn:Hwd;
      [|rewrite (He1 eq_refl eq_refl); cbn; lia].
    destruct (proj1 (Hboth eq_refl eq_refl)) as (rest & -> & Hlen). cbn [length].
    do 2 apply le_n_S. exact Hlen.
  - split; [exact Hb0|]. split; [exact Hb1|].
    split; [intros Hwo Hwd; exact (proj2 (Hboth Hwo Hwd))|].
    destruct (Js.isWellFormed origin) eqn:Hwo; [|rewrite (Hb0 eq_refl); cbn; lia].
    destruct (Js.isWellFormed destination) eqn:Hwd;
      [|rewrite (Hb1 eq_refl eq_refl); cbn; lia].
    destruct (proj2 (Hboth eq_refl eq_refl)) as (rest & -> & Hlen). cbn [length].
    do 2 apply le_n_S. exact Hlen.
Qed.

Lemma requests_are_bounded_witness :
  requests (Enhanced.getRouteAndDetails Sample.world Edge.lone_surrogate "Mysore" None) = [] /\
  requests (Basic.getRouteAndDetails Sample.world "Atlantis" Edge.lone_surrogate None) =
    [(MapboxGeocoding, geocodeUrl Sample.world "Atlantis")].
Proof.
  destruct (requests_are_bounded Sample.world Edge.lone_surrogate "Mysore" None)
    as [(Hnone & _) _].
  destruct (requests_are_bounded Sample.world "Atlantis" Edge.lone_surrogate None)
    as [_ (_ & Hone & _)].
  split; [apply Hnone; reflexivity|apply Hone; reflexivity].
Defined.

(** ** The tool and its reply *)




Lemma aggregate_default_mode_Enhanced (w : World) (origin destination : string)
    (travelMode : option string) :
  Enhanced.getRouteAndDetails w origin destination
    (Some (default_parameter "driving" travelMode)) =
  Enhanced.getRouteAndDetails w origin destination travelMode.
Proof. destruct travelMode; reflexivity. Qed.

Lemma aggregate_default_mode_Basic (w : World) (origin destination : string)
    (travelMode : option string) :
  Basic.getRouteAndDetails w origin destination
    (Some (default_parameter "driving" travelMode)) =
  Basic.getRouteAndDetails w origin destination travelMode.
Proof. destruct travelMode; reflexivity. Qed.

Lemma Enhanced_execute_run (w : World) (origin destination : string)
    (travelMode : option string) (r : result Enhanced.TravelPlan) :
  outcome (Enhanced.getRouteAndDetails w origin destination travelMode) = Normal r ->
  outcome (Enhanced.execute w origin destination travelMode) =
    Normal match r with
           | Success plan => Enhanced.render origin destination plan
           | Failure message => message
           end /\
  requests (Enhanced.execute w origin destination travelMode) =
    requests (Enhanced.getRouteAndDetails w origin destination travelMode).
Proof.
  intros H. unfold Enhanced.execute. cbn zeta.
  rewrite outcome_try_catch, requests_try_catch, outcome_bind, requests_bind.
  rewrite aggregate_default_mode_Enhanced, H.
  destruct r; cbn [outcome requests fst snd mret Async_ret]; now rewrite app_nil_r.
Qed.

Lemma Basic_execute_run (w : World) (origin destination : string)
    (travelMode : option string) (r : result Basic.TravelPlan) :
  outcome (Basic.getRouteAndDetails w origin destination travelMode) = Normal r ->
  outcome (Basic.execute w origin destination travelMode) =
    Normal match r with
           | Success plan => Basic.render origin destination plan
           | Failure message => message
           end /\
  requests (Basic.execute w origin destination travelMode) =
    requests (Basic.getRouteAndDetails w origin destination travelMode).
Proof.
  intros H. unfold Basic.execute. cbn zeta.
  rewrite outcome_try_catch, requests_try_catch, outcome_bind, requests_bind.
  rewrite aggregate_default_mode_Basic, H.
  destruct r; cbn [outcome requests fst snd mret Async_ret]; now rewrite app_nil_r.
Qed.





(** X15.  When both places are geocoded and [getRouteDetails] fails with a
    message, in both revisions [getRouteAndDetails] fails with the same
    message and [execute] returns it as its text. *)
Theorem route_failure_is_reported
    (w : World) (origin destination : string) (travelMode : option string)
    (originCoords destinationCoords : Coordinates.t) (message : string) :
  outcome (getCoordinates w origin) = Normal (Some originCoords) ->
  outcome (getCoordinates w destination) = Normal (Some destinationCoords) ->
  outcome (getRouteDetails w originCoords destinationCoords
             (Some (default_parameter "driving" travelMode))) = Normal (Failure message) ->
  outcome (Enhanced.getRouteAndDetails w origin destination travelMode) =
    Normal (Failure message) /\
  outcome (Enhanced.execute w origin destination travelMode) = Normal message /\
  outcome (Basic.getRouteAndDetails w origin destination travelMode) =
    Normal (Failure message) /\
  outcome (Basic.execute w origin destination travelMode) = Normal message.
Proof.
  intros Ho Hd Hr.
  rewrite getRouteDetails_outcome in Hr. cbn [default_parameter] in Hr. injection Hr as Hr.
  destruct (getPopularPlaces_returns w destination (getCoordinates_normal _ _ _ Hd))
      as [pp Hpp].
  destruct (getHistoricalInfo_returns w destination) as [hh Hhh].
  destruct (getHotelRecommendations_returns w destinationCoords) as [ht Hht].
  pose proof (Enhanced_outcome_coordinates w origin destination travelMode
                _ _ pp hh ht Ho Hd Hpp Hhh Hht) as He.
  pose proof (Basic_outcome_coordinates w origin destination travelMode
                _ _ pp Ho Hd Hpp) as Hb.
  rewrite Hr in He, Hb.
  split; [exact He|]. split; [apply (Enhanced_execute_run _ _ _ _ _ He)|].
  split; [exact Hb|]. apply (Basic_execute_run _ _ _ _ _ Hb).
Qed.

Lemma route_failure_is_reported_witness :
  outcome (Enhanced.execute Edge.no_legs "Bangalore" "Mysore" None) =
    Normal route_failed_message /\
  outcome (Basic.execute Edge.no_legs "Bangalore" "Mysore" None) =
    Normal route_failed_message.
Proof.
  destruct (route_failure_is_reported Edge.no_legs "Bangalore" "Mysore" None
              Sample.coords Sample.coords route_failed_message)
    as (_ & He & _ & Hb); [vm_compute; reflexivity..|].
  split; assumption.
Defined.

Lemma template_flatten (before inner after : list string) :
  Js.template (before ++ Js.template inner :: after) =
  Js.template (before ++ inner ++ after).
Proof.
  rewrite !template_app, template_cons, <- string_app_assoc. reflexivity.
Qed.

(** X16.  When the aggregate succeeds and the historical lookup succeeded, the
    plan holds its result and the reply shows, under "Historical Information
    about <destination>:", the summary, an empty line and "Read more: "
    followed by the source, before the notable places. *)
Theorem history_section_has_source
    (w : World) (origin destination : string) (travelMode : option string)
    (originCoords destinationCoords : Coordinates.t) (route : RouteDetails.t)
    (info : HistoricalInfo.t) :
  outcome (getCoordinates w origin) = Normal (Some originCoords) ->
  outcome (getCoordinates w destination) = Normal (Some destinationCoords) ->
  outcome (getRouteDetails w originCoords destinationCoords
             (Some (default_parameter "driving" travelMode))) = Normal (Success route) ->
  outcome (Enhanced.getHistoricalInfo w destination) = Normal (Success info) ->
  exists plan rest,
    outcome (Enhanced.getRouteAndDetails w origin destination travelMode) =
      Normal (Success plan) /\
    Enhanced.historicalInfo plan = Some info /\
    outcome (Enhanced.execute w origin destination travelMode) =
      Normal (Js.template (history_prefix origin destination route info) +:+ rest).
Proof.
  intros Ho Hd Hr Hh.
  destruct (getPopularPlaces_returns w destination (getCoordinates_normal _ _ _ Hd))
      as [pp Hpp].
  destruct (getHotelRecommendations_returns w destinationCoords) as [ht Hht].
  pose proof (Enhanced_outcome_coordinates w origin destination travelMode
                originCoords destinationCoords pp _ ht Ho Hd Hpp Hh Hht) as Hplan.
  rewrite getRouteDetails_outcome in Hr. cbn [default_parameter] in Hr.
  injection Hr as Hr. rewrite Hr in Hplan.
  eexists. eexists. split; [exact Hplan|]. split; [reflexivity|].
  rewrite (proj1 (Enhanced_execute_run _ _ _ _ _ Hplan)).
  unfold Enhanced.render.
  cbn [Enhanced.duration Enhanced.distance Enhanced.directions Enhanced.historicalInfo
       history_or_null Enhanced.historical_summary Enhanced.historical_source].
  match goal with
  | |- Normal (Js.template ?l) = _ =>
      change l with (take 25 l ++ Js.template [Js.nl; "Read more: "%string;
                                                HistoricalInfo.source info]
                       :: drop 26 l)
  end.
  rewrite template_flatten. cbn [take drop app].
  f_equal.
  match goal with
  | |- Js.template ?l = _ =>
      change l with (history_prefix origin destination route info ++ drop 32 l)
  end.
  rewrite template_app. reflexivity.
Qed.

Lemma history_section_has_source_witness :
  exists rest,
    outcome (Enhanced.execute Sample.world "Bangalore" "Mysore" None) =
      Normal (Js.template
                (history_prefix "Bangalore" "Mysore"
                   (RouteDetails.mk "2 minutes" "1.50 km"
                      (String.concat " -> " (map Step.maneuver_instruction Sample.steps))
                      (omap place_of_step Sample.steps))
                   (HistoricalInfo.mk "An old city."
                      "https://en.wikipedia.org/wiki/Mysore"))
              +:+ rest).
Proof.
  destruct (history_section_has_source Sample.world "Bangalore" "Mysore" None
              Sample.coords Sample.coords
              (RouteDetails.mk "2 minutes" "1.50 km"
                 (String.concat " -> " (map Step.maneuver_instruction Sample.steps))
                 (omap place_of_step Sample.steps))
              (HistoricalInfo.mk "An old city." "https://en.wikipedia.org/wiki/Mysore"))
    as (plan & rest & _ & _ & Htext); [vm_compute; reflexivity..|].
  exists rest. exact Htext.
Defined.

(** ** The chat page *)

Section ChatPage.

Import Chat.

Lemma exchanges_snoc (n : nat) :
  (exchanges n ++ ["user"%string]) ++ ["ai"%string] = exchanges (S n).
Proof.
  induction n as [|n IH]; [reflexivity|].
  cbn [exchanges app] in *. now rewrite IH.
Qed.

Lemma handleSubmit_empty (now : Number.number) (s : State) :
  inputValue s = ""%string -> handleSubmit now s = None.
Proof. intros H. unfold handleSubmit. now rewrite H. Qed.

Lemma role_answer (now : Number.number) (r : fetched) : role (answer now r) = "ai"%string.
Proof.
  destruct r as [|ok [data|]]; cbn [answer]; try reflexivity.
  destruct (ok && _); [destruct (Json.reply data)|]; reflexivity.
Qed.

Lemma dispatch_settled_or_waiting (e : event) (p p' : Page) :
  settled_or_waiting p -> dispatch e p = Some p' -> settled_or_waiting p'.
Proof.
  intros (Hpending & Hinput & n & Hroles) Hstep. unfold settled_or_waiting.
  destruct e as [value|now|now r]; cbn [dispatch] in Hstep.
  - unfold input_disabled in Hstep.
    destruct (loading (state p)) eqn:Hl; [discriminate|].
    injection Hstep as <-. cbn [state pending onInputChange loading messages inputValue].
    rewrite Hl. split; [assumption|]. split; [discriminate|]. now exists n.
  - destruct (loading (state p)) eqn:Hl.
    + rewrite (handleSubmit_empty now _ (Hinput eq_refl)) in Hstep.
      injection Hstep as <-. rewrite Hl. split; [assumption|]. split; [assumption|].
      now exists n.
    + unfold handleSubmit in Hstep.
      destruct (String.eqb _ _).
      * injection Hstep as <-. rewrite Hl. split; [assumption|].
        split; [discriminate|]. now exists n.
      * injection Hstep as <-. cbn [state pending loading messages inputValue].
        destruct (pending p); [|discriminate]. split; [reflexivity|].
        split; [reflexivity|]. exists n.
        rewrite map_app, Hroles, app_nil_r. reflexivity.
  - destruct (pending p) as [|request rest] eqn:Hp; [discriminate|].
    injection Hstep as <-.
    cbn [state pending handleSubmit_settled loading messages inputValue].
    destruct (loading (state p)); [|discriminate].
    destruct rest; [|discriminate]. split; [reflexivity|]. split; [discriminate|].
    exists (S n). rewrite map_app, Hroles. cbn [map]. rewrite role_answer, app_nil_r.
    apply exchanges_snoc.
Qed.

Lemma run_settled_or_waiting (events : list event) (p p' : Page) :
  settled_or_waiting p -> run events p = Some p' -> settled_or_waiting p'.
Proof.
  revert p. induction events as [|e events IH]; intros p Hp Hrun; cbn [run] in Hrun.
  - now injection Hrun as <-.
  - destruct (dispatch e p) as [q|] eqn:Hstep; [|discriminate].
    eapply IH; [|exact Hrun]. eapply dispatch_settled_or_waiting; eassumption.
Qed.

Lemma start_settled : settled_or_waiting start.
Proof. split; [reflexivity|]. split; [discriminate|]. now exists 0%nat. Qed.

Lemma reply_truthy (data : Json.t) :
  Json.ToBoolean (Json.reply data) = true -> exists reply, Json.reply data = Some reply.
Proof. destruct (Json.reply data); [eauto|discriminate]. Qed.

(** X17.  After any sequence of input changes, submissions and settled calls from
    the initial page, at most one call is in flight, exactly while [loading]
    is set; while it is, the input is empty and a further submission changes
    nothing; and the roles of the messages alternate user, ai, ending with a
    user message exactly while loading. *)
Theorem one_call_in_flight (events : list Chat.event) (p : Chat.Page) :
  Chat.run events Chat.start = Some p ->
  length (Chat.pending p) = (if Chat.loading (Chat.state p) then 1 else 0)%nat /\
  (Chat.loading (Chat.state p) = true ->
   Chat.inputValue (Chat.state p) = ""%string /\
   forall now, Chat.dispatch (Chat.Submit now) p = Some p) /\
  exists n,
    map Chat.role (Chat.messages (Chat.state p)) =
    exchanges n ++ (if Chat.loading (Chat.state p) then ["user"%string] else []).
Proof.
  intros Hrun.
  destruct (run_settled_or_waiting events start p start_settled Hrun)
    as (Hpending & Hinput & Hroles).
  split; [assumption|]. split; [|assumption].
  intros Hl. split; [auto|]. intros now. cbn [dispatch].
  now rewrite (handleSubmit_empty now _ (Hinput Hl)).
Qed.

Lemma one_call_in_flight_witness :
  exists p,
    Chat.run [Chat.Change "Plan a trip"; Chat.Submit (Number.of_Z 5);
              Chat.Submit (Number.of_Z 6)] Chat.start = Some p /\
    length (Chat.pending p) = 1%nat /\
    map Chat.role (Chat.messages (Chat.state p)) = ["user"%string].
Proof.
  eexists. split; [vm_compute; reflexivity|].
  destruct (one_call_in_flight
              [Chat.Change "Plan a trip"; Chat.Submit (Number.of_Z 5);
               Chat.Submit (Number.of_Z 6)] _ eq_refl) as (Hp & _ & _).
  split; [exact Hp|reflexivity].
Defined.

(** X18.  On every page reached from the initial one, the submit button is
    disabled exactly when [handleSubmit] would return without sending. *)
Theorem button_mirrors_handler (events : list Chat.event) (p : Chat.Page)
    (now : Number.number) :
  Chat.run events Chat.start = Some p ->
  Chat.button_disabled (Chat.state p) = true <->
  Chat.handleSubmit now (Chat.state p) = None.
Proof.
  intros Hrun.
  destruct (run_settled_or_waiting events start p start_settled Hrun)
    as (_ & Hinput & _).
  unfold button_disabled, handleSubmit.
  destruct (loading (state p)) eqn:Hl.
  - rewrite (Hinput eq_refl). cbn. split; reflexivity.
  - rewrite orb_false_r. destruct (String.eqb _ _); split; congruence.
Qed.

Lemma button_mirrors_handler_witness :
  Chat.button_disabled
    (Chat.mkState [Chat.mkMessage (Number.of_Z 5) (Json.JString "Plan a trip") "user"]
       "" true) = true.
Proof.
  apply (button_mirrors_handler
           [Chat.Change "Plan a trip"; Chat.Submit (Number.of_Z 5)]
           (Chat.mkPage
              (Chat.mkState
                 [Chat.mkMessage (Number.of_Z 5) (Json.JString "Plan a trip") "user"]
                 "" true)
              [Chat.mkRequest "Plan a trip"])
           (Number.of_Z 6)).
  - vm_compute. reflexivity.
  - vm_compute. reflexivity.
Defined.

(** X19.  A submission with an input that is not blank sends the input untrimmed
    and, once the call has settled, has appended the user message and one ai
    message, emptied the input and cleared [loading].  The ai message is the
    reply only for a response that is ok with a truthy [reply]; a rejected
    call or a body that is not JSON gives "Error: Could not connect to
    server."; any other response gives "Error: Failed to get AI
    response.". *)
Theorem exchange_appends_question_and_answer
    (s : Chat.State) (now now' : Number.number) (r : Chat.fetched) :
  Chat.trim (Chat.inputValue s) <> ""%string ->
  exists s1 answer,
    Chat.handleSubmit now s = Some (s1, Chat.mkRequest (Chat.inputValue s)) /\
    Chat.handleSubmit_settled now' r s1 =
      Chat.mkState
        (Chat.messages s ++
           [Chat.mkMessage now (Json.JString (Chat.inputValue s)) "user";
            Chat.mkMessage (Chat.later now') answer "ai"])
        "" false /\
    (answer = Json.JString Chat.unreachable_message \/
     answer = Json.JString Chat.failed_message \/
     exists data,
       r = Chat.Responded true (Some data) /\ Json.reply data = Some answer /\
       Json.ToBoolean (Some answer) = true) /\
    (r = Chat.NetworkError \/ (exists ok, r = Chat.Responded ok None) ->
     answer = Json.JString Chat.unreachable_message) /\
    (forall ok data,
       r = Chat.Responded ok (Some data) ->
       ok = false \/ Json.ToBoolean (Json.reply data) = false ->
       answer = Json.JString Chat.failed_message).
Proof.
  intros Hinput.
  assert (String.eqb (trim (inputValue s)) "" = false) as Hguard
    by (now apply String.eqb_neq).
  exists (mkState (messages s ++ [mkMessage now (Json.JString (inputValue s)) "user"]) "" true).
  exists (content (answer now' r)).
  split; [unfold handleSubmit; now rewrite Hguard|].
  split.
  - unfold handleSubmit_settled. cbn [messages inputValue]. rewrite <- app_assoc.
    cbn [app]. do 3 f_equal.
    destruct r as [|ok [data|]]; cbn [answer]; try reflexivity.
    destruct (ok && _); [destruct (Json.reply data)|]; reflexivity.
  - destruct r as [|ok [data|]]; cbn [answer content].
    + split; [now left|]. split; [reflexivity|]. intros ? ? [=].
    + destruct ok; cbn [andb].
      * destruct (Json.ToBoolean (Json.reply data)) eqn:Htruthy.
        -- destruct (reply_truthy data Htruthy) as [reply Hreply].
           rewrite Hreply in *. cbn [content].
           split; [right; right; exists data; auto|].
           split; [intros [[=]|[? [=]]]|].
           intros ? ? [= <- <-] [[=]|H]. rewrite Hreply in H. congruence.
        -- cbn [content]. split; [right; now left|].
           split; [intros [[=]|[? [=]]]|]. reflexivity.
      * cbn [content]. split; [right; now left|].
        split; [intros [[=]|[? [=]]]|]. reflexivity.
    + split; [now left|]. split; [reflexivity|]. intros ? ? [=].
Qed.

Lemma exchange_appends_question_and_answer_witness :
  exists answer,
    Chat.handleSubmit_settled (Number.of_Z 7)
      (Chat.Responded true
         (Some (Json.JObject [("error"%string, Json.JString "messages is undefined")])))
      (Chat.mkState [Chat.mkMessage (Number.of_Z 5) (Json.JString " Plan a trip ") "user"]
         "" true) =
    Chat.mkState
      [Chat.mkMessage (Number.of_Z 5) (Json.JString " Plan a trip ") "user";
       Chat.mkMessage (Chat.later (Number.of_Z 7)) answer "ai"] "" false /\
    answer = Json.JString Chat.failed_message.
Proof.
  destruct (exchange_appends_question_and_answer
              (Chat.mkState [] " Plan a trip " false) (Number.of_Z 5) (Number.of_Z 7)
              (Chat.Responded true
                 (Some (Json.JObject
                          [("error"%string, Json.JString "messages is undefined")]))))
    as (s1 & answer & Hs1 & Hs2 & _ & _ & Hfailed); [vm_compute; discriminate|].
  exists answer. vm_compute in Hs1. injection Hs1 as <-.
  split; [exact Hs2|].
  apply (Hfailed true _ eq_refl). right. reflexivity.
Defined.

End ChatPage.
